(** * Document delivery pipeline of the viewer component (src/App.tsx)

    A shallow embedding of [DocumentViewer]: the message listener, the
    base64 acquisition path, the dispatch on the file extension and the
    three format handlers, together with the platform functions they call.

    Conventions.
    - A JavaScript string is a [string]; the characters of a binary string
      (the result of [atob]) are exactly the 8-bit codes of [ascii].
    - A JavaScript number that holds a byte or a length is a [Z].
    - React state is a record; a setter call replaces the field at once
      (the modelled code never reads a state variable back, so the batching
      of renders is not observable here).
    - An asynchronous function is cut at each [await] on a platform promise:
      the part before the cut runs inside the event that starts it, the rest
      is kept in a table of suspended calls and runs when the promise
      settles. An [await] on a promise of the component itself (the result
      of [processFile]) resumes in the same microtask checkpoint, before any
      other event, and is run in sequence. *)

From Stdlib Require Import ZArith List String Ascii Bool Lia DecimalString.
Import ListNotations.
#[local] Set Warnings "-register-all".
Local Open Scope Z_scope.
Local Open Scope list_scope.
Local Open Scope string_scope.

(** ** JavaScript strings *)

(** [s.includes(sub)] *)
Fixpoint includes (s sub : string) : bool :=
  String.prefix sub s ||
  match s with
  | EmptyString => false
  | String _ s' => includes s' sub
  end.

(** [s.split(sep)] for a one-character separator: never empty. *)
Fixpoint split (sep : ascii) (s : string) : list string :=
  match s with
  | EmptyString => [EmptyString]
  | String c s' =>
      if Ascii.eqb c sep then EmptyString :: split sep s'
      else match split sep s' with
           | seg :: segs => String c seg :: segs
           | [] => [String c EmptyString]
           end
  end.

(** [arr.pop()]: the last element, [undefined] on an empty array. *)
Fixpoint pop (arr : list string) : option string :=
  match arr with
  | [] => None
  | [x] => Some x
  | _ :: arr' => pop arr'
  end.

Definition lowerChar (c : ascii) : ascii :=
  let n := N_of_ascii c in
  if ((65 <=? n) && (n <=? 90))%N then ascii_of_N (n + 32) else c.

(** [s.toLowerCase()] on the ASCII letters; other code units are kept (no
    other code unit lowercases to a letter of the six known extensions). *)
Fixpoint toLowerCase (s : string) : string :=
  match s with
  | EmptyString => EmptyString
  | String c s' => String (lowerChar c) (toLowerCase s')
  end.

(** Decimal rendering of a non-negative integer, as a template literal
    prints a length or a size. *)
Definition decimal (n : Z) : string :=
  NilZero.string_of_uint (N.to_uint (Z.to_N n)).

Fixpoint join (sep : string) (l : list string) : string :=
  match l with
  | [] => EmptyString
  | [x] => x
  | x :: l' => x ++ sep ++ join sep l'
  end.

(** The double quote, and a double-quoted text. *)
Definition dquote : string := String (ascii_of_N 34) EmptyString.
Definition quoted (s : string) : string := dquote ++ s ++ dquote.

(** ** JavaScript values and exceptions *)

(** The values [JSON.parse] can build, and [undefined]. A number is kept as
    the text [Number.prototype.toString] gives for it; an object as its own
    members in enumeration order. *)
Inductive JsVal : Type :=
| JUndefined
| JNull
| JBool (b : bool)
| JNumber (repr : string)
| JString (s : string)
| JArray (elems : list JsVal)
| JObject (members : list (string * JsVal)).

(** A thrown value: an instance of [Error] with its [name] and [message], or
    anything else, kept as its string conversion. *)
Inductive Exn : Type :=
| ErrorObj (name message : string)
| Thrown (repr : string).

(** [err instanceof Error ? err.message : fallback] *)
Definition messageOr (fallback : string) (err : Exn) : string :=
  match err with
  | ErrorObj _ message => message
  | Thrown _ => fallback
  end.

(** [`${error}`]: [Error.prototype.toString]. *)
Definition exnToString (err : Exn) : string :=
  match err with
  | ErrorObj name message =>
      if (name =? EmptyString)%string then message
      else if (message =? EmptyString)%string then name
      else name ++ ": " ++ message
  | Thrown repr => repr
  end.

(** [`${v}`]: the string conversion of a value. Plain objects only: a parsed
    object, or an array with such an element, that carries a [toString]
    member of its own makes the conversion throw a [TypeError]; such values
    are outside the model. *)
Fixpoint ToString (v : JsVal) : string :=
  match v with
  | JUndefined => "undefined"
  | JNull => "null"
  | JBool true => "true"
  | JBool false => "false"
  | JNumber repr => repr
  | JString s => s
  | JArray elems =>
      join "," (map (fun e => match e with
                              | JUndefined | JNull => EmptyString
                              | _ => ToString e
                              end) elems)
  | JObject _ => "[object Object]"
  end.

(** [typeof v === 'string'] *)
Definition isString (v : JsVal) : bool :=
  match v with JString _ => true | _ => false end.

(** [v === 'text'] *)
Definition strictEqualsString (v : JsVal) (text : string) : bool :=
  match v with JString s => (s =? text)%string | _ => false end.

Fixpoint member (key : string) (members : list (string * JsVal)) : option JsVal :=
  match members with
  | [] => None
  | (k, v) :: rest => if (k =? key)%string then Some v else member key rest
  end.

(** ** JSON.stringify *)

Definition hexDigit (n : N) : ascii :=
  if (n <? 10)%N then ascii_of_N (48 + n) else ascii_of_N (87 + n).

(** The escape of one code unit inside a JSON string. *)
Definition escapeChar (c : ascii) : string :=
  let n := N_of_ascii c in
  if (n =? 34)%N then "\" ++ dquote
  else if (n =? 92)%N then "\\"
  else if (n =? 8)%N then "\b"
  else if (n =? 12)%N then "\f"
  else if (n =? 10)%N then "\n"
  else if (n =? 13)%N then "\r"
  else if (n =? 9)%N then "\t"
  else if (n <? 32)%N then
    "\u00" ++ String (hexDigit (n / 16)) (String (hexDigit (n mod 16)) EmptyString)
  else String c EmptyString.

Fixpoint escape (s : string) : string :=
  match s with
  | EmptyString => EmptyString
  | String c s' => escapeChar c ++ escape s'
  end.

Definition stringifyString (s : string) : string := quoted (escape s).

(** [JSON.stringify(v)] for a value; [None] where the result is
    [undefined]. Inside an array [undefined] prints as [null], inside an
    object the member is left out. *)
Fixpoint stringifyVal (v : JsVal) : option string :=
  match v with
  | JUndefined => None
  | JNull => Some "null"
  | JBool true => Some "true"
  | JBool false => Some "false"
  | JNumber repr => Some repr
  | JString s => Some (stringifyString s)
  | JArray elems =>
      Some ("[" ++ join "," (map (fun e => match stringifyVal e with
                                           | Some t => t
                                           | None => "null"
                                           end) elems) ++ "]")
  | JObject members =>
      Some ("{" ++ join ","
              (flat_map (fun kv => match stringifyVal (snd kv) with
                                   | Some t => [stringifyString (fst kv) ++ ":" ++ t]
                                   | None => []
                                   end) members) ++ "}")
  end.

(** ** Base64

    [atob] and the encoder of the host are platform functions, not code of
    the repository. *)

Definition b64alphabet : list ascii :=
  list_ascii_of_string
    "ABCDEFGHIJKLMNOPQRSTUVWXYZabcdefghijklmnopqrstuvwxyz0123456789+/".

Definition padChar : ascii := "="%char.

(** The character of a 6-bit value. *)
Definition b64char (v : Z) : ascii := nth (Z.to_nat v) b64alphabet padChar.

Fixpoint indexOf (c : ascii) (l : list ascii) : option Z :=
  match l with
  | [] => None
  | d :: l' => if Ascii.eqb c d then Some 0
               else option_map Z.succ (indexOf c l')
  end.

(** The 6-bit value of a character of the alphabet. *)
Definition b64index (c : ascii) : option Z := indexOf c b64alphabet.

(** Modelled from the spec: the host-side [base64Encode] of the round-trip
    property is not in the repository; this is the standard encoding
    (RFC 4648, section 4): three bytes give four characters, a final group
    of one or two bytes is padded with [=]. *)
Fixpoint base64Encode (B : list Z) : list ascii :=
  match B with
  | [] => []
  | [a] => [b64char (a / 4); b64char (a mod 4 * 16); padChar; padChar]
  | [a; b] => [b64char (a / 4); b64char (a mod 4 * 16 + b / 16);
               b64char (b mod 16 * 4); padChar]
  | a :: b :: c :: rest =>
      b64char (a / 4) :: b64char (a mod 4 * 16 + b / 16)
      :: b64char (b mod 16 * 4 + c / 64) :: b64char (c mod 64)
      :: base64Encode rest
  end.

(** TAB, LF, FF, CR and SPACE. *)
Definition isAsciiWhitespace (c : ascii) : bool :=
  let n := N_of_ascii c in
  (n =? 9)%N || (n =? 10)%N || (n =? 12)%N || (n =? 13)%N || (n =? 32)%N.

Definition notWhitespace (c : ascii) : bool := negb (isAsciiWhitespace c).

Definition isPad (c : ascii) : bool := Ascii.eqb c padChar.

(** Removes one or two [=] at the end of the text. *)
Fixpoint stripPadding (l : list ascii) : list ascii :=
  match l with
  | [] => []
  | c :: l' =>
      if isPad c && match l' with
                    | [] => true
                    | [d] => isPad d
                    | _ => false
                    end
      then []
      else c :: stripPadding l'
  end.

(** The 6-bit values of a text; fails on a character outside the alphabet. *)
Fixpoint sextets (l : list ascii) : option (list Z) :=
  match l with
  | [] => Some []
  | c :: l' =>
      match b64index c, sextets l' with
      | Some v, Some vs => Some (v :: vs)
      | _, _ => None
      end
  end.

(** Four 6-bit values give three bytes; a final group of three gives two
    bytes (its last two bits dropped) and a final group of two gives one byte
    (its last four bits dropped). *)
Fixpoint decodeSextets (vs : list Z) : list Z :=
  match vs with
  | a :: b :: c :: d :: rest =>
      let n := ((a * 64 + b) * 64 + c) * 64 + d in
      n / 65536 :: n / 256 mod 256 :: n mod 256 :: decodeSextets rest
  | [a; b; c] =>
      let n := ((a * 64 + b) * 64 + c) / 4 in [n / 256; n mod 256]
  | [a; b] => [(a * 64 + b) / 16]
  | _ => []
  end.

(** Modelled from the spec: [fromBase64] is a standard base64 decode that
    fails on an invalid alphabet or padding; the source calls the platform's
    [atob] for it (src/App.tsx, line 121), which is not code of the
    repository. This is the decoding [atob] is defined by (the
    forgiving-base64 decode of the WHATWG Infra standard): ASCII whitespace
    is removed; if the length is then a multiple of four, one or two final
    [=] are removed; a length of 1 modulo 4, or any character outside the
    alphabet, is a failure ([None], where [atob] throws). The result is a
    binary string. *)
Definition atob (data : string) : option string :=
  let d1 := filter notWhitespace (list_ascii_of_string data) in
  let d2 := if (Z.of_nat (List.length d1) mod 4 =? 0)%Z then stripPadding d1 else d1 in
  if (Z.of_nat (List.length d2) mod 4 =? 1)%Z then None
  else match sextets d2 with
       | None => None
       | Some vs =>
           Some (string_of_list_ascii
                   (map (fun n => ascii_of_N (Z.to_N n)) (decodeSextets vs)))
       end.

(** [byteNumbers[i] = byteCharacters.charCodeAt(i)] for every index
    (src/App.tsx, lines 124-127). *)
Definition charCodes (byteCharacters : string) : list Z :=
  map (fun c => Z.of_N (N_of_ascii c)) (list_ascii_of_string byteCharacters).

(** [new Uint8Array(byteNumbers)]: every number is stored modulo 256. *)
Definition Uint8Array (byteNumbers : list Z) : list Z :=
  map (fun n => n mod 256) byteNumbers.

(** The acquisition of src/App.tsx, lines 121-128: the bytes of a base64
    payload, [None] when [atob] throws. *)
Definition fromBase64 (payload : string) : option (list Z) :=
  option_map (fun byteCharacters => Uint8Array (charCodes byteCharacters))
             (atob payload).

Definition isByte (b : Z) : Prop := 0 <= b < 256.

(** ** Data of the component *)

(** [type FileType = 'word' | 'excel' | 'powerpoint' | ''] *)
Inductive FileType : Type := word | excel | powerpoint | noFileType.

(** A [File]: its name and its bytes (a [Blob] is its bytes). *)
Record File : Type := { name : string; content : list Z }.

Definition byteLength (bytes : list Z) : Z := Z.of_nat (List.length bytes).

(** [file.size] *)
Definition size (file : File) : Z := byteLength (content file).

(** A worksheet, kept as the rows [XLSX.utils.sheet_to_json(ws, {header: 1})]
    returns for it. *)
Definition Worksheet : Type := list (list JsVal).

Definition sheet_to_json (worksheet : Worksheet) : list (list JsVal) := worksheet.

Record Workbook : Type := {
  SheetNames : list string;
  Sheets : string -> Worksheet
}.

(** [interface ExcelSheetData { [sheetName: string]: (string | number)[][] }] *)
Definition ExcelSheetData : Type := list (string * list (list JsVal)).

(** The definition of an own member: replaces the member where the key
    exists, adds it at the end otherwise. The list keeps the members in the
    order in which they were added; the order in which [Object.entries]
    lists them (integer-like keys first) is not modelled. *)
Fixpoint assign {A : Type} (key : string) (v : A) (obj : list (string * A))
  : list (string * A) :=
  match obj with
  | [] => [(key, v)]
  | (k, x) :: rest =>
      if (k =? key)%string then (k, v) :: rest else (k, x) :: assign key v rest
  end.

(** [obj[key] = v] on an object made by [{}], for a [v] that is an array:
    the key [__proto__] reaches the setter the object inherits from
    [Object.prototype], which replaces the prototype and adds no member;
    every other key becomes a member. *)
Definition setProperty {A : Type} (key : string) (v : A) (obj : list (string * A))
  : list (string * A) :=
  if (key =? "__proto__")%string then obj else assign key v obj.

(** [interface NativeMessage]: the two optional fields are absent ([None])
    where the object literal does not give them. [fileName] holds whatever
    value the caller passed. *)
Inductive NativeType : Type := READY | LOADED | WEB_ERROR.

Record NativeMessage : Type := {
  type : NativeType;
  fileName : option JsVal;
  message : option string
}.

Definition nativeTypeText (t : NativeType) : string :=
  match t with
  | READY => "READY"
  | LOADED => "LOADED"
  | WEB_ERROR => "WEB_ERROR"
  end.

(** [JSON.stringify(message)] of a [NativeMessage]. *)
Definition JSON_stringify (m : NativeMessage) : string :=
  match stringifyVal
          (JObject ([("type", JString (nativeTypeText (type m)))]
                    ++ match fileName m with
                       | Some v => [("fileName", v)]
                       | None => []
                       end
                    ++ match message m with
                       | Some s => [("message", JString s)]
                       | None => []
                       end)%list)
  with
  | Some text => text
  | None => EmptyString
  end.

(** The state variables of [DocumentViewer] (src/App.tsx, lines 33-39).
    [debugInfo] keeps the lines of the log without the wall-clock prefix
    [addDebugInfo] puts before each. *)
Record ViewerState : Type := {
  selectedFile : option File;
  fileType : FileType;
  isLoading : bool;
  error : string;
  excelData : option ExcelSheetData;
  isEmbedded : bool;
  debugInfo : list string
}.

Definition initialState : ViewerState :=
  {| selectedFile := None; fileType := noFileType; isLoading := false;
     error := EmptyString; excelData := None; isEmbedded := false;
     debugInfo := [] |}.

(** The two libraries that render or read a document. *)
Inductive Processor : Type := docx_preview | xlsx.

(** What the component does to its surroundings, one constructor per
    primitive of the source: the state setters, [addDebugInfo],
    [postMessageToNative], [viewerRef.current.innerHTML = ''] and the calls
    of [renderAsync] and [XLSX.read]. *)
Inductive Call : Type :=
| setSelectedFile (file : File)
| setFileType (t : FileType)
| setIsLoading (b : bool)
| setError (text : string)
| setExcelData (data : option ExcelSheetData)
| setIsEmbedded (b : bool)
| addDebugInfo (info : string)
| postMessageToNative (m : NativeMessage)
| clearViewer
| invoke (p : Processor) (bytes : list Z).

(** Where an asynchronous call of [processFile] is suspended. *)
Inductive Awaiting : Type :=
| wordArrayBuffer (file : File)   (* src/App.tsx, line 180 *)
| wordRender                      (* line 186 *)
| excelArrayBuffer (file : File). (* line 202 *)

(** Which function awaits [processFile], with the variables it still needs. *)
Inductive Caller : Type :=
| viaBase64 (fileName : JsVal)    (* loadFileFromBase64, line 136 *)
| viaUpload.                      (* handleFileUpload, line 235 *)

(** What waits for the platform: a suspended call, or the timer of line 68. *)
Inductive Task : Type :=
| suspendedCall (point : Awaiting) (caller : Caller)
| readyTimer.

(** The component and its surroundings. [bridge] is
    [window.ReactNativeWebView]: [None] where it is absent, otherwise the
    texts posted to it, oldest first. [tasks] are the suspended calls, oldest
    first, and [calls] is every primitive performed so far, oldest first. *)
Record World : Type := {
  view : ViewerState;
  bridge : option (list string);
  tasks : list Task;
  calls : list Call
}.

Definition initialWorld (bridge : option (list string)) : World :=
  {| view := initialState; bridge := bridge; tasks := []; calls := [] |}.

Definition applyCall (c : Call) (v : ViewerState) : ViewerState :=
  match c with
  | setSelectedFile file =>
      {| selectedFile := Some file; fileType := fileType v;
         isLoading := isLoading v; error := error v; excelData := excelData v;
         isEmbedded := isEmbedded v; debugInfo := debugInfo v |}
  | setFileType t =>
      {| selectedFile := selectedFile v; fileType := t;
         isLoading := isLoading v; error := error v; excelData := excelData v;
         isEmbedded := isEmbedded v; debugInfo := debugInfo v |}
  | setIsLoading b =>
      {| selectedFile := selectedFile v; fileType := fileType v;
         isLoading := b; error := error v; excelData := excelData v;
         isEmbedded := isEmbedded v; debugInfo := debugInfo v |}
  | setError text =>
      {| selectedFile := selectedFile v; fileType := fileType v;
         isLoading := isLoading v; error := text; excelData := excelData v;
         isEmbedded := isEmbedded v; debugInfo := debugInfo v |}
  | setExcelData data =>
      {| selectedFile := selectedFile v; fileType := fileType v;
         isLoading := isLoading v; error := error v; excelData := data;
         isEmbedded := isEmbedded v; debugInfo := debugInfo v |}
  | setIsEmbedded b =>
      {| selectedFile := selectedFile v; fileType := fileType v;
         isLoading := isLoading v; error := error v; excelData := excelData v;
         isEmbedded := b; debugInfo := debugInfo v |}
  | addDebugInfo info =>
      {| selectedFile := selectedFile v; fileType := fileType v;
         isLoading := isLoading v; error := error v; excelData := excelData v;
         isEmbedded := isEmbedded v; debugInfo := (debugInfo v ++ [info])%list |}
  | postMessageToNative _ | clearViewer | invoke _ _ => v
  end.

(** [if (window.ReactNativeWebView) window.ReactNativeWebView.postMessage(...)] *)
Definition deliver (c : Call) (bridge : option (list string)) : option (list string) :=
  match c, bridge with
  | postMessageToNative m, Some posted => Some (posted ++ [JSON_stringify m])%list
  | _, _ => bridge
  end.

Definition perform (c : Call) (w : World) : World :=
  {| view := applyCall c (view w);
     bridge := deliver c (bridge w);
     tasks := tasks w;
     calls := (calls w ++ [c])%list |}.

(** ** Synchronous code: state and exceptions *)

Definition M (A : Type) : Type := World -> (Exn + A) * World.

Definition ret {A : Type} (a : A) : M A := fun w => (inr a, w).

Definition bind {A B : Type} (m : M A) (k : A -> M B) : M B :=
  fun w => match m w with
           | (inr a, w') => k a w'
           | (inl e, w') => (inl e, w')
           end.

Definition throw {A : Type} (e : Exn) : M A := fun w => (inl e, w).

(** [try { m } catch (error) { handler error }] *)
Definition tryCatch {A : Type} (m : M A) (handler : Exn -> M A) : M A :=
  fun w => match m w with
           | (inr a, w') => (inr a, w')
           | (inl e, w') => handler e w'
           end.

(** The outcome of [m] as a value: how a promise settles. *)
Definition attempt {A : Type} (m : M A) : M (Exn + A) :=
  fun w => match m w with (r, w') => (inr r, w') end.

(** The value of a settled promise, or its rejection thrown at the [await]. *)
Definition settled {A : Type} (r : Exn + A) : M A :=
  match r with
  | inr a => ret a
  | inl e => throw e
  end.

Definition call (c : Call) : M unit := fun w => (inr tt, perform c w).

Definition suspend (point : Awaiting) (caller : Caller) : M unit :=
  fun w => (inr tt,
            {| view := view w; bridge := bridge w;
               tasks := (tasks w ++ [suspendedCall point caller])%list;
               calls := calls w |}).

Definition setTimeout (t : Task) : M unit :=
  fun w => (inr tt,
            {| view := view w; bridge := bridge w;
               tasks := (tasks w ++ [t])%list; calls := calls w |}).

Declare Scope js_scope.
Delimit Scope js_scope with js.
Notation "x <- m ;; k" := (bind m (fun x => k))
  (at level 61, m at next level, right associativity) : js_scope.
Notation "m ;; k" := (bind m (fun _ => k))
  (at level 61, right associativity) : js_scope.
Local Open Scope js_scope.

(** ** The platform and the libraries

    What the component calls and the repository does not define. The texts of
    the messages differ from one JavaScript engine to the next, so they are
    parameters. *)
Record Engine : Type := {
  (** [JSON.parse(text)]: the value, or the message of the [SyntaxError]. *)
  JSON_parse : string -> string + JsVal;
  (** The message of the [TypeError] raised by reading member [key] of
      [null] or [undefined]. *)
  nullishReadMessage : JsVal -> string -> string;
  (** The message of the exception [atob] throws. *)
  atobMessage : string;
  (** [XLSX.read(arrayBuffer, {type: 'array'})] followed by the conversion
      of its sheets: the workbook, or what is thrown. *)
  XLSX_read : list Z -> Exn + Workbook
}.

(** ** Format classifier *)

(** [file.name.split('.').pop()?.toLowerCase()] (src/App.tsx, line 153). *)
Definition fileExtension (fileName : string) : option string :=
  option_map toLowerCase (pop (split "."%char fileName)).

(** [fileExtension === 'text'] *)
Definition extensionIs (ext : option string) (text : string) : bool :=
  match ext with
  | Some s => (s =? text)%string
  | None => false
  end.

Inductive ProcessorKind : Type := Word | Excel | PowerPoint | Unknown.

(** The branch [processFile] takes (src/App.tsx, lines 157-168). *)
Definition classify (fileName : string) : ProcessorKind :=
  let ext := fileExtension fileName in
  if extensionIs ext "docx" || extensionIs ext "doc" then Word
  else if extensionIs ext "xlsx" || extensionIs ext "xls" then Excel
  else if extensionIs ext "pptx" || extensionIs ext "ppt" then PowerPoint
  else Unknown.

Section Component.

Variable E : Engine.

(** [v.key] *)
Definition get (v : JsVal) (key : string) : M JsVal :=
  match v with
  | JUndefined | JNull => throw (ErrorObj "TypeError" (nullishReadMessage E v key))
  | JObject members =>
      ret (match member key members with Some x => x | None => JUndefined end)
  | JString s =>
      ret (if (key =? "length")%string
           then JNumber (decimal (Z.of_nat (String.length s))) else JUndefined)
  | JArray elems =>
      ret (if (key =? "length")%string
           then JNumber (decimal (Z.of_nat (List.length elems))) else JUndefined)
  | JBool _ | JNumber _ => ret JUndefined
  end.

(** [postErrorToNative] (lines 51-53). *)
Definition postErrorToNative (text : string) : M unit :=
  call (postMessageToNative
          {| type := WEB_ERROR; fileName := None; message := Some text |}).

(** *** The format handlers *)

(** [processWordDocument] up to its first [await] (lines 176-180). *)
Definition processWordDocument (file : File) : M Awaiting :=
  call (addDebugInfo "Processing Word document...") ;;
  call (setFileType word) ;;
  ret (wordArrayBuffer file).

Definition processWordDocument_catch {A : Type} (body : M A) : M A :=
  tryCatch body
    (fun error =>
       call (addDebugInfo ("Error processing Word document: " ++ exnToString error)) ;;
       throw error).

(** [processWordDocument] from the settlement of [file.arrayBuffer()] to the
    call of [renderAsync] (lines 180-190). [viewer] tells whether
    [viewerRef.current] is set at that moment. *)
Definition processWordDocument_buffer
    (file : File) (arrayBuffer : Exn + unit) (viewer : bool) : M Awaiting :=
  processWordDocument_catch
    (settled arrayBuffer ;;
     call (addDebugInfo ("ArrayBuffer size: " ++ decimal (size file))) ;;
     if viewer then
       call (addDebugInfo "Clearing viewer and rendering...") ;;
       call clearViewer ;;
       call (invoke docx_preview (content file)) ;;
       ret wordRender
     else throw (ErrorObj "Error" "Viewer container not available")).

(** [processWordDocument] from the settlement of [renderAsync] on
    (lines 186-194). *)
Definition processWordDocument_render (rendered : Exn + unit) : M unit :=
  processWordDocument_catch
    (settled rendered ;;
     call (addDebugInfo "Word document rendered successfully!")).

(** [processExcelDocument] up to its [await] (lines 198-202). *)
Definition processExcelDocument (file : File) : M Awaiting :=
  call (addDebugInfo "Processing Excel document...") ;;
  call (setFileType excel) ;;
  ret (excelArrayBuffer file).

(** The loop of lines 205-210. *)
Definition sheetsOf (workbook : Workbook) : ExcelSheetData :=
  fold_left
    (fun sheetsData sheetName =>
       setProperty sheetName (sheet_to_json (Sheets workbook sheetName)) sheetsData)
    (SheetNames workbook) [].

(** [processExcelDocument] from the settlement of [file.arrayBuffer()] on
    (lines 202-217). *)
Definition processExcelDocument_buffer
    (file : File) (arrayBuffer : Exn + unit) : M unit :=
  tryCatch
    (settled arrayBuffer ;;
     call (invoke xlsx (content file)) ;;
     workbook <- settled (XLSX_read E (content file)) ;;
     call (setExcelData (Some (sheetsOf workbook))) ;;
     call (addDebugInfo "Excel document processed successfully"))
    (fun error =>
       call (addDebugInfo ("Error processing Excel document: " ++ exnToString error)) ;;
       throw error).

(** [processPowerPointDocument] (lines 220-223). *)
Definition processPowerPointDocument : M unit :=
  call (addDebugInfo "Processing PowerPoint document...") ;;
  call (setFileType powerpoint).

(** *** Dispatch *)

(** The [catch] of [processFile] (lines 169-172), around each of its parts. *)
Definition processFile_catch {A : Type} (body : M A) : M A :=
  tryCatch body
    (fun error =>
       call (addDebugInfo ("Error in processFile: " ++ exnToString error)) ;;
       throw error).

Definition showExtension (ext : option string) : string :=
  match ext with Some s => s | None => "undefined" end.

(** [processFile] up to the first [await] of the handler it calls
    (lines 151-173): [Some point] where the handler is suspended, [None]
    where [processFile] has run to its end. *)
Definition processFile (file : File) : M (option Awaiting) :=
  call (addDebugInfo ("Processing file: " ++ name file ++ ", size: "
                      ++ decimal (size file))) ;;
  call (addDebugInfo ("File extension: " ++ showExtension (fileExtension (name file)))) ;;
  processFile_catch
    match classify (name file) with
    | Word => point <- processWordDocument file ;; ret (Some point)
    | Excel => point <- processExcelDocument file ;; ret (Some point)
    | PowerPoint => processPowerPointDocument ;; ret None
    | Unknown => throw (ErrorObj "Error" "Unsupported file type")
    end.

(** [processFile] from the settlement of the promise it is suspended on. *)
Definition processFile_resume
    (point : Awaiting) (outcome : Exn + unit) (viewer : bool) : M (option Awaiting) :=
  processFile_catch
    match point with
    | wordArrayBuffer file =>
        next <- processWordDocument_buffer file outcome viewer ;; ret (Some next)
    | wordRender => processWordDocument_render outcome ;; ret None
    | excelArrayBuffer file => processExcelDocument_buffer file outcome ;; ret None
    end.

(** *** The callers of [processFile] *)

Definition loaded (fileName : JsVal) : NativeMessage :=
  {| type := LOADED; fileName := Some fileName; message := None |}.

(** [loadFileFromBase64] from the settlement of [processFile] on: the rest
    of the [try] block, the [catch] and the [finally] (lines 136-148). The
    [catch] also serves what is thrown before [processFile] is called. *)
Definition loadFileFromBase64_settled
    (fileName : JsVal) (outcome : Exn + unit) : M unit :=
  tryCatch
    (settled outcome ;;
     call (addDebugInfo "File processed successfully") ;;
     call (postMessageToNative (loaded fileName)))
    (fun err =>
       let errorMessage := messageOr "Error loading file from data" err in
       call (addDebugInfo ("Error: " ++ errorMessage)) ;;
       call (setError errorMessage) ;;
       postErrorToNative errorMessage) ;;
  call (setIsLoading false).

(** [handleFileUpload] from the settlement of [processFile] on
    (lines 235-241). *)
Definition handleFileUpload_settled (outcome : Exn + unit) : M unit :=
  tryCatch
    (settled outcome)
    (fun err =>
       let errorMessage := messageOr "Error processing file" err in
       call (setError errorMessage)) ;;
  call (setIsLoading false).

Definition resumeCaller (caller : Caller) (outcome : Exn + unit) : M unit :=
  match caller with
  | viaBase64 fileName => loadFileFromBase64_settled fileName outcome
  | viaUpload => handleFileUpload_settled outcome
  end.

(** [await processFile(file)] in a caller: the call stays suspended where
    [processFile] is, and goes on where [processFile] has settled. *)
Definition awaitProcessFile
    (caller : Caller) (progress : Exn + option Awaiting) : M unit :=
  match progress with
  | inr (Some point) => suspend point caller
  | inr None => resumeCaller caller (inr tt)
  | inl e => resumeCaller caller (inl e)
  end.

(** [atob(text)] where it may throw. *)
Definition callAtob (text : string) : M string :=
  match atob text with
  | Some byteCharacters => ret byteCharacters
  | None => throw (ErrorObj "InvalidCharacterError" (atobMessage E))
  end.

(** [loadFileFromBase64] (lines 113-149). *)
Definition loadFileFromBase64 (base64Data fileName : JsVal) : M unit :=
  call (setIsLoading true) ;;
  call (setError EmptyString) ;;
  call (setExcelData None) ;;
  call (addDebugInfo ("Starting loadFileFromBase64 for " ++ ToString fileName)) ;;
  progress <- attempt
    (call (addDebugInfo "Decoding base64...") ;;
     byteCharacters <- callAtob (ToString base64Data) ;;
     call (addDebugInfo ("Base64 decoded: "
                         ++ decimal (Z.of_nat (String.length byteCharacters))
                         ++ " bytes")) ;;
     let byteNumbers := charCodes byteCharacters in
     let byteArray := Uint8Array byteNumbers in
     let blob := byteArray in
     call (addDebugInfo ("Blob created: " ++ decimal (byteLength blob) ++ " bytes")) ;;
     let file := {| name := ToString fileName; content := blob |} in
     call (setSelectedFile file) ;;
     call (addDebugInfo "File object created, starting processFile...") ;;
     processFile file) ;;
  awaitProcessFile (viaBase64 fileName) progress.

(** [handleFileUpload] (lines 225-243); [file] is [event.target.files?.[0]]. *)
Definition handleFileUpload (file : option File) : M unit :=
  match file with
  | None => ret tt
  | Some file =>
      call (setSelectedFile file) ;;
      call (setIsLoading true) ;;
      call (setError EmptyString) ;;
      call (setExcelData None) ;;
      progress <- attempt (processFile file) ;;
      awaitProcessFile viaUpload progress
  end.

(** *** The listener *)

(** The test of lines 78-79 on [event.data]. *)
Definition isNoise (data : JsVal) : bool :=
  isString data &&
  (includes (ToString data) "setImmediate" || includes (ToString data) "setImmedia").

(** The test of lines 97-99 on the message of what was caught. *)
Definition isIgnoredError (errorMessage : string) : bool :=
  includes errorMessage "setImmediate" ||
  includes errorMessage "setImmedia" ||
  includes errorMessage "not valid JSON".

Definition callJSON_parse (text : string) : M JsVal :=
  match JSON_parse E text with
  | inr v => ret v
  | inl text => throw (ErrorObj "SyntaxError" text)
  end.

(** [handleMessage] (lines 76-106); [data] is [event.data]. *)
Definition handleMessage (data : JsVal) : M unit :=
  if isNoise data then ret tt
  else
    call (addDebugInfo ("Received message: " ++ ToString data)) ;;
    tryCatch
      (data <- callJSON_parse (ToString data) ;;
       type <- get data "type" ;;
       call (addDebugInfo ("Parsed message type: " ++ ToString type)) ;;
       if strictEqualsString type "LOAD_DOCUMENT" then
         fileName <- get data "fileName" ;;
         fileData <- get data "fileData" ;;
         length <- get fileData "length" ;;
         call (addDebugInfo ("Loading document: " ++ ToString fileName
                             ++ ", data length: " ++ ToString length)) ;;
         loadFileFromBase64 fileData fileName
       else ret tt)
      (fun error =>
         let errorMessage := messageOr "Unknown error parsing message" error in
         if isIgnoredError errorMessage then ret tt
         else
           call (addDebugInfo ("Error parsing message: " ++ errorMessage)) ;;
           postErrorToNative errorMessage).

(** *** Start of the session *)

(** The effect of lines 60-73; [viewMode] is the query parameter. *)
Definition onMount (viewMode : option string) : M unit :=
  if extensionIs viewMode "embedded" then
    call (setIsEmbedded true) ;;
    call (addDebugInfo "Running in embedded mode") ;;
    setTimeout readyTimer
  else ret tt.

(** The callback of the timer (lines 69-70). *)
Definition onReadyTimer : M unit :=
  call (postMessageToNative {| type := READY; fileName := None; message := None |}) ;;
  call (addDebugInfo "Sent READY signal to React Native").

(** ** The event loop *)

(** What the platform can make happen. A settlement names the waiting task
    by its position in [tasks]. *)
Inductive Event : Type :=
| mount (viewMode : option string)
| messageEvent (data : JsVal)
| changeEvent (file : option File)
| timerFired (n : nat)
| arrayBufferSettled (n : nat) (outcome : Exn + unit) (viewer : bool)
| renderAsyncSettled (n : nat) (outcome : Exn + unit).

Fixpoint removeNth {A : Type} (n : nat) (l : list A) : list A :=
  match n, l with
  | _, [] => []
  | O, _ :: l' => l'
  | S n', x :: l' => x :: removeNth n' l'
  end.

Definition dequeue (n : nat) (w : World) : World :=
  {| view := view w; bridge := bridge w;
     tasks := removeNth n (tasks w); calls := calls w |}.

(** The suspended call goes on: [processFile] first, then its caller. *)
Definition resume
    (point : Awaiting) (caller : Caller) (outcome : Exn + unit) (viewer : bool)
  : M unit :=
  progress <- attempt (processFile_resume point outcome viewer) ;;
  awaitProcessFile caller progress.

Definition run {A : Type} (m : M A) (w : World) : World := snd (m w).

(** One event; [None] where the event cannot happen in this world (no such
    task, or a task that waits for something else). *)
Definition step (ev : Event) (w : World) : option World :=
  match ev with
  | mount viewMode => Some (run (onMount viewMode) w)
  | messageEvent data => Some (run (handleMessage data) w)
  | changeEvent file => Some (run (handleFileUpload file) w)
  | timerFired n =>
      match nth_error (tasks w) n with
      | Some readyTimer => Some (run onReadyTimer (dequeue n w))
      | _ => None
      end
  | arrayBufferSettled n outcome viewer =>
      match nth_error (tasks w) n with
      | Some (suspendedCall (wordArrayBuffer file) caller) =>
          Some (run (resume (wordArrayBuffer file) caller outcome viewer) (dequeue n w))
      | Some (suspendedCall (excelArrayBuffer file) caller) =>
          Some (run (resume (excelArrayBuffer file) caller outcome viewer) (dequeue n w))
      | _ => None
      end
  | renderAsyncSettled n outcome =>
      match nth_error (tasks w) n with
      | Some (suspendedCall wordRender caller) =>
          Some (run (resume wordRender caller outcome true) (dequeue n w))
      | _ => None
      end
  end.

Fixpoint steps (evs : list Event) (w : World) : option World :=
  match evs with
  | [] => Some w
  | ev :: evs' =>
      match step ev w with
      | Some w' => steps evs' w'
      | None => None
      end
  end.

End Component.

(** ** The request lifecycle, read off the calls

    The component keeps no lifecycle variable; the states of a request are
    the points of [loadFileFromBase64] it has passed: [setIsLoading(true)]
    opens the decoding of a request, [setSelectedFile(file)] closes the
    acquisition and opens the dispatch, the [LOADED] message is the last
    step of a success and [setError(errorMessage)], with a text, the first
    visible step of a failure. *)
Inductive LoadState : Type :=
| Idle
| Decoding
| Processing
| Ready (fileName : JsVal)
| Error (description : string).

Definition entered (c : Call) : list LoadState :=
  match c with
  | setIsLoading true => [Decoding]
  | setSelectedFile _ => [Processing]
  | postMessageToNative m =>
      match type m, fileName m with
      | LOADED, Some fileName => [Ready fileName]
      | _, _ => []
      end
  | setError text => if (text =? EmptyString)%string then [] else [Error text]
  | _ => []
  end.

(** The states a session has gone through, [Idle] first. *)
Definition lifecycle (cs : list Call) : list LoadState :=
  Idle :: flat_map entered cs.

(** The current state. *)
Definition loadState (w : World) : LoadState := last (lifecycle (calls w)) Idle.

(** The messages handed to [postMessageToNative], oldest first. *)
Definition outbound (cs : list Call) : list NativeMessage :=
  flat_map (fun c => match c with postMessageToNative m => [m] | _ => [] end) cs.

(** The processors called, oldest first. *)
Definition invoked (cs : list Call) : list Processor :=
  flat_map (fun c => match c with invoke p _ => [p] | _ => [] end) cs.

Definition webError (text : string) : NativeMessage :=
  {| type := WEB_ERROR; fileName := None; message := Some text |}.

(** ** The envelope codec, read off the listener

    What [handleMessage] makes of [event.data] before it starts a load:
    dropped by one of its two filters, answered with an error message,
    a load request, or a message of another type. *)
Inductive Decoded : Type :=
| Noise
| DecodeError (text : string)
| LoadDocument (fileData fileName : JsVal)
| OtherMessage.

Definition classifyThrown (err : Exn) : Decoded :=
  let errorMessage := messageOr "Unknown error parsing message" err in
  if isIgnoredError errorMessage then Noise else DecodeError errorMessage.

Definition decode (E : Engine) (data : JsVal) : Decoded :=
  if isNoise data then Noise
  else match JSON_parse E (ToString data) with
       | inl text => classifyThrown (ErrorObj "SyntaxError" text)
       | inr JNull =>
           classifyThrown (ErrorObj "TypeError" (nullishReadMessage E JNull "type"))
       | inr JUndefined =>
           classifyThrown
             (ErrorObj "TypeError" (nullishReadMessage E JUndefined "type"))
       | inr (JObject members) =>
           match member "type" members with
           | Some (JString t) =>
               if (t =? "LOAD_DOCUMENT")%string then
                 match member "fileData" members with
                 | None | Some JUndefined =>
                     classifyThrown
                       (ErrorObj "TypeError" (nullishReadMessage E JUndefined "length"))
                 | Some JNull =>
                     classifyThrown
                       (ErrorObj "TypeError" (nullishReadMessage E JNull "length"))
                 | Some fileData =>
                     LoadDocument fileData
                       match member "fileName" members with
                       | Some v => v
                       | None => JUndefined
                       end
                 end
               else OtherMessage
           | _ => OtherMessage
           end
       | inr _ => OtherMessage
       end.

(** ** A sample engine

    One concrete platform to run the component on: a reader of the JSON
    objects of the protocol, the messages of a V8 engine, and a stand-in for
    the spreadsheet library. It only serves the examples. *)

Inductive Parsed (A : Type) : Type :=
| parsed (a : A) (rest : string)
| unexpected (token : option ascii).
Arguments parsed {A} a rest.
Arguments unexpected {A} token.

Fixpoint skipWhitespace (s : string) : string :=
  match s with
  | String c s' => if isAsciiWhitespace c then skipWhitespace s' else s
  | EmptyString => s
  end.

(** The characters up to the closing quote (no escape sequences). *)
Fixpoint readString (s : string) : Parsed string :=
  match s with
  | EmptyString => unexpected None
  | String c s' =>
      if (N_of_ascii c =? 34)%N then parsed EmptyString s'
      else if (N_of_ascii c =? 92)%N then unexpected (Some c)
      else match readString s' with
           | parsed text rest => parsed (String c text) rest
           | unexpected t => unexpected t
           end
  end.

Definition dropPrefix (p s : string) : option string :=
  if String.prefix p s
  then Some (substring (String.length p) (String.length s - String.length p) s)
  else None.

Definition firstToken (s : string) : option ascii :=
  match s with
  | String c _ => Some c
  | EmptyString => None
  end.

(** A string, [null], [true] or [false]. *)
Definition readValue (s : string) : Parsed JsVal :=
  match dropPrefix dquote s, dropPrefix "null" s, dropPrefix "true" s,
        dropPrefix "false" s with
  | Some s', _, _, _ =>
      match readString s' with
      | parsed text rest => parsed (JString text) rest
      | unexpected t => unexpected t
      end
  | _, Some rest, _, _ => parsed JNull rest
  | _, _, Some rest, _ => parsed (JBool true) rest
  | _, _, _, Some rest => parsed (JBool false) rest
  | _, _, _, _ => unexpected (firstToken s)
  end.

(** The members of an object after its opening brace. *)
Fixpoint readMembers (fuel : nat) (acc : list (string * JsVal)) (s : string)
  : Parsed (list (string * JsVal)) :=
  match fuel with
  | O => unexpected None
  | S fuel' =>
      match dropPrefix dquote (skipWhitespace s) with
      | None => unexpected (firstToken (skipWhitespace s))
      | Some s1 =>
          match readString s1 with
          | unexpected t => unexpected t
          | parsed key s2 =>
              match dropPrefix ":" (skipWhitespace s2) with
              | None => unexpected (firstToken (skipWhitespace s2))
              | Some s3 =>
                  match readValue (skipWhitespace s3) with
                  | unexpected t => unexpected t
                  | parsed v s4 =>
                      match dropPrefix "," (skipWhitespace s4),
                            dropPrefix "}" (skipWhitespace s4) with
                      | Some s5, _ => readMembers fuel' (assign key v acc) s5
                      | _, Some s5 => parsed (assign key v acc) s5
                      | _, _ => unexpected (firstToken (skipWhitespace s4))
                      end
                  end
              end
          end
      end
  end.

Definition readJSON (text : string) : Parsed JsVal :=
  let s := skipWhitespace text in
  let close (r : Parsed JsVal) :=
    match r with
    | parsed v rest =>
        match firstToken (skipWhitespace rest) with
        | None => parsed v EmptyString
        | Some c => unexpected (Some c)
        end
    | unexpected t => unexpected t
    end in
  match dropPrefix "{" s with
  | Some s1 =>
      match dropPrefix "}" (skipWhitespace s1) with
      | Some rest => close (parsed (JObject []) rest)
      | None =>
          close match readMembers (String.length s1) [] s1 with
                | parsed members rest => parsed (JObject members) rest
                | unexpected t => unexpected t
                end
      end
  | None => close (readValue s)
  end.

Definition sampleParse (text : string) : string + JsVal :=
  match readJSON text with
  | parsed v _ => inr v
  | unexpected None => inl "Unexpected end of JSON input"
  | unexpected (Some c) =>
      inl ("Unexpected token '" ++ String c EmptyString ++ "', "
           ++ quoted text ++ " is not valid JSON")
  end.

(** The library looks at the first bytes: content that starts with the
    signature of a ZIP archive ([PK] and two bytes below 9) is opened as
    one, and refused where it is too short to hold one; any other content
    is read as the text of the one cell of one sheet. The text of the
    refusal stands for the library's. *)
Definition sampleRead (bytes : list Z) : Exn + Workbook :=
  let asText :=
    {| SheetNames := ["Sheet1"];
       Sheets := fun _ =>
         [[JString (string_of_list_ascii
                      (map (fun b => ascii_of_N (Z.to_N b)) bytes))]] |} in
  match bytes with
  | 80 :: 75 :: b2 :: b3 :: _ =>
      if ((b2 <? 9) && (b3 <? 9))%Z then
        if (byteLength bytes <? 22)%Z
        then inl (ErrorObj "Error" "Unsupported ZIP file")
        else inr {| SheetNames := ["Sheet1"];
                    Sheets := fun _ => [map (fun b => JNumber (decimal b)) bytes] |}
      else inr asText
  | _ => inr asText
  end.

Definition sampleEngine : Engine :=
  {| JSON_parse := sampleParse;
     nullishReadMessage := fun v key =>
       "Cannot read properties of " ++ ToString v ++ " (reading '" ++ key ++ "')";
     atobMessage :=
       "Failed to execute 'atob' on 'Window': The string to be decoded is not correctly encoded.";
     XLSX_read := sampleRead |}.

(** The text of a load request as the host sends it. *)
Definition loadDocumentText (fileData fileName : string) : string :=
  "{" ++ quoted "type" ++ ":" ++ quoted "LOAD_DOCUMENT" ++ ","
  ++ quoted "fileData" ++ ":" ++ quoted fileData ++ ","
  ++ quoted "fileName" ++ ":" ++ quoted fileName ++ "}".

(** ** Events that end a request *)

(** A settlement, as opposed to the arrival of a new request. *)
Definition isSettlement (ev : Event) : bool :=
  match ev with
  | timerFired _ | arrayBufferSettled _ _ _ | renderAsyncSettled _ _ => true
  | mount _ | messageEvent _ | changeEvent _ => false
  end.

(** The value of [fileType] a handler selects. *)
Definition fileTypeOf (kind : ProcessorKind) : FileType :=
  match kind with
  | Word => word
  | Excel => excel
  | PowerPoint => powerpoint
  | Unknown => noFileType
  end.

(** The suspended call an event brings to its end, and how it ends: with
    what was thrown, with the workbook that was read, or with a rendered
    document ([None]). An event that leaves the call suspended again (the
    buffer of a Word file, with the viewer in place) ends nothing. *)
Definition completion (E : Engine) (w : World) (ev : Event)
  : option (Caller * (Exn + option Workbook)) :=
  match ev with
  | arrayBufferSettled n outcome viewer =>
      match nth_error (tasks w) n with
      | Some (suspendedCall (excelArrayBuffer file) caller) =>
          Some (caller,
                match outcome, XLSX_read E (content file) with
                | inl e, _ => inl e
                | inr _, inl e => inl e
                | inr _, inr workbook => inr (Some workbook)
                end)
      | Some (suspendedCall (wordArrayBuffer file) caller) =>
          match outcome with
          | inl e => Some (caller, inl e)
          | inr _ =>
              if viewer then None
              else Some (caller, inl (ErrorObj "Error" "Viewer container not available"))
          end
      | _ => None
      end
  | renderAsyncSettled n outcome =>
      match nth_error (tasks w) n with
      | Some (suspendedCall wordRender caller) =>
          Some (caller, match outcome with
                        | inl e => inl e
                        | inr _ => inr None
                        end)
      | _ => None
      end
  | _ => None
  end.

(** The failure of a processor: [XLSX.read] throws on the bytes of the
    file, or the promise of [renderAsync] is rejected. *)
Definition processorFailure (E : Engine) (w : World) (ev : Event)
  : option (Caller * Processor * Exn) :=
  match ev with
  | arrayBufferSettled n (inr _) _ =>
      match nth_error (tasks w) n with
      | Some (suspendedCall (excelArrayBuffer file) caller) =>
          match XLSX_read E (content file) with
          | inl e => Some (caller, xlsx, e)
          | inr _ => None
          end
      | _ => None
      end
  | renderAsyncSettled n (inl e) =>
      match nth_error (tasks w) n with
      | Some (suspendedCall wordRender caller) => Some (caller, docx_preview, e)
      | _ => None
      end
  | _ => None
  end.

(** ** Auxiliary definitions of the statements *)

(** The name holds the separator. *)
Fixpoint hasChar (c : ascii) (s : string) : bool :=
  match s with
  | EmptyString => false
  | String d s' => Ascii.eqb d c || hasChar c s'
  end.

(** The outcome the caller of [processFile] sees. *)
Definition settlementOf (result : Exn + option Workbook) : Exn + unit :=
  match result with
  | inl e => inl e
  | inr _ => inr tt
  end.

(** The text of the [LOADED] message for [a.xlsx]. *)
Definition loadedText : string :=
  "{" ++ quoted "type" ++ ":" ++ quoted "LOADED" ++ ","
  ++ quoted "fileName" ++ ":" ++ quoted "a.xlsx" ++ "}".

(** Two spreadsheets requested one after the other, the first settled last. *)
Definition overlappingRequests : list Event :=
  [messageEvent (JString (loadDocumentText "QTE=" "a.xlsx"));
   messageEvent (JString (loadDocumentText "QjI=" "b.xlsx"));
   arrayBufferSettled 1 (inr tt) false].

Definition overlappingWorld : option World :=
  Eval vm_compute in steps sampleEngine overlappingRequests (initialWorld (Some [])).

(** A spreadsheet the library refuses: the four bytes of the signature of
    a ZIP archive and nothing after them, sent as [UEsDBA==]. *)
Definition refusedSpreadsheet : option World :=
  Eval vm_compute in
    steps sampleEngine [messageEvent (JString (loadDocumentText "UEsDBA==" "a.xlsx"))]
      (initialWorld (Some [])).

(** What [processFile] is settled with by an event that resumes it: the
    value its promise is rejected with, or where it stands after the
    event. *)
Definition processFileOutcome (E : Engine) (w : World) (ev : Event)
  : option (Exn + option Awaiting) :=
  match ev with
  | arrayBufferSettled n outcome viewer =>
      match nth_error (tasks w) n with
      | Some (suspendedCall (wordArrayBuffer file) _) =>
          Some (fst (processFile_resume E (wordArrayBuffer file) outcome viewer
                       (dequeue n w)))
      | Some (suspendedCall (excelArrayBuffer file) _) =>
          Some (fst (processFile_resume E (excelArrayBuffer file) outcome viewer
                       (dequeue n w)))
      | _ => None
      end
  | renderAsyncSettled n outcome =>
      match nth_error (tasks w) n with
      | Some (suspendedCall wordRender _) =>
          Some (fst (processFile_resume E wordRender outcome true (dequeue n w)))
      | _ => None
      end
  | _ => None
  end.

(** The line a handler writes to the log before it throws again what its
    processor threw (lines 192 and 215). *)
Definition handlerLog (p : Processor) (err : Exn) : string :=
  match p with
  | docx_preview => "Error processing Word document: " ++ exnToString err
  | xlsx => "Error processing Excel document: " ++ exnToString err
  end.

(** The message of what the [try] block of the listener throws before a
    load starts (lines 85-89): the [SyntaxError] of [JSON.parse], the
    [TypeError] of reading [type] of [null], or the [TypeError] of reading
    [length] of the [fileData] a load request lacks. [None] where nothing
    is thrown. *)
Definition decodeFailure (E : Engine) (data : JsVal) : option string :=
  match JSON_parse E (ToString data) with
  | inl text => Some text
  | inr JNull => Some (nullishReadMessage E JNull "type")
  | inr JUndefined => Some (nullishReadMessage E JUndefined "type")
  | inr (JObject members) =>
      match member "type" members with
      | Some (JString t) =>
          if (t =? "LOAD_DOCUMENT")%string then
            match member "fileData" members with
            | None | Some JUndefined => Some (nullishReadMessage E JUndefined "length")
            | Some JNull => Some (nullishReadMessage E JNull "length")
            | Some _ => None
            end
          else None
      | _ => None
      end
  | inr _ => None
  end.

(** In the words of the spec (sections 4.1 and 9): a text that is not on
    the noise allowlist, that sets out as a load request and that is not
    the wire form of any value is a deliberate but malformed protocol
    message, a [DecodeError] of the envelope codec and not [Noise]. *)
Definition deliberateButMalformed (E : Engine) (raw : string) : bool :=
  negb (includes raw "setImmediate" || includes raw "setImmedia")
  && includes raw (quoted "type" ++ ":" ++ quoted "LOAD_DOCUMENT")
  && match JSON_parse E raw with
     | inl _ => true
     | inr _ => false
     end.



(** ** What is on the screen

    The conditional blocks of the JSX the component returns (src/App.tsx,
    lines 266-497), one field per block. *)
Record Screen : Type := {
  (** The early return of lines 267-293 is taken. *)
  debugPanel : bool;
  (** [isLoading && ...], line 272. *)
  spinner : bool;
  (** [error && ...], line 279. *)
  errorBox : option string;
  (** [!isEmbedded && ...], line 425. *)
  heading : bool;
  (** [!isEmbedded && !selectedFile && ...], line 432. *)
  uploadBox : bool;
  (** [fileType === 'word' && ...], line 458: the element of [viewerRef]. *)
  wordViewer : bool;
  (** [fileType === 'powerpoint' && ...], line 476. *)
  powerpointNotice : bool;
  (** [excelData && ...], line 485. *)
  workbookView : option ExcelSheetData
}.

Definition isWord (t : FileType) : bool :=
  match t with word => true | _ => false end.

Definition isPowerpoint (t : FileType) : bool :=
  match t with powerpoint => true | _ => false end.

Definition hasFile (v : ViewerState) : bool :=
  match selectedFile v with Some _ => true | None => false end.

(** A non-empty string is truthy. *)
Definition truthy (s : string) : bool := negb (s =? EmptyString)%string.

(** The render of [DocumentViewer]. *)
Definition render (v : ViewerState) : Screen :=
  if isEmbedded v && (negb (hasFile v) || truthy (error v)) then
    {| debugPanel := true;
       spinner := isLoading v;
       errorBox := if truthy (error v) then Some (error v) else None;
       heading := false; uploadBox := false; wordViewer := false;
       powerpointNotice := false; workbookView := None |}
  else
    {| debugPanel := false; spinner := false; errorBox := None;
       heading := negb (isEmbedded v);
       uploadBox := negb (isEmbedded v) && negb (hasFile v);
       wordViewer := isWord (fileType v);
       powerpointNotice := isPowerpoint (fileType v);
       workbookView := excelData v |}.

(** ** The listener of the earlier version (src/unnamed/part_000, lines
    81-111): no test of [event.data] before the log, and a [catch] that
    ignores [setImmediate] and [setImmedia] only. The rest of that version
    is the component above. *)
Module Earlier.

Definition isIgnoredError (errorMessage : string) : bool :=
  includes errorMessage "setImmediate" || includes errorMessage "setImmedia".

Definition handleMessage (E : Engine) (data : JsVal) : M unit :=
  call (addDebugInfo ("Received message: " ++ ToString data)) ;;
  tryCatch
    (data <- callJSON_parse E (ToString data) ;;
     type <- get E data "type" ;;
     call (addDebugInfo ("Parsed message type: " ++ ToString type)) ;;
     if strictEqualsString type "LOAD_DOCUMENT" then
       fileName <- get E data "fileName" ;;
       fileData <- get E data "fileData" ;;
       length <- get E fileData "length" ;;
       call (addDebugInfo ("Loading document: " ++ ToString fileName
                           ++ ", data length: " ++ ToString length)) ;;
       loadFileFromBase64 E fileData fileName
     else ret tt)
    (fun error =>
       let errorMessage := messageOr "Unknown error parsing message" error in
       if isIgnoredError errorMessage then ret tt
       else
         call (addDebugInfo ("Error parsing message: " ++ errorMessage)) ;;
         postErrorToNative errorMessage).

End Earlier.

(** ** Shapes of worlds and runs *)

Definition isSuspendedCall (t : Task) : bool :=
  match t with suspendedCall _ _ => true | readyTimer => false end.

(** Some call of [processFile] is suspended. *)
Definition hasSuspendedCall (w : World) : bool := existsb isSuspendedCall (tasks w).

(** A world the component can be in, [bridge0] being the bridge at the
    start of the session. *)
Definition reachable (E : Engine) (bridge0 : option (list string)) (w : World) : Prop :=
  exists evs, steps E evs (initialWorld bridge0) = Some w.

(** The member of an object. *)
Fixpoint lookup {A : Type} (key : string) (obj : list (string * A)) : option A :=
  match obj with
  | [] => None
  | (k, x) :: rest => if (k =? key)%string then Some x else lookup key rest
  end.

(** The file [loadFileFromBase64] builds (lines 121-132). *)
Definition fileOf (fileName : JsVal) (byteCharacters : string) : File :=
  {| name := ToString fileName; content := Uint8Array (charCodes byteCharacters) |}.

(** The text of the [READY] message. *)
Definition readyText : string := "{" ++ quoted "type" ++ ":" ++ quoted "READY" ++ "}".

Definition ready : NativeMessage :=
  {| type := READY; fileName := None; message := None |}.

(** Two worlds that differ in the log at most: the same state variables but
    [debugInfo], the same bridge and suspended calls, and the same messages,
    lifecycle and processor calls so far. *)
Definition sameButLog (w w' : World) : Prop :=
  selectedFile (view w') = selectedFile (view w) /\
  fileType (view w') = fileType (view w) /\
  isLoading (view w') = isLoading (view w) /\
  error (view w') = error (view w) /\
  excelData (view w') = excelData (view w) /\
  isEmbedded (view w') = isEmbedded (view w) /\
  bridge w' = bridge w /\
  tasks w' = tasks w /\
  outbound (calls w') = outbound (calls w) /\
  lifecycle (calls w') = lifecycle (calls w) /\
  invoked (calls w') = invoked (calls w).

(** ** Invariants *)

(** A computation keeps [P]. *)
Definition Preserves {A : Type} (P : World -> Prop) (m : M A) : Prop :=
  forall w, P w -> P (snd (m w)).

(** [P] is kept by every primitive call and does not depend on the table of
    suspended calls. *)
Definition Stable (P : World -> Prop) : Prop :=
  (forall c w, P w -> P (perform c w)) /\
  (forall w ts,
      P w -> P {| view := view w; bridge := bridge w; tasks := ts; calls := calls w |}).

(** The bridge holds, after what it held at the start, the JSON text of
    every message handed to [postMessageToNative], in order; an absent
    bridge stays absent. *)
Definition bridgeDelivers (bridge0 : option (list string)) (w : World) : Prop :=
  bridge w
  = option_map (fun texts => (texts ++ map JSON_stringify (outbound (calls w)))%list)
      bridge0.

(** The loading flag is only set while a call is suspended, and no error
    text stands while it is set. *)
Definition coherent (w : World) : Prop :=
  (isLoading (view w) = true -> hasSuspendedCall w = true) /\
  (truthy (error (view w)) = true -> isLoading (view w) = false).

(** * The URL-driven version of the viewer (src/unnamed/part_000, lines
    372-778)

    The same component at an earlier stage: a file can also come from a URL
    given in the query string, the outcome of such a load is posted to the
    parent window when there is one, there is no debug log, and the load
    from a message answers nothing. The classifier, the base64 acquisition
    and the platform are those of the first part. *)
Module UrlViewer.

(** [useState<'upload' | 'url' | 'mobile'>] *)
Inductive LoadSource : Type := upload | url | mobile.

(** The state variables (lines 384-390). *)
Record ViewerState : Type := {
  selectedFile : option File;
  fileType : FileType;
  isLoading : bool;
  error : string;
  excelData : option ExcelSheetData;
  loadSource : LoadSource;
  isEmbedded : bool
}.

Definition initialState : ViewerState :=
  {| selectedFile := None; fileType := noFileType; isLoading := false;
     error := EmptyString; excelData := None; loadSource := upload;
     isEmbedded := false |}.

(** What [window.parent.postMessage] is given (lines 456 and 463):
    [{ type: 'LOADED', fileName }] or [{ type: 'ERROR', message }]. *)
Inductive ParentMessage : Type :=
| parentLoaded (fileName : string)
| parentError (message : string).

(** The primitives of this version. *)
Inductive Call : Type :=
| setSelectedFile (file : File)
| setFileType (t : FileType)
| setIsLoading (b : bool)
| setError (text : string)
| setExcelData (data : option ExcelSheetData)
| setLoadSource (source : LoadSource)
| setIsEmbedded (b : bool)
| fetch (address : string)
| postToParent (m : ParentMessage)
| clearViewer
| invoke (p : Processor) (bytes : list Z).

Inductive Awaiting : Type :=
| wordArrayBuffer (file : File)   (* line 517 *)
| wordRender                      (* line 520 *)
| excelArrayBuffer (file : File). (* line 526 *)

Inductive Caller : Type :=
| viaUrl (fileName : string)      (* loadFileFromUrl, line 453 *)
| viaBase64                       (* loadFileFromBase64, line 486 *)
| viaUpload.                      (* handleFileUpload, line 554 *)

(** What waits for the platform: [loadFileFromUrl] at [fetch] (line 444) or
    at [response.arrayBuffer()] (line 447), or a call of [processFile]. *)
Inductive Task : Type :=
| fetching (fileName : string)
| readingBody (fileName : string)
| suspendedCall (point : Awaiting) (caller : Caller).

(** The answer of [fetch], as far as the code looks at it. *)
Record Response : Type := { ok : bool; contentType : option string }.

(** [framed] is [window.parent !== window]. *)
Record World : Type := {
  view : ViewerState;
  framed : bool;
  tasks : list Task;
  calls : list Call
}.

Definition initialWorld (framed : bool) : World :=
  {| view := initialState; framed := framed; tasks := []; calls := [] |}.

Definition applyCall (c : Call) (v : ViewerState) : ViewerState :=
  match c with
  | setSelectedFile file =>
      {| selectedFile := Some file; fileType := fileType v;
         isLoading := isLoading v; error := error v; excelData := excelData v;
         loadSource := loadSource v; isEmbedded := isEmbedded v |}
  | setFileType t =>
      {| selectedFile := selectedFile v; fileType := t;
         isLoading := isLoading v; error := error v; excelData := excelData v;
         loadSource := loadSource v; isEmbedded := isEmbedded v |}
  | setIsLoading b =>
      {| selectedFile := selectedFile v; fileType := fileType v;
         isLoading := b; error := error v; excelData := excelData v;
         loadSource := loadSource v; isEmbedded := isEmbedded v |}
  | setError text =>
      {| selectedFile := selectedFile v; fileType := fileType v;
         isLoading := isLoading v; error := text; excelData := excelData v;
         loadSource := loadSource v; isEmbedded := isEmbedded v |}
  | setExcelData data =>
      {| selectedFile := selectedFile v; fileType := fileType v;
         isLoading := isLoading v; error := error v; excelData := data;
         loadSource := loadSource v; isEmbedded := isEmbedded v |}
  | setLoadSource source =>
      {| selectedFile := selectedFile v; fileType := fileType v;
         isLoading := isLoading v; error := error v; excelData := excelData v;
         loadSource := source; isEmbedded := isEmbedded v |}
  | setIsEmbedded b =>
      {| selectedFile := selectedFile v; fileType := fileType v;
         isLoading := isLoading v; error := error v; excelData := excelData v;
         loadSource := loadSource v; isEmbedded := b |}
  | fetch _ | postToParent _ | clearViewer | invoke _ _ => v
  end.

Definition perform (c : Call) (w : World) : World :=
  {| view := applyCall c (view w); framed := framed w; tasks := tasks w;
     calls := (calls w ++ [c])%list |}.

(** Synchronous code of this version: state and exceptions. *)
Definition M (A : Type) : Type := World -> (Exn + A) * World.

Definition ret {A : Type} (a : A) : M A := fun w => (inr a, w).

Definition bind {A B : Type} (m : M A) (k : A -> M B) : M B :=
  fun w => match m w with
           | (inr a, w') => k a w'
           | (inl e, w') => (inl e, w')
           end.

Definition throw {A : Type} (e : Exn) : M A := fun w => (inl e, w).

Definition tryCatch {A : Type} (m : M A) (handler : Exn -> M A) : M A :=
  fun w => match m w with
           | (inr a, w') => (inr a, w')
           | (inl e, w') => handler e w'
           end.

Definition attempt {A : Type} (m : M A) : M (Exn + A) :=
  fun w => match m w with (r, w') => (inr r, w') end.

Definition settled {A : Type} (r : Exn + A) : M A :=
  match r with
  | inr a => ret a
  | inl e => throw e
  end.

Definition call (c : Call) : M unit := fun w => (inr tt, perform c w).

Definition enqueue (t : Task) : M unit :=
  fun w => (inr tt,
            {| view := view w; framed := framed w;
               tasks := (tasks w ++ [t])%list; calls := calls w |}).

(** [if (window.parent !== window) window.parent.postMessage(m, '*')] *)
Definition postIfFramed (m : ParentMessage) : M unit :=
  fun w => if framed w then call (postToParent m) w else ret tt w.

Declare Scope url_scope.
Delimit Scope url_scope with url.
Notation "x <- m ;; k" := (bind m (fun x => k))
  (at level 61, m at next level, right associativity) : url_scope.
Notation "m ;; k" := (bind m (fun _ => k))
  (at level 61, right associativity) : url_scope.
Local Open Scope url_scope.

(** The message of the [else] branch of [processFile] (line 509). *)
Definition unsupportedMessage : string :=
  "Unsupported file type. Please upload Word (.docx, .doc), Excel (.xlsx, .xls), or PowerPoint (.pptx, .ppt) files.".

Section Component.

Variable E : Engine.

(** [processWordDocument] up to its [await] (lines 513-517). *)
Definition processWordDocument (file : File) : M Awaiting :=
  call (setFileType word) ;;
  ret (wordArrayBuffer file).

(** From the settlement of [file.arrayBuffer()] (lines 517-521): without
    the viewer element the function just returns. *)
Definition processWordDocument_buffer
    (file : File) (arrayBuffer : Exn + unit) (viewer : bool) : M (option Awaiting) :=
  settled arrayBuffer ;;
  if viewer then
    call clearViewer ;;
    call (invoke docx_preview (content file)) ;;
    ret (Some wordRender)
  else ret None.

(** [processExcelDocument] up to its [await] (lines 524-526). *)
Definition processExcelDocument (file : File) : M Awaiting :=
  call (setFileType excel) ;;
  ret (excelArrayBuffer file).

(** From the settlement of [file.arrayBuffer()] (lines 526-536). *)
Definition processExcelDocument_buffer
    (file : File) (arrayBuffer : Exn + unit) : M unit :=
  settled arrayBuffer ;;
  call (invoke xlsx (content file)) ;;
  workbook <- settled (XLSX_read E (content file)) ;;
  call (setExcelData (Some (sheetsOf workbook))).

(** [processPowerPointDocument] (lines 539-541). *)
Definition processPowerPointDocument : M unit := call (setFileType powerpoint).

(** [processFile] up to the first [await] of the handler (lines 496-511). *)
Definition processFile (file : File) : M (option Awaiting) :=
  match classify (name file) with
  | Word => point <- processWordDocument file ;; ret (Some point)
  | Excel => point <- processExcelDocument file ;; ret (Some point)
  | PowerPoint => processPowerPointDocument ;; ret None
  | Unknown => throw (ErrorObj "Error" unsupportedMessage)
  end.

(** [processFile] from the settlement of the promise it is suspended on. *)
Definition processFile_resume
    (point : Awaiting) (outcome : Exn + unit) (viewer : bool) : M (option Awaiting) :=
  match point with
  | wordArrayBuffer file => processWordDocument_buffer file outcome viewer
  | wordRender => settled outcome ;; ret None
  | excelArrayBuffer file => processExcelDocument_buffer file outcome ;; ret None
  end.

(** The [catch] and [finally] of [loadFileFromUrl] (lines 458-467). *)
Definition loadFileFromUrl_failed (err : Exn) : M unit :=
  let errorMessage := messageOr "Error loading file from URL" err in
  call (setError errorMessage) ;;
  postIfFramed (parentError errorMessage).

(** [loadFileFromUrl] from the settlement of [processFile] on
    (lines 453-467). *)
Definition loadFileFromUrl_settled (fileName : string) (outcome : Exn + unit) : M unit :=
  tryCatch
    (settled outcome ;; postIfFramed (parentLoaded fileName))
    loadFileFromUrl_failed ;;
  call (setIsLoading false).

(** [loadFileFromBase64] from the settlement of [processFile] on
    (lines 486-493). *)
Definition loadFileFromBase64_settled (outcome : Exn + unit) : M unit :=
  tryCatch
    (settled outcome)
    (fun err => call (setError (messageOr "Error loading file from data" err))) ;;
  call (setIsLoading false).

(** [handleFileUpload] from the settlement of [processFile] on
    (lines 554-560). *)
Definition handleFileUpload_settled (outcome : Exn + unit) : M unit :=
  tryCatch
    (settled outcome)
    (fun err => call (setError (messageOr "Error processing file" err))) ;;
  call (setIsLoading false).

Definition resumeCaller (caller : Caller) (outcome : Exn + unit) : M unit :=
  match caller with
  | viaUrl fileName => loadFileFromUrl_settled fileName outcome
  | viaBase64 => loadFileFromBase64_settled outcome
  | viaUpload => handleFileUpload_settled outcome
  end.

Definition awaitProcessFile
    (caller : Caller) (progress : Exn + option Awaiting) : M unit :=
  match progress with
  | inr (Some point) => enqueue (suspendedCall point caller)
  | inr None => resumeCaller caller (inr tt)
  | inl e => resumeCaller caller (inl e)
  end.

(** [loadFileFromUrl] up to [await fetch(url)] (lines 438-444). *)
Definition loadFileFromUrl (address fileName : string) : M unit :=
  call (setIsLoading true) ;;
  call (setError EmptyString) ;;
  call (setExcelData None) ;;
  call (fetch address) ;;
  enqueue (fetching fileName).

(** From the settlement of [fetch] to [await response.arrayBuffer()]
    (lines 444-447). *)
Definition loadFileFromUrl_fetched
    (fileName : string) (outcome : Exn + Response) : M unit :=
  progress <- attempt
    (response <- settled outcome ;;
     if ok response then ret tt
     else throw (ErrorObj "Error" "Failed to fetch file")) ;;
  match progress with
  | inr _ => enqueue (readingBody fileName)
  | inl e => loadFileFromUrl_failed e ;; call (setIsLoading false)
  end.

(** From the settlement of [response.arrayBuffer()] to the settlement of
    [processFile] (lines 447-453). *)
Definition loadFileFromUrl_body
    (fileName : string) (outcome : Exn + list Z) : M unit :=
  progress <- attempt
    (arrayBuffer <- settled outcome ;;
     let file := {| name := fileName; content := arrayBuffer |} in
     call (setSelectedFile file) ;;
     processFile file) ;;
  awaitProcessFile (viaUrl fileName) progress.

(** [loadFileFromBase64] of this version (lines 470-494). *)
Definition loadFileFromBase64 (base64Data fileName : JsVal) : M unit :=
  call (setIsLoading true) ;;
  call (setError EmptyString) ;;
  call (setExcelData None) ;;
  progress <- attempt
    (byteCharacters <-
       match atob (ToString base64Data) with
       | Some byteCharacters => ret byteCharacters
       | None => throw (ErrorObj "InvalidCharacterError" (atobMessage E))
       end ;;
     let byteNumbers := charCodes byteCharacters in
     let byteArray := Uint8Array byteNumbers in
     let blob := byteArray in
     let file := {| name := ToString fileName; content := blob |} in
     call (setSelectedFile file) ;;
     processFile file) ;;
  awaitProcessFile viaBase64 progress.

(** [handleFileUpload] (lines 543-562). *)
Definition handleFileUpload (file : option File) : M unit :=
  match file with
  | None => ret tt
  | Some file =>
      call (setSelectedFile file) ;;
      call (setLoadSource upload) ;;
      call (setIsLoading true) ;;
      call (setError EmptyString) ;;
      call (setExcelData None) ;;
      progress <- attempt (processFile file) ;;
      awaitProcessFile viaUpload progress
  end.

(** [v.key] where nothing is thrown, [None] on [null] and [undefined]. *)
Definition property (v : JsVal) (key : string) : option JsVal :=
  match v with
  | JUndefined | JNull => None
  | JObject members =>
      Some (match member key members with Some x => x | None => JUndefined end)
  | JString s =>
      Some (if (key =? "length")%string
            then JNumber (decimal (Z.of_nat (String.length s))) else JUndefined)
  | JArray elems =>
      Some (if (key =? "length")%string
            then JNumber (decimal (Z.of_nat (List.length elems))) else JUndefined)
  | JBool _ | JNumber _ => Some JUndefined
  end.

(** [handleMessage] (lines 420-431): whatever is thrown inside goes to
    [console.error]. *)
Definition handleMessage (data : JsVal) : M unit :=
  tryCatch
    (data <- match JSON_parse E (ToString data) with
             | inr v => ret v
             | inl text => throw (ErrorObj "SyntaxError" text)
             end ;;
     type <- match property data "type" with
             | Some v => ret v
             | None => throw (ErrorObj "TypeError" (nullishReadMessage E data "type"))
             end ;;
     if strictEqualsString type "LOAD_DOCUMENT" then
       call (setLoadSource mobile) ;;
       let fileData := match property data "fileData" with
                       | Some v => v
                       | None => JUndefined
                       end in
       let fileName := match property data "fileName" with
                       | Some v => v
                       | None => JUndefined
                       end in
       loadFileFromBase64 fileData fileName
     else ret tt)
    (fun _ => ret tt).

(** A query parameter that is present and not empty. *)
Definition given (parameter : option string) : option string :=
  match parameter with
  | Some s => if (s =? EmptyString)%string then None else Some s
  | None => None
  end.

(** The effect of lines 401-416 on the three query parameters. *)
Definition onMount (fileUrl fileName viewMode : option string) : M unit :=
  (if extensionIs viewMode "embedded" then call (setIsEmbedded true) else ret tt) ;;
  match given fileUrl, given fileName with
  | Some address, Some fileName =>
      call (setLoadSource url) ;;
      loadFileFromUrl address fileName
  | _, _ => ret tt
  end.

Inductive Event : Type :=
| mount (fileUrl fileName viewMode : option string)
| messageEvent (data : JsVal)
| changeEvent (file : option File)
| fetchSettled (n : nat) (outcome : Exn + Response)
| bodySettled (n : nat) (outcome : Exn + list Z)
| arrayBufferSettled (n : nat) (outcome : Exn + unit) (viewer : bool)
| renderAsyncSettled (n : nat) (outcome : Exn + unit).

Definition dequeue (n : nat) (w : World) : World :=
  {| view := view w; framed := framed w;
     tasks := removeNth n (tasks w); calls := calls w |}.

Definition resume
    (point : Awaiting) (caller : Caller) (outcome : Exn + unit) (viewer : bool)
  : M unit :=
  progress <- attempt (processFile_resume point outcome viewer) ;;
  awaitProcessFile caller progress.

Definition run {A : Type} (m : M A) (w : World) : World := snd (m w).

Definition step (ev : Event) (w : World) : option World :=
  match ev with
  | mount fileUrl fileName viewMode => Some (run (onMount fileUrl fileName viewMode) w)
  | messageEvent data => Some (run (handleMessage data) w)
  | changeEvent file => Some (run (handleFileUpload file) w)
  | fetchSettled n outcome =>
      match nth_error (tasks w) n with
      | Some (fetching fileName) =>
          Some (run (loadFileFromUrl_fetched fileName outcome) (dequeue n w))
      | _ => None
      end
  | bodySettled n outcome =>
      match nth_error (tasks w) n with
      | Some (readingBody fileName) =>
          Some (run (loadFileFromUrl_body fileName outcome) (dequeue n w))
      | _ => None
      end
  | arrayBufferSettled n outcome viewer =>
      match nth_error (tasks w) n with
      | Some (suspendedCall (wordArrayBuffer file) caller) =>
          Some (run (resume (wordArrayBuffer file) caller outcome viewer) (dequeue n w))
      | Some (suspendedCall (excelArrayBuffer file) caller) =>
          Some (run (resume (excelArrayBuffer file) caller outcome viewer) (dequeue n w))
      | _ => None
      end
  | renderAsyncSettled n outcome =>
      match nth_error (tasks w) n with
      | Some (suspendedCall wordRender caller) =>
          Some (run (resume wordRender caller outcome true) (dequeue n w))
      | _ => None
      end
  end.

Fixpoint steps (evs : list Event) (w : World) : option World :=
  match evs with
  | [] => Some w
  | ev :: evs' =>
      match step ev w with
      | Some w' => steps evs' w'
      | None => None
      end
  end.

End Component.

(** The messages posted to the parent window, oldest first. *)
Definition posted (cs : list Call) : list ParentMessage :=
  flat_map (fun c => match c with postToParent m => [m] | _ => [] end) cs.

Definition invoked (cs : list Call) : list Processor :=
  flat_map (fun c => match c with invoke p _ => [p] | _ => [] end) cs.

Definition fetched (cs : list Call) : list string :=
  flat_map (fun c => match c with fetch address => [address] | _ => [] end) cs.

(** The loads from a URL that are still under way. *)
Definition isUrlLoad (t : Task) : bool :=
  match t with
  | fetching _ | readingBody _ | suspendedCall _ (viaUrl _) => true
  | suspendedCall _ _ => false
  end.

Definition pendingUrl (ts : list Task) : nat := List.length (filter isUrlLoad ts).

(** The events that call [loadFileFromUrl] (line 413). *)
Definition startsUrlLoad (ev : Event) : bool :=
  match ev with
  | mount fileUrl fileName _ =>
      match given fileUrl, given fileName with
      | Some _, Some _ => true
      | _, _ => false
      end
  | _ => false
  end.

Definition urlLoads (evs : list Event) : nat := List.length (filter startsUrlLoad evs).

(** Whether [handleMessage] takes the message for a request: it parses and
    its [type] is ['LOAD_DOCUMENT'] (lines 422-423). *)
Definition isRequest (E : Engine) (data : JsVal) : bool :=
  match JSON_parse E (ToString data) with
  | inr v =>
      match property v "type" with
      | Some type => strictEqualsString type "LOAD_DOCUMENT"
      | None => false
      end
  | inl _ => false
  end.

(** The balance kept by every event: with a parent window, the answers
    sent and the loads under way grow by one exactly when a load starts;
    without one, nothing is sent. *)
Definition balanced (ev : Event) (w w' : World) : Prop :=
  framed w' = framed w /\
  (framed w = true ->
   (List.length (posted (calls w')) + pendingUrl (tasks w')
    = List.length (posted (calls w)) + pendingUrl (tasks w)
      + if startsUrlLoad ev then 1 else 0)%nat) /\
  (framed w = false -> posted (calls w') = posted (calls w)).

(** [getLoadSourceText] (lines 594-600), on the state variable it reads. *)
Definition getLoadSourceText (loadSource : LoadSource) : string :=
  match loadSource with
  | mobile => "Loaded from Mobile App"
  | url => "Loaded from URL"
  | upload => "Uploaded from Device"
  end.

End UrlViewer.
(** * Properties *)

(** ** Base64 *)

(** Induction three elements at a time, the way the encoder recurses. *)
Lemma list_ind3 (A : Type) (P : list A -> Prop) :
  P [] ->
  (forall a, P [a]) ->
  (forall a b, P [a; b]) ->
  (forall a b c l, P l -> P (a :: b :: c :: l)) ->
  forall l, P l.
Proof.
  intros P0 P1 P2 P3. fix IH 1.
  intros [|a [|b [|c l]]];
    [apply P0 | apply P1 | apply P2 | apply P3, IH].
Qed.

(** A property of the 64 values holds if it holds on each. *)
Lemma sextet_cases (P : Z -> bool) :
  forallb (fun n => P (Z.of_nat n)) (seq 0 64) = true ->
  forall v, 0 <= v < 64 -> P v = true.
Proof.
  intros H v Hv. rewrite forallb_forall in H.
  specialize (H (Z.to_nat v)). rewrite Z2Nat.id in H by lia.
  apply H. apply in_seq. lia.
Qed.

Lemma b64char_isPad v : 0 <= v < 64 -> isPad (b64char v) = false.
Proof.
  intros Hv. apply negb_true_iff.
  apply (sextet_cases (fun v => negb (isPad (b64char v))));
    [now vm_compute | assumption].
Qed.

Lemma b64char_notWhitespace v : 0 <= v < 64 -> notWhitespace (b64char v) = true.
Proof.
  intros Hv.
  apply (sextet_cases (fun v => notWhitespace (b64char v)));
    [now vm_compute | assumption].
Qed.

Lemma b64index_b64char v : 0 <= v < 64 -> b64index (b64char v) = Some v.
Proof.
  intros Hv.
  assert (H : match b64index (b64char v) with
              | Some w => (w =? v)%Z
              | None => false
              end = true).
  { apply (sextet_cases (fun v => match b64index (b64char v) with
                                  | Some w => (w =? v)%Z
                                  | None => false
                                  end));
      [now vm_compute | assumption]. }
  destruct (b64index (b64char v)); [|discriminate].
  apply Z.eqb_eq in H. now subst.
Qed.

Lemma stripPadding_cons c l :
  isPad c = false -> stripPadding (c :: l) = c :: stripPadding l.
Proof. intros H. cbn [stripPadding]. now rewrite H. Qed.

Lemma sextets_cons v l :
  0 <= v < 64 ->
  sextets (b64char v :: l) = option_map (cons v) (sextets l).
Proof.
  intros Hv. cbn [sextets]. rewrite b64index_b64char by assumption.
  now destruct (sextets l).
Qed.

Lemma decodeSextets_quad a b c d rest :
  decodeSextets (a :: b :: c :: d :: rest) =
  let n := ((a * 64 + b) * 64 + c) * 64 + d in
  n / 65536 :: n / 256 mod 256 :: n mod 256 :: decodeSextets rest.
Proof. reflexivity. Qed.

Ltac sextet_range :=
  match goal with
  | |- 0 <= _ < 64 => unfold isByte in *; Z.to_euclidean_division_equations; lia
  end.

Ltac bytes_of H :=
  repeat match type of H with
         | Forall isByte (_ :: _) =>
             let Hb := fresh "Hb" in
             let H' := fresh "H" in
             inversion H as [|? ? Hb H']; subst; clear H; rename H' into H
         end.

(** What the decoder finds in an encoding once the padding is removed: the
    6-bit values of the bytes, never one value left over. *)
Lemma base64Encode_decodable B :
  Forall isByte B ->
  exists vs,
    sextets (stripPadding (base64Encode B)) = Some vs /\
    decodeSextets vs = B /\
    Z.of_nat (List.length (stripPadding (base64Encode B))) mod 4 <> 1.
Proof.
  induction B as [|a|a b|a b c rest IH] using list_ind3; intros HB.
  - exists []. repeat split. cbn. lia.
  - bytes_of HB.
    exists [a / 4; a mod 4 * 16]. cbn [base64Encode].
    rewrite !stripPadding_cons by (apply b64char_isPad; sextet_range).
    rewrite !sextets_cons by sextet_range.
    repeat split.
    + cbn [decodeSextets]. f_equal. unfold isByte in *.
      Z.to_euclidean_division_equations; lia.
    + cbn. lia.
  - bytes_of HB.
    exists [a / 4; a mod 4 * 16 + b / 16; b mod 16 * 4]. cbn [base64Encode].
    rewrite !stripPadding_cons by (apply b64char_isPad; sextet_range).
    rewrite !sextets_cons by sextet_range.
    repeat split.
    + cbn [decodeSextets]. unfold isByte in *.
      f_equal; [|f_equal]; Z.to_euclidean_division_equations; lia.
    + cbn. lia.
  - bytes_of HB.
    destruct (IH HB) as (vs & Hvs & Hdec & Hlen).
    exists (a / 4 :: a mod 4 * 16 + b / 16 :: b mod 16 * 4 + c / 64 :: c mod 64 :: vs).
    cbn [base64Encode].
    rewrite !stripPadding_cons by (apply b64char_isPad; sextet_range).
    rewrite !sextets_cons by sextet_range. rewrite Hvs.
    repeat split.
    + rewrite decodeSextets_quad, Hdec. cbv zeta. unfold isByte in *.
      f_equal; [|f_equal; [|f_equal]]; Z.to_euclidean_division_equations; lia.
    + cbn [List.length]. rewrite !Nat2Z.inj_succ.
      intros E. apply Hlen. Z.to_euclidean_division_equations; lia.
Qed.

(** An encoding holds no whitespace for the decoder to remove. *)
Lemma base64Encode_filter B :
  Forall isByte B ->
  filter notWhitespace (base64Encode B) = base64Encode B.
Proof.
  assert (Hc : forall v l, 0 <= v < 64 ->
             filter notWhitespace (b64char v :: l)
             = b64char v :: filter notWhitespace l).
  { intros v l Hv. cbn [filter]. now rewrite b64char_notWhitespace. }
  induction B as [|a|a b|a b c rest IH] using list_ind3; intros HB;
    [reflexivity|..]; bytes_of HB; cbn [base64Encode];
    rewrite !Hc by sextet_range; [reflexivity..|].
  now rewrite IH.
Qed.

(** The length of an encoding is a multiple of four. *)
Lemma base64Encode_length B :
  Z.of_nat (List.length (base64Encode B)) mod 4 = 0.
Proof.
  induction B as [|a|a b|a b c rest IH] using list_ind3; try reflexivity.
  cbn [base64Encode List.length]. rewrite !Nat2Z.inj_succ.
  Z.to_euclidean_division_equations; lia.
Qed.

(** Lines 124-128 of src/App.tsx give back the codes of a binary string. *)
Lemma Uint8Array_charCodes B :
  Forall isByte B ->
  Uint8Array (charCodes (string_of_list_ascii
     (map (fun n => ascii_of_N (Z.to_N n)) B))) = B.
Proof.
  intros HB. unfold Uint8Array, charCodes.
  rewrite list_ascii_of_string_of_list_ascii, !map_map.
  induction HB as [|b B Hb _ IH]; [reflexivity|].
  cbn [map]. rewrite IH. f_equal.
  unfold isByte in Hb.
  rewrite N_ascii_embedding by lia.
  rewrite Z2N.id by lia. apply Z.mod_small. lia.
Qed.

(** C9. Base64 round trip: for every sequence of bytes [B], the acquisition
    of the source applied to the standard base64 encoding of [B] succeeds
    and yields exactly [B]. *)
Theorem fromBase64_base64Encode B :
  Forall isByte B ->
  fromBase64 (string_of_list_ascii (base64Encode B)) = Some B.
Proof.
  intros HB. unfold fromBase64, atob.
  rewrite list_ascii_of_string_of_list_ascii.
  rewrite base64Encode_filter by assumption.
  rewrite base64Encode_length. cbn [Z.eqb].
  destruct (base64Encode_decodable B HB) as (vs & Hvs & Hdec & Hlen).
  apply Z.eqb_neq in Hlen. rewrite Hlen, Hvs, Hdec.
  cbn [option_map]. now rewrite Uint8Array_charCodes.
Qed.

(** The three bytes of [Man] travel as [TWFu] and come back. *)
Lemma fromBase64_base64Encode_witness :
  Forall isByte [77; 97; 110] /\
  string_of_list_ascii (base64Encode [77; 97; 110]) = "TWFu" /\
  fromBase64 (string_of_list_ascii (base64Encode [77; 97; 110]))
  = Some [77; 97; 110].
Proof.
  assert (H : Forall isByte [77; 97; 110])
    by (repeat constructor; unfold isByte; lia).
  split; [exact H|]. split; [reflexivity|].
  exact (fromBase64_base64Encode [77; 97; 110] H).
Defined.

(** ** Format classifier *)

Lemma split_nonempty sep s : split sep s <> [].
Proof.
  destruct s as [|c s]; cbn [split]; [discriminate|].
  destruct (Ascii.eqb c sep); [discriminate|].
  destruct (split sep s); discriminate.
Qed.

Lemma pop_cons x l : l <> [] -> pop (x :: l) = pop l.
Proof. destruct l; [congruence | reflexivity]. Qed.

(** A name without the separator is one segment. *)
Lemma split_without_separator sep s :
  hasChar sep s = false -> split sep s = [s].
Proof.
  induction s as [|c s IH]; cbn [split hasChar]; [reflexivity|].
  intros H. apply orb_false_iff in H as [Hc Hs].
  rewrite Hc, (IH Hs). reflexivity.
Qed.

(** After a separator, the last segment is that of the rest. *)
Lemma pop_split_after sep base rest :
  exists seg segs,
    split sep (base ++ String sep rest) = seg :: segs /\ segs <> [] /\
    pop (seg :: segs) = pop (split sep rest).
Proof.
  induction base as [|c base (seg & segs & Hsplit & Hne & Hpop)];
    cbn [String.append split].
  - rewrite Ascii.eqb_refl. exists EmptyString, (split sep rest).
    split; [reflexivity|]. split; [apply split_nonempty|].
    apply pop_cons, split_nonempty.
  - destruct (Ascii.eqb c sep).
    + exists EmptyString, (seg :: segs). rewrite Hsplit.
      split; [reflexivity|]. split; [discriminate|].
      rewrite pop_cons by discriminate. exact Hpop.
    + rewrite Hsplit. exists (String c seg), segs.
      split; [reflexivity|]. split; [assumption|].
      rewrite <- Hpop, !pop_cons by assumption. reflexivity.
Qed.

(** With a [.] in the name, the extension is what follows the last one,
    lowercased. *)
Lemma fileExtension_after_last_dot base ext :
  hasChar "."%char ext = false ->
  fileExtension (base ++ String "."%char ext) = Some (toLowerCase ext).
Proof.
  intros Hext. unfold fileExtension.
  destruct (pop_split_after "."%char base ext) as (seg & segs & -> & _ & ->).
  now rewrite split_without_separator.
Qed.

(** Without a [.] in the name, the extension is the whole name, lowercased. *)
Lemma fileExtension_without_dot fileName :
  hasChar "."%char fileName = false ->
  fileExtension fileName = Some (toLowerCase fileName).
Proof.
  intros H. unfold fileExtension. now rewrite split_without_separator.
Qed.

(** The three examples of the classifier. *)
Lemma classify_examples :
  classify "Report.DOCX" = Word /\
  classify "data.csv" = Unknown /\
  classify "noext" = Unknown.
Proof. repeat split. Qed.

(** The six extensions, in either case. *)
Lemma classify_known :
  map classify ["a.docx"; "a.doc"; "a.xlsx"; "a.xls"; "a.pptx"; "a.ppt"; "A.Xls"]
  = [Word; Word; Excel; Excel; PowerPoint; PowerPoint; Excel].
Proof. reflexivity. Qed.

(** C4. The classifier is a total function of the name that maps the six
    extensions as stated, but a name with no [.] is taken whole as its own
    extension: a file named [docx], which has no extension, is classified
    as [Word] and not as [Unknown]. *)
Theorem classify_name_without_dot :
  hasChar "."%char "docx" = false /\
  fileExtension "docx" = Some "docx" /\
  classify "docx" = Word.
Proof. repeat split. Qed.

(** ** Running the component *)

Lemma lifecycle_app cs cs' :
  lifecycle (cs ++ cs')%list = (lifecycle cs ++ flat_map entered cs')%list.
Proof. unfold lifecycle. now rewrite flat_map_app. Qed.

Lemma outbound_app cs cs' :
  outbound (cs ++ cs')%list = (outbound cs ++ outbound cs')%list.
Proof. apply flat_map_app. Qed.

Lemma invoked_app cs cs' :
  invoked (cs ++ cs')%list = (invoked cs ++ invoked cs')%list.
Proof. apply flat_map_app. Qed.

(** The current state is the last one entered. *)
Lemma loadState_entered w states s :
  lifecycle (calls w) = (states ++ [s])%list -> loadState w = s.
Proof. intros H. unfold loadState. rewrite H. apply last_last. Qed.

(** Unfolds the code of the component down to the primitive calls. *)
Ltac js_run :=
  cbv beta iota zeta delta
    [run bind ret throw tryCatch attempt settled call suspend setTimeout
     loadFileFromBase64 loadFileFromBase64_settled handleFileUpload
     handleFileUpload_settled resumeCaller awaitProcessFile callAtob
     processFile processFile_catch processFile_resume resume
     processWordDocument processWordDocument_catch processWordDocument_buffer
     processWordDocument_render processExcelDocument processExcelDocument_buffer
     processPowerPointDocument postErrorToNative handleMessage callJSON_parse
     get strictEqualsString onMount onReadyTimer fst snd];
  cbn [name content].

(** Brings the calls of a world to the form [calls w ++ [c1; ...; cn]]. *)
Ltac calls_norm :=
  cbn [calls view bridge tasks perform dequeue removeNth applyCall deliver
       initialWorld initialState
       selectedFile fileType isLoading error excelData isEmbedded debugInfo];
  repeat rewrite <- app_assoc; cbn [app].

Lemma nth_error_enqueued {A : Type} (l : list A) (x : A) :
  nth_error (l ++ [x])%list (List.length l) = Some x.
Proof. induction l; [reflexivity | assumption]. Qed.

Lemma removeNth_enqueued {A : Type} (l : list A) (x : A) :
  removeNth (List.length l) (l ++ [x])%list = l.
Proof. induction l as [|y l IH]; [reflexivity|]. cbn. now rewrite IH. Qed.

(** ** The listener *)

(** C2. A message whose text contains one of the noise substrings of the
    listener ([setImmediate], [setImmedia]) is dropped before anything else
    is done: no state variable changes, nothing is logged, no request
    starts and no message, so no [WEB_ERROR], goes out. *)
Theorem noise_is_dropped E raw w :
  includes raw "setImmediate" || includes raw "setImmedia" = true ->
  isNoise (JString raw) = true /\
  decode E (JString raw) = Noise /\
  step E (messageEvent (JString raw)) w = Some w.
Proof.
  intros H.
  assert (Hn : isNoise (JString raw) = true) by exact H.
  split; [exact Hn|]. split.
  - unfold decode. now rewrite Hn.
  - cbn [step]. unfold run, handleMessage. now rewrite Hn.
Qed.

Lemma noise_is_dropped_witness :
  includes "Uncaught ReferenceError: setImmediate is not defined" "setImmediate"
  || includes "Uncaught ReferenceError: setImmediate is not defined" "setImmedia"
  = true /\
  step sampleEngine
    (messageEvent (JString "Uncaught ReferenceError: setImmediate is not defined"))
    (initialWorld (Some []))
  = Some (initialWorld (Some [])).
Proof.
  assert (H : includes "Uncaught ReferenceError: setImmediate is not defined"
                "setImmediate"
              || includes "Uncaught ReferenceError: setImmediate is not defined"
                   "setImmedia" = true) by reflexivity.
  split; [exact H|].
  exact (proj2 (proj2 (noise_is_dropped sampleEngine _ (initialWorld (Some [])) H))).
Defined.

(** What the other filter of the listener drops (a thrown message that
    contains [setImmediate], [setImmedia] or [not valid JSON]) is logged as
    received and has no other effect. *)
Lemma ignored_error_is_dropped E data w :
  isNoise data = false ->
  decode E data = Noise ->
  step E (messageEvent data) w
  = Some (perform (addDebugInfo ("Received message: " ++ ToString data)) w)
  \/ exists type,
      step E (messageEvent data) w
      = Some (perform (addDebugInfo ("Parsed message type: " ++ type))
                (perform (addDebugInfo ("Received message: " ++ ToString data)) w)).
Proof.
  intros Hn H. unfold decode in H. rewrite Hn in H.
  cbn [step]. js_run. rewrite Hn.
  unfold classifyThrown in H.
  destruct (JSON_parse E (ToString data)) as [text|v]; js_run.
  - cbn [messageOr] in *.
    destruct (isIgnoredError text); [now left | discriminate].
  - destruct v; try discriminate H; js_run; cbn [messageOr] in *.
    + destruct (isIgnoredError _); [now left | discriminate].
    + destruct (isIgnoredError _); [now left | discriminate].
    + destruct (member "type" members) as [[]|]; try discriminate H.
      destruct (s =? "LOAD_DOCUMENT")%string; [|discriminate].
      destruct (member "fileData" members) as [[]|]; try discriminate H;
        js_run; cbn [messageOr] in *;
        (destruct (isIgnoredError _); [right; eexists; reflexivity | discriminate]).
Qed.




(** What the spec calls a deliberate but malformed protocol message is a
    message the listener fails to take apart, with the text of the
    [SyntaxError]. *)
Lemma deliberateButMalformed_fails E raw :
  deliberateButMalformed E raw = true ->
  isNoise (JString raw) = false /\
  exists text,
    JSON_parse E raw = inl text /\
    decodeFailure E (JString raw) = Some text.
Proof.
  unfold deliberateButMalformed, decodeFailure, isNoise. cbn [isString ToString andb].
  destruct (includes raw "setImmediate" || includes raw "setImmedia");
    [discriminate|].
  destruct (includes raw _); [|discriminate].
  destruct (JSON_parse E raw) as [text|v]; [|discriminate].
  intros _. split; [reflexivity|]. exists text. split; reflexivity.
Qed.


(** ** Acquisition *)

(** The promise of [loadFileFromBase64] is never rejected: whatever is
    thrown inside is caught there. *)
Lemma loadFileFromBase64_returns E fileData fileName w :
  fst (loadFileFromBase64 E fileData fileName w) = inr tt.
Proof.
  js_run. destruct (atob (ToString fileData)); js_run; [|reflexivity].
  destruct (classify (ToString fileName)); reflexivity.
Qed.

Ltac listener_run :=
  cbv beta iota zeta delta
    [run bind ret throw tryCatch call handleMessage callJSON_parse get
     strictEqualsString fst snd].

(** A load request the listener accepts is logged and handed to
    [loadFileFromBase64] with its two fields. *)
Lemma handleMessage_accepts E data w fileData fileName :
  decode E data = LoadDocument fileData fileName ->
  exists length,
    step E (messageEvent data) w
    = Some (run (loadFileFromBase64 E fileData fileName)
              (perform (addDebugInfo ("Loading document: " ++ ToString fileName
                                      ++ ", data length: " ++ length))
                 (perform (addDebugInfo "Parsed message type: LOAD_DOCUMENT")
                    (perform (addDebugInfo ("Received message: " ++ ToString data)) w)))).
Proof.
  intros H. unfold decode in H.
  destruct (isNoise data) eqn:Hn; [discriminate|].
  cbn [step]. listener_run. rewrite Hn.
  unfold classifyThrown in H.
  destruct (JSON_parse E (ToString data)) as [msg|v];
    [destruct (isIgnoredError _); discriminate|].
  destruct v; try (destruct (isIgnoredError _); discriminate); try discriminate H.
  listener_run.
  destruct (member "type" members) as [[| | | |t| |]|]; try discriminate H.
  destruct (t =? "LOAD_DOCUMENT")%string eqn:Ht; [|discriminate].
  apply String.eqb_eq in Ht. subst t. cbn [ToString].
  destruct (member "fileData" members) as [[]|];
    try (destruct (isIgnoredError _); discriminate);
    injection H as <- <-; listener_run;
    match goal with
    | |- context [(", data length: " ++ ?l)%string] => exists l
    end;
    cbn [String.append];
    match goal with
    | |- context [loadFileFromBase64 E ?a ?b ?W] =>
        pose proof (loadFileFromBase64_returns E a b W) as Hr;
        destruct (loadFileFromBase64 E a b W) as [[e|[]] w']; [discriminate Hr|]
    end;
    reflexivity.
Qed.

(** C7. A load request the listener accepts whose [fileData] is not valid
    base64 fails in the acquisition: [atob] throws, the request goes from
    decoding straight to the error state (from [Idle] in a fresh session),
    the error text is the message of the decoder's exception and a
    [WEB_ERROR] with that text goes out. No file is selected, nothing is
    dispatched and nothing stays suspended. *)
Theorem invalid_base64_is_reported E data w fileData fileName :
  decode E data = LoadDocument fileData fileName ->
  atob (ToString fileData) = None ->
  atobMessage E <> EmptyString ->
  exists w',
    step E (messageEvent data) w = Some w' /\
    lifecycle (calls w') = (lifecycle (calls w) ++ [Decoding; Error (atobMessage E)])%list /\
    loadState w' = Error (atobMessage E) /\
    error (view w') = atobMessage E /\
    isLoading (view w') = false /\
    outbound (calls w') = (outbound (calls w) ++ [webError (atobMessage E)])%list /\
    bridge w' = option_map
                  (fun posted => (posted ++ [JSON_stringify (webError (atobMessage E))])%list)
                  (bridge w) /\
    selectedFile (view w') = selectedFile (view w) /\
    invoked (calls w') = invoked (calls w) /\
    tasks w' = tasks w.
Proof.
  intros Hdec Hatob Hmsg.
  destruct (handleMessage_accepts E data w fileData fileName Hdec) as (len & ->).
  eexists. split; [reflexivity|].
  js_run. rewrite Hatob. js_run. cbn [messageOr].
  apply String.eqb_neq in Hmsg.
  split.
  { calls_norm. rewrite lifecycle_app. cbn [flat_map entered app String.eqb].
    now rewrite Hmsg. }
  split.
  { apply (loadState_entered _ (lifecycle (calls w) ++ [Decoding])%list).
    calls_norm. rewrite lifecycle_app. cbn [flat_map entered app String.eqb].
    now rewrite Hmsg. }
  calls_norm. rewrite outbound_app, invoked_app. cbn. rewrite !app_nil_r.
  repeat split. now destruct (bridge w).
Qed.

(** The scenario of the spec: [fileData] is [not-base64!!]. *)
Lemma invalid_base64_is_reported_witness :
  decode sampleEngine (JString (loadDocumentText "not-base64!!" "a.xlsx"))
  = LoadDocument (JString "not-base64!!") (JString "a.xlsx") /\
  atob "not-base64!!" = None /\
  exists w',
    step sampleEngine
      (messageEvent (JString (loadDocumentText "not-base64!!" "a.xlsx")))
      (initialWorld (Some [])) = Some w' /\
    lifecycle (calls w') = [Idle; Decoding; Error (atobMessage sampleEngine)] /\
    outbound (calls w') = [webError (atobMessage sampleEngine)].
Proof.
  assert (Hdec : decode sampleEngine
                   (JString (loadDocumentText "not-base64!!" "a.xlsx"))
                 = LoadDocument (JString "not-base64!!") (JString "a.xlsx"))
    by reflexivity.
  assert (Hatob : atob (ToString (JString "not-base64!!")) = None) by reflexivity.
  assert (Hmsg : atobMessage sampleEngine <> EmptyString)
    by (apply String.eqb_neq; reflexivity).
  split; [exact Hdec|]. split; [exact Hatob|].
  destruct (invalid_base64_is_reported sampleEngine _ (initialWorld (Some [])) _ _
              Hdec Hatob Hmsg) as (w' & Hstep & Hlife & _ & _ & _ & Hout & _).
  exists w'. split; [exact Hstep|]. split; [exact Hlife | exact Hout].
Defined.

(** C8. A load request the listener accepts, with valid base64 of a file the
    spreadsheet library reads and the name [a.xlsx], takes a fresh session
    from [Idle] through [Decoding] and [Processing], where it waits for the
    bytes with the loading flag set, to [Ready]; the sheets are shown and
    the one outbound message is [LOADED] with that name, whose text on the
    bridge is [{"type":"LOADED","fileName":"a.xlsx"}]. *)
Theorem xlsx_request_reaches_Ready
    E data posted fileData byteCharacters workbook viewer :
  decode E data = LoadDocument (JString fileData) (JString "a.xlsx") ->
  atob fileData = Some byteCharacters ->
  XLSX_read E (Uint8Array (charCodes byteCharacters)) = inr workbook ->
  exists w1 w2,
    step E (messageEvent data) (initialWorld posted) = Some w1 /\
    lifecycle (calls w1) = [Idle; Decoding; Processing] /\
    isLoading (view w1) = true /\
    tasks w1 = [suspendedCall
                  (excelArrayBuffer {| name := "a.xlsx";
                                       content := Uint8Array (charCodes byteCharacters) |})
                  (viaBase64 (JString "a.xlsx"))] /\
    outbound (calls w1) = [] /\
    step E (arrayBufferSettled 0 (inr tt) viewer) w1 = Some w2 /\
    lifecycle (calls w2) = [Idle; Decoding; Processing; Ready (JString "a.xlsx")] /\
    loadState w2 = Ready (JString "a.xlsx") /\
    outbound (calls w2) = [loaded (JString "a.xlsx")] /\
    bridge w2 = option_map (fun texts => (texts ++ [loadedText])%list) posted /\
    excelData (view w2) = Some (sheetsOf workbook) /\
    fileType (view w2) = excel /\
    isLoading (view w2) = false /\
    error (view w2) = EmptyString /\
    tasks w2 = [].
Proof.
  intros Hdec Hatob Hread.
  destruct (handleMessage_accepts E data (initialWorld posted) _ _ Hdec) as (len & Hstep).
  eexists. eexists. split; [exact Hstep|].
  js_run. cbn [ToString]. rewrite Hatob. js_run.
  change (classify "a.xlsx") with Excel. js_run. calls_norm.
  split; [reflexivity|]. split; [reflexivity|]. split; [reflexivity|].
  split; [reflexivity|].
  cbn [step tasks nth_error app initialWorld]. js_run. calls_norm. rewrite Hread. js_run. calls_norm.
  split; [reflexivity|].
  repeat split. now destruct posted.
Qed.

(** The two bytes of [A1], sent as [QTE=], are read as a sheet of one cell. *)
Lemma xlsx_request_reaches_Ready_witness :
  decode sampleEngine (JString (loadDocumentText "QTE=" "a.xlsx"))
  = LoadDocument (JString "QTE=") (JString "a.xlsx") /\
  atob "QTE=" = Some "A1" /\
  exists w2,
    steps sampleEngine
      [messageEvent (JString (loadDocumentText "QTE=" "a.xlsx"));
       arrayBufferSettled 0 (inr tt) false]
      (initialWorld (Some [])) = Some w2 /\
    lifecycle (calls w2) = [Idle; Decoding; Processing; Ready (JString "a.xlsx")] /\
    bridge w2 = Some [loadedText] /\
    excelData (view w2) = Some [("Sheet1", [[JString "A1"]])].
Proof.
  assert (Hdec : decode sampleEngine (JString (loadDocumentText "QTE=" "a.xlsx"))
                 = LoadDocument (JString "QTE=") (JString "a.xlsx")) by reflexivity.
  assert (Hatob : atob "QTE=" = Some "A1") by reflexivity.
  assert (Hread : XLSX_read sampleEngine (Uint8Array (charCodes "A1"))
                  = inr {| SheetNames := ["Sheet1"];
                           Sheets := fun _ => [[JString "A1"]] |}) by reflexivity.
  split; [exact Hdec|]. split; [exact Hatob|].
  destruct (xlsx_request_reaches_Ready sampleEngine _ (Some []) _ _ _ false
              Hdec Hatob Hread)
    as (w1 & w2 & Hs1 & _ & _ & _ & _ & Hs2 & Hlife & _ & _ & Hbridge & Hdata & _).
  exists w2. split; [cbn [steps]; rewrite Hs1; rewrite Hs2; reflexivity|].
  split; [exact Hlife|]. split; [exact Hbridge | exact Hdata].
Defined.

(** ** Dispatch *)

(** C5. For a file whose name classifies as [Unknown], [processFile] throws
    [Unsupported file type] before its first [await]: it is not suspended,
    no processor is called, no renderer is selected and nothing but the log
    changes. *)
Theorem unknown_kind_fails_at_once file w :
  classify (name file) = Unknown ->
  exists w',
    processFile file w = (inl (ErrorObj "Error" "Unsupported file type"), w') /\
    invoked (calls w') = invoked (calls w) /\
    tasks w' = tasks w /\
    fileType (view w') = fileType (view w) /\
    outbound (calls w') = outbound (calls w) /\
    lifecycle (calls w') = lifecycle (calls w).
Proof.
  intros Hk. js_run. rewrite Hk. js_run.
  eexists. split; [reflexivity|]. calls_norm.
  rewrite invoked_app, outbound_app, lifecycle_app. cbn. rewrite !app_nil_r.
  repeat split.
Qed.

Lemma unknown_kind_fails_at_once_witness :
  classify (name {| name := "data.csv"; content := [49; 44; 50] |}) = Unknown /\
  exists w',
    processFile {| name := "data.csv"; content := [49; 44; 50] |}
      (initialWorld None)
    = (inl (ErrorObj "Error" "Unsupported file type"), w') /\
    invoked (calls w') = [].
Proof.
  assert (Hk : classify (name {| name := "data.csv"; content := [49; 44; 50] |})
               = Unknown) by reflexivity.
  split; [exact Hk|].
  destruct (unknown_kind_fails_at_once _ (initialWorld None) Hk)
    as (w' & Hrun & Hinv & _).
  exists w'. split; [exact Hrun | exact Hinv].
Defined.

(** A request for a file of unknown kind is over within the event that
    brings it: it ends in the error state and leaves nothing suspended. *)
Lemma unknown_kind_request E w fileData fileName byteCharacters :
  atob (ToString fileData) = Some byteCharacters ->
  classify (ToString fileName) = Unknown ->
  let w' := run (loadFileFromBase64 E fileData fileName) w in
  error (view w') = "Unsupported file type" /\
  isLoading (view w') = false /\
  tasks w' = tasks w /\
  invoked (calls w') = invoked (calls w) /\
  outbound (calls w') = (outbound (calls w) ++ [webError "Unsupported file type"])%list.
Proof.
  intros Hatob Hk w'. subst w'. js_run. rewrite Hatob. js_run. rewrite Hk.
  js_run. calls_norm. rewrite invoked_app, outbound_app. cbn.
  rewrite !app_nil_r. repeat split.
Qed.

(** ** Settlements *)

(** What the two callers do when [processFile] has settled. *)
Lemma loadFileFromBase64_fulfilled fileName w :
  run (loadFileFromBase64_settled fileName (inr tt)) w
  = perform (setIsLoading false)
      (perform (postMessageToNative (loaded fileName))
         (perform (addDebugInfo "File processed successfully") w)).
Proof. reflexivity. Qed.

Lemma loadFileFromBase64_rejected fileName err w :
  run (loadFileFromBase64_settled fileName (inl err)) w
  = perform (setIsLoading false)
      (perform (postMessageToNative (webError (messageOr "Error loading file from data" err)))
         (perform (setError (messageOr "Error loading file from data" err))
            (perform (addDebugInfo ("Error: " ++ messageOr "Error loading file from data" err)) w))).
Proof. reflexivity. Qed.

(** An event that ends a suspended call runs the rest of the handler, which
    touches nothing but the log, the sheets and the viewer, and then hands
    the outcome to the caller. *)
Lemma completion_step E w ev caller result :
  completion E w ev = Some (caller, result) ->
  exists w1,
    step E ev w = Some (run (resumeCaller caller (settlementOf result)) w1) /\
    outbound (calls w1) = outbound (calls w) /\
    lifecycle (calls w1) = lifecycle (calls w) /\
    bridge w1 = bridge w /\
    fileType (view w1) = fileType (view w) /\
    error (view w1) = error (view w) /\
    selectedFile (view w1) = selectedFile (view w) /\
    excelData (view w1) = match result with
                          | inr (Some workbook) => Some (sheetsOf workbook)
                          | _ => excelData (view w)
                          end.
Proof.
  intros H. unfold completion in H.
  destruct ev as [| | |n|n outcome viewer|n outcome]; try discriminate H;
    cbn [step]; destruct (nth_error (tasks w) n) as [[[file| |file] c|]|];
    try discriminate H.
  - destruct outcome as [e|[]]; [|destruct viewer; [discriminate|]];
      injection H as <- <-; eexists; (split; [js_run; reflexivity|]);
      calls_norm; rewrite outbound_app, lifecycle_app; cbn; rewrite !app_nil_r;
      repeat split.
  - destruct outcome as [e|[]]; [|destruct (XLSX_read E (content file)) as [e|wb] eqn:Hread];
      injection H as <- <-; eexists;
      (split; [js_run; try rewrite Hread; js_run; reflexivity|]);
      calls_norm; rewrite outbound_app, lifecycle_app; cbn; rewrite !app_nil_r;
      repeat split.
  - destruct outcome as [e|[]];
      injection H as <- <-; eexists; (split; [js_run; reflexivity|]);
      calls_norm; rewrite outbound_app, lifecycle_app; cbn; rewrite !app_nil_r;
      repeat split.
Qed.

Lemma processorFailure_completion E w ev caller p err :
  processorFailure E w ev = Some (caller, p, err) ->
  completion E w ev = Some (caller, inl err).
Proof.
  unfold processorFailure, completion.
  destruct ev as [| | |n|n [e|[]] viewer|n [e|[]]]; try discriminate;
    destruct (nth_error (tasks w) n) as [[[file| |file] c|]|]; try discriminate.
  - destruct (XLSX_read E (content file)); [|discriminate].
    now intros [= <- <- <-].
  - now intros [= <- <- <-].
Qed.

(** A settlement never selects a renderer: [setFileType] is only called
    before the first [await] of a handler. *)
Lemma settlement_keeps_fileType E ev w w' :
  isSettlement ev = true ->
  step E ev w = Some w' ->
  fileType (view w') = fileType (view w).
Proof.
  destruct ev as [| | |n|n outcome viewer|n outcome]; try discriminate;
    intros _; cbn [step];
    destruct (nth_error (tasks w) n) as [[[file| |file] [fileName|]|]|];
    try discriminate; intros [= <-]; try reflexivity.
  all: destruct outcome as [e|[]]; try (destruct viewer);
    try (js_run; destruct (XLSX_read E (content file))); reflexivity.
Qed.

Lemma settlements_keep_fileType E evs w w' :
  forallb isSettlement evs = true ->
  steps E evs w = Some w' ->
  fileType (view w') = fileType (view w).
Proof.
  revert w. induction evs as [|ev evs IH]; intros w Hall Hsteps.
  - now injection Hsteps as <-.
  - cbn [forallb] in Hall. apply andb_true_iff in Hall as [Hev Hall].
    cbn [steps] in Hsteps. destruct (step E ev w) as [w1|] eqn:Hstep; [|discriminate].
    rewrite (IH w1 Hall Hsteps). exact (settlement_keeps_fileType E ev w w1 Hev Hstep).
Qed.

(** C10. The renderer is selected when the request is dispatched, before any
    processor is called, and no failure takes the selection back: once a
    request for a Word or Excel file is accepted, [fileType] is the kind of
    that file, and it still is after any run of settlements that ends with
    the failure of the request, when the error text is set. *)
Theorem fileType_is_kept_on_failure E w fileData fileName byteCharacters :
  atob (ToString fileData) = Some byteCharacters ->
  classify (ToString fileName) = Word \/ classify (ToString fileName) = Excel ->
  let w1 := run (loadFileFromBase64 E fileData fileName) w in
  fileType (view w1) = fileTypeOf (classify (ToString fileName)) /\
  invoked (calls w1) = invoked (calls w) /\
  (exists point,
      tasks w1 = (tasks w ++ [suspendedCall point (viaBase64 fileName)])%list) /\
  forall evs w2 ev err w3,
    forallb isSettlement evs = true ->
    steps E evs w1 = Some w2 ->
    completion E w2 ev = Some (viaBase64 fileName, inl err) ->
    step E ev w2 = Some w3 ->
    fileType (view w3) = fileTypeOf (classify (ToString fileName)) /\
    error (view w3) = messageOr "Error loading file from data" err.
Proof.
  intros Hatob Hkind w1.
  assert (H1 : fileType (view w1) = fileTypeOf (classify (ToString fileName)) /\
               invoked (calls w1) = invoked (calls w) /\
               exists point,
                 tasks w1 = (tasks w ++ [suspendedCall point (viaBase64 fileName)])%list).
  { subst w1. js_run. rewrite Hatob. js_run.
    destruct Hkind as [-> | ->]; js_run; calls_norm;
      rewrite invoked_app; cbn; rewrite app_nil_r;
      (split; [reflexivity|]); (split; [reflexivity|]); eexists; reflexivity. }
  destruct H1 as (Htype & Hinv & Htasks).
  split; [exact Htype|]. split; [exact Hinv|]. split; [exact Htasks|].
  intros evs w2 ev err w3 Hall Hsteps Hdone Hstep.
  destruct (completion_step E w2 ev _ _ Hdone)
    as (w2' & Hstep' & _ & _ & _ & Htype' & _).
  rewrite Hstep in Hstep'. injection Hstep' as ->.
  cbn [settlementOf resumeCaller]. rewrite loadFileFromBase64_rejected.
  calls_norm. split; [|reflexivity].
  rewrite Htype', <- Htype. exact (settlements_keep_fileType E evs w1 w2 Hall Hsteps).
Qed.

(** A Word document whose rendering is rejected: the renderer stays
    selected. *)
Lemma fileType_is_kept_on_failure_witness :
  atob "UEs=" = Some "PK" /\
  classify "a.docx" = Word /\
  fileType (view (initialWorld None)) = noFileType /\
  exists w3,
    steps sampleEngine
      [arrayBufferSettled 0 (inr tt) true;
       renderAsyncSettled 0 (inl (ErrorObj "Error" "Can't find end of central directory"))]
      (run (loadFileFromBase64 sampleEngine (JString "UEs=") (JString "a.docx"))
         (initialWorld None)) = Some w3 /\
    fileType (view w3) = word /\
    error (view w3) = "Can't find end of central directory".
Proof.
  assert (Hatob : atob (ToString (JString "UEs=")) = Some "PK") by reflexivity.
  assert (Hkind : classify (ToString (JString "a.docx")) = Word
                  \/ classify (ToString (JString "a.docx")) = Excel)
    by (left; reflexivity).
  split; [exact Hatob|]. split; [reflexivity|]. split; [reflexivity|].
  pose proof (fileType_is_kept_on_failure sampleEngine (initialWorld None)
                (JString "UEs=") (JString "a.docx") "PK" Hatob Hkind) as H.
  destruct H as (_ & _ & _ & H).
  set (w1 := run (loadFileFromBase64 sampleEngine (JString "UEs=") (JString "a.docx"))
               (initialWorld None)) in *.
  set (ev := renderAsyncSettled 0
               (inl (ErrorObj "Error" "Can't find end of central directory"))).
  let t := eval vm_compute in (steps sampleEngine [arrayBufferSettled 0 (inr tt) true] w1) in
  match t with Some ?w => pose (w2 := w) end.
  let t := eval vm_compute in (step sampleEngine ev w2) in
  match t with Some ?w => pose (w3 := w) end.
  assert (Hs : steps sampleEngine [arrayBufferSettled 0 (inr tt) true] w1 = Some w2)
    by (vm_compute; reflexivity).
  assert (Hc : completion sampleEngine w2 ev
               = Some (viaBase64 (JString "a.docx"),
                       inl (ErrorObj "Error" "Can't find end of central directory")))
    by (vm_compute; reflexivity).
  assert (Hst : step sampleEngine ev w2 = Some w3) by (vm_compute; reflexivity).
  exists w3. split; [vm_compute; reflexivity|].
  exact (H [arrayBufferSettled 0 (inr tt) true] w2 ev _ w3 eq_refl Hs Hc Hst).
Defined.

(** ** Overlapping requests *)

(** C1, as the code has it. The component has no sequence guard: an event
    that ends a suspended call of [loadFileFromBase64] is applied to the
    visible state whatever has been accepted or finished since that call
    began. A success posts [LOADED] with the name of that call, makes
    [Ready] for that name the current state and, for a spreadsheet, puts
    its sheets on display; a failure sets the error text and posts
    [WEB_ERROR]; both clear the loading flag. *)
Theorem completion_is_always_applied E w ev fileName result :
  completion E w ev = Some (viaBase64 fileName, result) ->
  exists w',
    step E ev w = Some w' /\
    isLoading (view w') = false /\
    match result with
    | inr read =>
        loadState w' = Ready fileName /\
        outbound (calls w') = (outbound (calls w) ++ [loaded fileName])%list /\
        bridge w' = option_map
                      (fun texts => (texts ++ [JSON_stringify (loaded fileName)])%list)
                      (bridge w) /\
        excelData (view w') = match read with
                              | Some workbook => Some (sheetsOf workbook)
                              | None => excelData (view w)
                              end
    | inl err =>
        error (view w') = messageOr "Error loading file from data" err /\
        outbound (calls w')
        = (outbound (calls w)
           ++ [webError (messageOr "Error loading file from data" err)])%list
    end.
Proof.
  intros Hdone.
  destruct (completion_step E w ev _ _ Hdone)
    as (w1 & Hstep & Hout & Hlife & Hbridge & _ & _ & _ & Hdata).
  eexists. split; [exact Hstep|].
  destruct result as [err|read]; cbn [settlementOf resumeCaller].
  - rewrite loadFileFromBase64_rejected. calls_norm.
    split; [reflexivity|]. split; [reflexivity|].
    rewrite outbound_app, Hout. reflexivity.
  - rewrite loadFileFromBase64_fulfilled. calls_norm.
    split; [reflexivity|]. split.
    { apply (loadState_entered _ (lifecycle (calls w1))).
      calls_norm. rewrite lifecycle_app. reflexivity. }
    split; [rewrite outbound_app, Hout; reflexivity|].
    split; [rewrite Hbridge; now destruct (bridge w)|].
    exact Hdata.
Qed.

Lemma completion_is_always_applied_witness :
  exists w2 w3,
    steps sampleEngine overlappingRequests (initialWorld (Some [])) = Some w2 /\
    completion sampleEngine w2 (arrayBufferSettled 0 (inr tt) false)
    = Some (viaBase64 (JString "a.xlsx"),
            inr (Some {| SheetNames := ["Sheet1"];
                         Sheets := fun _ => [[JString "A1"]] |})) /\
    step sampleEngine (arrayBufferSettled 0 (inr tt) false) w2 = Some w3 /\
    loadState w3 = Ready (JString "a.xlsx").
Proof.
  destruct overlappingWorld as [w2|] eqn:Hw2; [|discriminate Hw2].
  injection Hw2 as Hw2.
  assert (Hs : steps sampleEngine overlappingRequests (initialWorld (Some [])) = Some w2)
    by (rewrite <- Hw2; vm_compute; reflexivity).
  assert (Hc : completion sampleEngine w2 (arrayBufferSettled 0 (inr tt) false)
               = Some (viaBase64 (JString "a.xlsx"),
                       inr (Some {| SheetNames := ["Sheet1"];
                                    Sheets := fun _ => [[JString "A1"]] |})))
    by (rewrite <- Hw2; vm_compute; reflexivity).
  destruct (completion_is_always_applied sampleEngine w2 _ _ _ Hc)
    as (w3 & Hstep & _ & Hready & _).
  exists w2, w3. repeat split; assumption.
Defined.

(** C1, as stated, fails. Request #1 ([a.xlsx]) and request #2 ([b.xlsx])
    are accepted in this order; #2 is settled first and the state is [Ready]
    for [b.xlsx], with the sheet of [b.xlsx] on display and #1 still
    suspended. When #1 is settled the stale completion is not discarded: the
    state becomes [Ready] for [a.xlsx], the sheet of [a.xlsx] replaces the
    one on display and a second [LOADED], for [a.xlsx], goes out. *)
Lemma stale_completion_is_applied :
  exists w2 w3,
    steps sampleEngine overlappingRequests (initialWorld (Some [])) = Some w2 /\
    loadState w2 = Ready (JString "b.xlsx") /\
    excelData (view w2) = Some [("Sheet1", [[JString "B2"]])] /\
    tasks w2 = [suspendedCall
                  (excelArrayBuffer {| name := "a.xlsx"; content := [65; 49] |})
                  (viaBase64 (JString "a.xlsx"))] /\
    step sampleEngine (arrayBufferSettled 0 (inr tt) false) w2 = Some w3 /\
    loadState w3 = Ready (JString "a.xlsx") /\
    loadState w3 <> loadState w2 /\
    excelData (view w3) = Some [("Sheet1", [[JString "A1"]])] /\
    view w3 <> view w2 /\
    bridge w3 = Some [JSON_stringify (loaded (JString "b.xlsx"));
                      JSON_stringify (loaded (JString "a.xlsx"))].
Proof.
  eexists. eexists.
  split; [vm_compute; reflexivity|].
  split; [vm_compute; reflexivity|].
  split; [vm_compute; reflexivity|].
  split; [vm_compute; reflexivity|].
  split; [vm_compute; reflexivity|].
  split; [vm_compute; reflexivity|].
  split; [vm_compute; discriminate|].
  split; [vm_compute; reflexivity|].
  split; [vm_compute; discriminate|].
  vm_compute; reflexivity.
Qed.

(** With the names of the spec's example, [a] and [b], no request is ever
    stale: a file of unknown kind is refused within the event that brings
    the request, so the first is over before the second is accepted. *)
Lemma unknown_kinds_never_overlap :
  exists w1 w2,
    step sampleEngine (messageEvent (JString (loadDocumentText "QTE=" "a")))
      (initialWorld (Some [])) = Some w1 /\
    tasks w1 = [] /\
    loadState w1 = Error "Unsupported file type" /\
    step sampleEngine (messageEvent (JString (loadDocumentText "QjI=" "b"))) w1
    = Some w2 /\
    tasks w2 = [] /\
    loadState w2 = Error "Unsupported file type".
Proof.
  eexists. eexists.
  split; [vm_compute; reflexivity|].
  split; [vm_compute; reflexivity|].
  split; [vm_compute; reflexivity|].
  split; [vm_compute; reflexivity|].
  split; vm_compute; reflexivity.
Qed.

(** ** Failures of the processors *)

(** What a processor throws is what [processFile] is rejected with, and on
    its way the handler and [processFile] each write it to the log; the
    caller that reports to the host adds a line of its own. *)
Lemma processor_failure_is_logged E w ev caller p err :
  processorFailure E w ev = Some (caller, p, err) ->
  processFileOutcome E w ev = Some (inl err) /\
  forall w',
    step E ev w = Some w' ->
    debugInfo (view w')
    = (debugInfo (view w)
       ++ [handlerLog p err; ("Error in processFile: " ++ exnToString err)%string]
       ++ match caller with
          | viaBase64 _ =>
              [("Error: " ++ messageOr "Error loading file from data" err)%string]
          | viaUpload => []
          end)%list.
Proof.
  unfold processorFailure, processFileOutcome.
  destruct ev as [| | |n|n [e|[]] viewer|n [e|[]]]; try discriminate;
    cbn [step];
    destruct (nth_error (tasks w) n) as [[[file| |file] c|]|]; try discriminate.
  - destruct (XLSX_read E (content file)) as [e|wb] eqn:Hread; [|discriminate].
    intros [= <- <- <-]. split.
    + js_run. rewrite Hread. reflexivity.
    + intros w' [= <-]. js_run. rewrite Hread.
      destruct c as [fileName|]; js_run; calls_norm; reflexivity.
  - intros [= <- <- <-]. split; [reflexivity|].
    intros w' [= <-].
    destruct c as [fileName|]; js_run; calls_norm; reflexivity.
Qed.

(** C6, as the code has it. What a processor throws is logged and thrown
    again unchanged by the handler and by [processFile]: the promise of
    [processFile] is rejected with that very value, after a line of the
    handler and a line of [processFile] in the log. The caller shows and
    reports the message of the failure itself, or its own fixed text where
    the thrown value is no [Error]. Neither the error text nor the
    [WEB_ERROR] names the processor. *)
Theorem processor_failure_is_passed_on E w ev caller p err :
  processorFailure E w ev = Some (caller, p, err) ->
  exists w',
    step E ev w = Some w' /\
    processFileOutcome E w ev = Some (inl err) /\
    debugInfo (view w')
    = (debugInfo (view w)
       ++ [handlerLog p err; ("Error in processFile: " ++ exnToString err)%string]
       ++ match caller with
          | viaBase64 _ =>
              [("Error: " ++ messageOr "Error loading file from data" err)%string]
          | viaUpload => []
          end)%list /\
    isLoading (view w') = false /\
    fileType (view w') = fileType (view w) /\
    match caller with
    | viaBase64 fileName =>
        error (view w') = messageOr "Error loading file from data" err /\
        outbound (calls w')
        = (outbound (calls w)
           ++ [webError (messageOr "Error loading file from data" err)])%list /\
        bridge w'
        = option_map
            (fun texts =>
               (texts ++ [JSON_stringify
                            (webError (messageOr "Error loading file from data" err))])%list)
            (bridge w)
    | viaUpload =>
        error (view w') = messageOr "Error processing file" err /\
        outbound (calls w') = outbound (calls w) /\
        bridge w' = bridge w
    end.
Proof.
  intros Hfail.
  destruct (processor_failure_is_logged E w ev _ _ _ Hfail) as [Hthrown Hlog].
  apply processorFailure_completion in Hfail.
  destruct (completion_step E w ev _ _ Hfail)
    as (w1 & Hstep & Hout & _ & Hbridge & Htype & _).
  eexists. split; [exact Hstep|].
  split; [exact Hthrown|]. split; [exact (Hlog _ Hstep)|].
  destruct caller as [fileName|]; cbn [settlementOf resumeCaller].
  - rewrite loadFileFromBase64_rejected. calls_norm.
    split; [reflexivity|]. split; [exact Htype|]. split; [reflexivity|].
    split; [rewrite outbound_app, Hout; reflexivity|].
    rewrite Hbridge. now destruct (bridge w).
  - js_run. calls_norm.
    split; [reflexivity|]. split; [exact Htype|]. split; [reflexivity|].
    split; [|exact Hbridge].
    rewrite outbound_app, Hout. cbn. now rewrite app_nil_r.
Qed.

Lemma processor_failure_is_passed_on_witness :
  exists w1 w2,
    refusedSpreadsheet = Some w1 /\
    processorFailure sampleEngine w1 (arrayBufferSettled 0 (inr tt) false)
    = Some (viaBase64 (JString "a.xlsx"), xlsx, ErrorObj "Error" "Unsupported ZIP file") /\
    step sampleEngine (arrayBufferSettled 0 (inr tt) false) w1 = Some w2 /\
    error (view w2) = "Unsupported ZIP file" /\
    debugInfo (view w2)
    = (debugInfo (view w1)
       ++ ["Error processing Excel document: Error: Unsupported ZIP file";
           "Error in processFile: Error: Unsupported ZIP file";
           "Error: Unsupported ZIP file"])%list.
Proof.
  destruct refusedSpreadsheet as [w1|] eqn:Hw1; [|discriminate Hw1].
  injection Hw1 as Hw1.
  assert (Hf : processorFailure sampleEngine w1 (arrayBufferSettled 0 (inr tt) false)
               = Some (viaBase64 (JString "a.xlsx"), xlsx,
                       ErrorObj "Error" "Unsupported ZIP file"))
    by (rewrite <- Hw1; vm_compute; reflexivity).
  destruct (processor_failure_is_passed_on sampleEngine w1 _ _ _ _ Hf)
    as (w2 & Hstep & _ & Hlog & _ & _ & Herr & _).
  exists w1, w2. repeat split; assumption.
Defined.

(** C6, as stated, fails. The spreadsheet library throws
    [Unsupported ZIP file] on the four bytes of one request and the promise
    of the Word renderer is rejected with the same message on another: in
    both the error text and the [WEB_ERROR] are that message and nothing
    more, so the failure reaches the host unwrapped and the two outcomes do
    not tell which processor failed. *)
Lemma processor_failure_is_not_wrapped :
  exists wx wd,
    atob "UEsDBA==" = Some (string_of_list_ascii
                              (map (fun b => ascii_of_N (Z.to_N b)) [80; 75; 3; 4])) /\
    XLSX_read sampleEngine [80; 75; 3; 4]
    = inl (ErrorObj "Error" "Unsupported ZIP file") /\
    steps sampleEngine
      [messageEvent (JString (loadDocumentText "UEsDBA==" "a.xlsx"));
       arrayBufferSettled 0 (inr tt) false]
      (initialWorld (Some [])) = Some wx /\
    steps sampleEngine
      [messageEvent (JString (loadDocumentText "UEsDBA==" "a.docx"));
       arrayBufferSettled 0 (inr tt) true;
       renderAsyncSettled 0 (inl (ErrorObj "Error" "Unsupported ZIP file"))]
      (initialWorld (Some [])) = Some wd /\
    invoked (calls wx) = [xlsx] /\
    invoked (calls wd) = [docx_preview] /\
    error (view wx) = "Unsupported ZIP file" /\
    error (view wd) = "Unsupported ZIP file" /\
    outbound (calls wx) = [webError "Unsupported ZIP file"] /\
    outbound (calls wd) = [webError "Unsupported ZIP file"] /\
    bridge wx = bridge wd /\
    loadState wx = Error "Unsupported ZIP file" /\
    loadState wd = loadState wx.
Proof.
  eexists. eexists.
  split; [vm_compute; reflexivity|].
  split; [vm_compute; reflexivity|].
  split; [vm_compute; reflexivity|].
  split; [vm_compute; reflexivity|].
  repeat split; vm_compute; reflexivity.
Qed.

(** * Further properties of the component *)

(** ** Requests, kind by kind *)

(** What [loadFileFromBase64] leaves behind once the payload is decoded:
    the decoded file is selected and the sheets are cleared whatever the
    kind; a Word or Excel file leaves the call suspended on the bytes, a
    PowerPoint file is acknowledged and a file of unknown kind refused
    before the function returns. *)
Lemma loadFileFromBase64_decoded E w fileData fileName byteCharacters :
  atob (ToString fileData) = Some byteCharacters ->
  let file := fileOf fileName byteCharacters in
  let w1 := run (loadFileFromBase64 E fileData fileName) w in
  selectedFile (view w1) = Some file /\
  excelData (view w1) = None /\
  invoked (calls w1) = invoked (calls w) /\
  isEmbedded (view w1) = isEmbedded (view w) /\
  match classify (ToString fileName) with
  | Word =>
      tasks w1 = (tasks w ++ [suspendedCall (wordArrayBuffer file) (viaBase64 fileName)])%list /\
      fileType (view w1) = word /\ isLoading (view w1) = true /\
      error (view w1) = EmptyString /\
      outbound (calls w1) = outbound (calls w)
  | Excel =>
      tasks w1 = (tasks w ++ [suspendedCall (excelArrayBuffer file) (viaBase64 fileName)])%list /\
      fileType (view w1) = excel /\ isLoading (view w1) = true /\
      error (view w1) = EmptyString /\
      outbound (calls w1) = outbound (calls w)
  | PowerPoint =>
      tasks w1 = tasks w /\
      fileType (view w1) = powerpoint /\ isLoading (view w1) = false /\
      error (view w1) = EmptyString /\
      outbound (calls w1) = (outbound (calls w) ++ [loaded fileName])%list
  | Unknown =>
      tasks w1 = tasks w /\
      fileType (view w1) = fileType (view w) /\ isLoading (view w1) = false /\
      error (view w1) = "Unsupported file type" /\
      outbound (calls w1) = (outbound (calls w) ++ [webError "Unsupported file type"])%list
  end.
Proof.
  intros Hatob file w1. subst file w1. unfold fileOf.
  js_run. rewrite Hatob. js_run.
  destruct (classify (ToString fileName)); js_run; calls_norm;
    rewrite invoked_app, outbound_app; cbn; rewrite ?app_nil_r; repeat split.
Qed.

(** X1. A load request for a PowerPoint file is over within the event that
    brings it: the payload is decoded, the notice is selected, [LOADED]
    goes out for the name of the request and the state is [Ready]; no
    processor is called and nothing stays suspended. *)
Theorem powerpoint_request_is_acknowledged E data w fileData fileName byteCharacters :
  decode E data = LoadDocument fileData fileName ->
  atob (ToString fileData) = Some byteCharacters ->
  classify (ToString fileName) = PowerPoint ->
  exists w',
    step E (messageEvent data) w = Some w' /\
    lifecycle (calls w')
    = (lifecycle (calls w) ++ [Decoding; Processing; Ready fileName])%list /\
    loadState w' = Ready fileName /\
    fileType (view w') = powerpoint /\
    isLoading (view w') = false /\
    error (view w') = EmptyString /\
    excelData (view w') = None /\
    selectedFile (view w') = Some (fileOf fileName byteCharacters) /\
    outbound (calls w') = (outbound (calls w) ++ [loaded fileName])%list /\
    bridge w' = option_map
                  (fun texts => (texts ++ [JSON_stringify (loaded fileName)])%list)
                  (bridge w) /\
    invoked (calls w') = invoked (calls w) /\
    tasks w' = tasks w.
Proof.
  intros Hdec Hatob Hkind.
  destruct (handleMessage_accepts E data w fileData fileName Hdec) as (len & ->).
  eexists. split; [reflexivity|].
  js_run. rewrite Hatob. js_run. rewrite Hkind. js_run.
  split.
  { calls_norm. rewrite lifecycle_app. reflexivity. }
  split.
  { apply (loadState_entered _ (lifecycle (calls w) ++ [Decoding; Processing])%list).
    calls_norm. rewrite lifecycle_app. reflexivity. }
  calls_norm. rewrite outbound_app, invoked_app. cbn. rewrite !app_nil_r.
  repeat split. now destruct (bridge w).
Qed.

Lemma powerpoint_request_is_acknowledged_witness :
  decode sampleEngine (JString (loadDocumentText "QTE=" "deck.PPTX"))
  = LoadDocument (JString "QTE=") (JString "deck.PPTX") /\
  classify "deck.PPTX" = PowerPoint /\
  exists w',
    step sampleEngine (messageEvent (JString (loadDocumentText "QTE=" "deck.PPTX")))
      (initialWorld (Some [])) = Some w' /\
    loadState w' = Ready (JString "deck.PPTX") /\
    tasks w' = [].
Proof.
  assert (Hdec : decode sampleEngine (JString (loadDocumentText "QTE=" "deck.PPTX"))
                 = LoadDocument (JString "QTE=") (JString "deck.PPTX")) by reflexivity.
  assert (Hatob : atob (ToString (JString "QTE=")) = Some "A1") by reflexivity.
  assert (Hkind : classify (ToString (JString "deck.PPTX")) = PowerPoint) by reflexivity.
  split; [exact Hdec|]. split; [exact Hkind|].
  destruct (powerpoint_request_is_acknowledged sampleEngine _ (initialWorld (Some []))
              _ _ _ Hdec Hatob Hkind)
    as (w' & Hstep & _ & Hready & _ & _ & _ & _ & _ & _ & _ & _ & Htasks).
  exists w'. split; [exact Hstep|]. split; [exact Hready | exact Htasks].
Defined.

(** X2. When the bytes of a Word file arrive and the viewer element is not
    in the page, the request fails with [Viewer container not available]:
    the text is shown and reported, the loading flag is cleared and
    [renderAsync] is not called. *)
Theorem word_without_viewer_fails E w n file fileName :
  nth_error (tasks w) n = Some (suspendedCall (wordArrayBuffer file) (viaBase64 fileName)) ->
  exists w',
    step E (arrayBufferSettled n (inr tt) false) w = Some w' /\
    error (view w') = "Viewer container not available" /\
    isLoading (view w') = false /\
    outbound (calls w')
    = (outbound (calls w) ++ [webError "Viewer container not available"])%list /\
    invoked (calls w') = invoked (calls w) /\
    tasks w' = removeNth n (tasks w).
Proof.
  intros Htask. cbn [step]. rewrite Htask.
  eexists. split; [reflexivity|].
  js_run. calls_norm. rewrite outbound_app, invoked_app. cbn. rewrite !app_nil_r.
  repeat split.
Qed.

Lemma word_without_viewer_fails_witness :
  exists w1 w',
    steps sampleEngine [messageEvent (JString (loadDocumentText "UEs=" "a.docx"))]
      (initialWorld None) = Some w1 /\
    nth_error (tasks w1) 0
    = Some (suspendedCall (wordArrayBuffer {| name := "a.docx"; content := [80; 75] |})
              (viaBase64 (JString "a.docx"))) /\
    step sampleEngine (arrayBufferSettled 0 (inr tt) false) w1 = Some w' /\
    error (view w') = "Viewer container not available".
Proof.
  let t := eval vm_compute in
    (steps sampleEngine [messageEvent (JString (loadDocumentText "UEs=" "a.docx"))]
       (initialWorld None)) in
  match t with Some ?w => pose (w1 := w) end.
  assert (Hs : steps sampleEngine [messageEvent (JString (loadDocumentText "UEs=" "a.docx"))]
                 (initialWorld None) = Some w1) by (vm_compute; reflexivity).
  assert (Ht : nth_error (tasks w1) 0
               = Some (suspendedCall (wordArrayBuffer {| name := "a.docx"; content := [80; 75] |})
                         (viaBase64 (JString "a.docx")))) by reflexivity.
  destruct (word_without_viewer_fails sampleEngine w1 0 _ _ Ht) as (w' & Hstep & Herr & _).
  exists w1, w'. repeat split; assumption.
Defined.

(** X3. A Word request goes through two settlements. When the bytes arrive
    and the viewer element is in the page, the element is emptied,
    [renderAsync] is called on the bytes of the file and the call waits
    again, still loading, for the same caller and with nothing posted; when
    the rendering is fulfilled the request is [Ready] and [LOADED] goes out
    for its name. *)
Theorem word_request_renders_then_loads E w n file fileName :
  nth_error (tasks w) n = Some (suspendedCall (wordArrayBuffer file) (viaBase64 fileName)) ->
  exists w1 w2,
    step E (arrayBufferSettled n (inr tt) true) w = Some w1 /\
    tasks w1 = (removeNth n (tasks w) ++ [suspendedCall wordRender (viaBase64 fileName)])%list /\
    calls w1 = (calls w ++ [addDebugInfo ("ArrayBuffer size: " ++ decimal (size file));
                            addDebugInfo "Clearing viewer and rendering...";
                            clearViewer;
                            invoke docx_preview (content file)])%list /\
    isLoading (view w1) = isLoading (view w) /\
    outbound (calls w1) = outbound (calls w) /\
    step E (renderAsyncSettled (List.length (removeNth n (tasks w))) (inr tt)) w1 = Some w2 /\
    loadState w2 = Ready fileName /\
    isLoading (view w2) = false /\
    error (view w2) = error (view w) /\
    outbound (calls w2) = (outbound (calls w) ++ [loaded fileName])%list /\
    tasks w2 = removeNth n (tasks w).
Proof.
  intros Htask. cbn [step]. rewrite Htask.
  eexists. eexists. split; [reflexivity|].
  js_run. calls_norm.
  split; [reflexivity|]. split; [reflexivity|]. split; [reflexivity|].
  split; [rewrite outbound_app; cbn; now rewrite app_nil_r|].
  rewrite nth_error_enqueued.
  split; [reflexivity|].
  js_run. calls_norm. rewrite removeNth_enqueued.
  split.
  { apply (loadState_entered _ (lifecycle (calls w))).
    calls_norm. rewrite lifecycle_app. reflexivity. }
  rewrite outbound_app. cbn.
  repeat split.
Qed.

Lemma word_request_renders_then_loads_witness :
  exists w0 w1 w2,
    steps sampleEngine [messageEvent (JString (loadDocumentText "UEs=" "a.docx"))]
      (initialWorld None) = Some w0 /\
    nth_error (tasks w0) 0
    = Some (suspendedCall (wordArrayBuffer {| name := "a.docx"; content := [80; 75] |})
              (viaBase64 (JString "a.docx"))) /\
    step sampleEngine (arrayBufferSettled 0 (inr tt) true) w0 = Some w1 /\
    step sampleEngine (renderAsyncSettled 0 (inr tt)) w1 = Some w2 /\
    loadState w2 = Ready (JString "a.docx").
Proof.
  let t := eval vm_compute in
    (steps sampleEngine [messageEvent (JString (loadDocumentText "UEs=" "a.docx"))]
       (initialWorld None)) in
  match t with Some ?w => pose (w0 := w) end.
  assert (Hs : steps sampleEngine [messageEvent (JString (loadDocumentText "UEs=" "a.docx"))]
                 (initialWorld None) = Some w0) by (vm_compute; reflexivity).
  assert (Ht : nth_error (tasks w0) 0
               = Some (suspendedCall (wordArrayBuffer {| name := "a.docx"; content := [80; 75] |})
                         (viaBase64 (JString "a.docx")))) by reflexivity.
  destruct (word_request_renders_then_loads sampleEngine w0 0 _ _ Ht)
    as (w1 & w2 & Hs1 & _ & _ & _ & _ & Hs2 & Hready & _).
  exists w0, w1, w2.
  split; [exact Hs|]. split; [exact Ht|]. split; [exact Hs1|].
  split; [exact Hs2 | exact Hready].
Defined.

(** ** What the listener does not act on *)

Lemma sameButLog_refl w : sameButLog w w.
Proof. repeat split. Qed.

Lemma sameButLog_logged w info : sameButLog w (perform (addDebugInfo info) w).
Proof.
  unfold sameButLog. calls_norm.
  rewrite outbound_app, lifecycle_app, invoked_app. cbn. rewrite !app_nil_r.
  repeat split.
Qed.

Lemma sameButLog_trans w1 w2 w3 :
  sameButLog w1 w2 -> sameButLog w2 w3 -> sameButLog w1 w3.
Proof.
  unfold sameButLog. intros H1 H2.
  repeat match goal with H : _ /\ _ |- _ => destruct H end.
  repeat split; congruence.
Qed.

(** X4. A message the listener drops through either of its filters (the
    test of [event.data], or the test of the message of what it caught)
    changes nothing but the log: no state variable, no request, no message
    to the host. *)
Theorem dropped_message_only_logs E data w :
  decode E data = Noise ->
  exists w', step E (messageEvent data) w = Some w' /\ sameButLog w w'.
Proof.
  intros H. destruct (isNoise data) eqn:Hn.
  - exists w. split; [|apply sameButLog_refl].
    cbn [step]. unfold run, handleMessage. now rewrite Hn.
  - destruct (ignored_error_is_dropped E data w Hn H) as [-> | (t & ->)];
      eexists; (split; [reflexivity|]).
    + apply sameButLog_logged.
    + eapply sameButLog_trans; apply sameButLog_logged.
Qed.

(** A text a V8 engine refuses with [... is not valid JSON]. *)
Lemma dropped_message_only_logs_witness :
  decode sampleEngine (JString "hello") = Noise /\
  isNoise (JString "hello") = false /\
  exists w',
    step sampleEngine (messageEvent (JString "hello")) (initialWorld (Some [])) = Some w' /\
    sameButLog (initialWorld (Some [])) w'.
Proof.
  assert (H : decode sampleEngine (JString "hello") = Noise) by reflexivity.
  split; [exact H|]. split; [reflexivity|].
  exact (dropped_message_only_logs sampleEngine _ (initialWorld (Some [])) H).
Defined.



(** ** Uploads *)

(** X6. The upload path never talks to the host. Choosing a file selects
    it, clears the error and the sheets and posts nothing, whatever the
    kind of the file; choosing none changes nothing; and the end of an
    upload, good or bad, posts nothing either: a failure only sets the
    error text, to the message of what was thrown or to
    [Error processing file]. *)
Theorem upload_never_posts E w :
  step E (changeEvent None) w = Some w /\
  (forall file,
      exists w1,
        step E (changeEvent (Some file)) w = Some w1 /\
        selectedFile (view w1) = Some file /\
        excelData (view w1) = None /\
        outbound (calls w1) = outbound (calls w) /\
        bridge w1 = bridge w /\
        match classify (name file) with
        | Word =>
            tasks w1 = (tasks w ++ [suspendedCall (wordArrayBuffer file) viaUpload])%list /\
            isLoading (view w1) = true /\ error (view w1) = EmptyString
        | Excel =>
            tasks w1 = (tasks w ++ [suspendedCall (excelArrayBuffer file) viaUpload])%list /\
            isLoading (view w1) = true /\ error (view w1) = EmptyString
        | PowerPoint =>
            tasks w1 = tasks w /\
            isLoading (view w1) = false /\ error (view w1) = EmptyString
        | Unknown =>
            tasks w1 = tasks w /\
            isLoading (view w1) = false /\ error (view w1) = "Unsupported file type"
        end) /\
  (forall ev result,
      completion E w ev = Some (viaUpload, result) ->
      exists w',
        step E ev w = Some w' /\
        outbound (calls w') = outbound (calls w) /\
        bridge w' = bridge w /\
        isLoading (view w') = false /\
        error (view w') = match result with
                          | inl err => messageOr "Error processing file" err
                          | inr _ => error (view w)
                          end).
Proof.
  split; [reflexivity|]. split.
  - intros file. cbn [step]. eexists. split; [reflexivity|].
    js_run. destruct (classify (name file)); js_run; calls_norm;
      rewrite outbound_app; cbn; rewrite ?app_nil_r; repeat split;
      now destruct (bridge w).
  - intros ev result Hdone.
    destruct (completion_step E w ev _ _ Hdone)
      as (w1 & Hstep & Hout & _ & Hbridge & _ & Herr & _).
    eexists. split; [exact Hstep|].
    destruct result as [err|read]; cbn [settlementOf resumeCaller]; js_run;
      calls_norm; rewrite outbound_app, Hout; cbn; rewrite ?app_nil_r;
      repeat split; assumption.
Qed.

Lemma upload_never_posts_witness :
  exists w1 w2,
    step sampleEngine
      (changeEvent (Some {| name := "book.xls"; content := [80; 75; 3; 4] |}))
      (initialWorld (Some [])) = Some w1 /\
    completion sampleEngine w1 (arrayBufferSettled 0 (inr tt) false)
    = Some (viaUpload, inl (ErrorObj "Error" "Unsupported ZIP file")) /\
    step sampleEngine (arrayBufferSettled 0 (inr tt) false) w1 = Some w2 /\
    bridge w2 = Some [] /\
    error (view w2) = "Unsupported ZIP file".
Proof.
  let t := eval vm_compute in
    (step sampleEngine (changeEvent (Some {| name := "book.xls"; content := [80; 75; 3; 4] |}))
       (initialWorld (Some []))) in
  match t with Some ?w => pose (w1 := w) end.
  assert (Hs : step sampleEngine
                 (changeEvent (Some {| name := "book.xls"; content := [80; 75; 3; 4] |}))
                 (initialWorld (Some [])) = Some w1) by (vm_compute; reflexivity).
  assert (Hc : completion sampleEngine w1 (arrayBufferSettled 0 (inr tt) false)
               = Some (viaUpload, inl (ErrorObj "Error" "Unsupported ZIP file")))
    by (vm_compute; reflexivity).
  destruct (proj2 (proj2 (upload_never_posts sampleEngine w1)) _ _ Hc)
    as (w2 & Hstep & _ & Hbridge & _ & Herr).
  exists w1, w2. repeat split; assumption.
Defined.

(** ** Start of the session *)

(** X7. In embedded mode the session announces itself once, whatever else
    goes on: the mount effect sets the mode and arms a timer; when the
    timer fires [READY] is posted, as [{"type":"READY"}] on the bridge, the
    timer is gone and nothing else has changed but the log; it cannot fire
    again. Without the [embedded] view mode the effect does nothing. *)
Theorem ready_is_announced_once E w :
  step E (mount None) w = Some w /\
  exists w1 w2,
    step E (mount (Some "embedded")) w = Some w1 /\
    isEmbedded (view w1) = true /\
    tasks w1 = (tasks w ++ [readyTimer])%list /\
    outbound (calls w1) = outbound (calls w) /\
    step E (timerFired (List.length (tasks w))) w1 = Some w2 /\
    outbound (calls w2) = (outbound (calls w) ++ [ready])%list /\
    bridge w2 = option_map (fun texts => (texts ++ [readyText])%list) (bridge w) /\
    tasks w2 = tasks w /\
    lifecycle (calls w2) = lifecycle (calls w) /\
    (selectedFile (view w2), fileType (view w2), isLoading (view w2),
     error (view w2), excelData (view w2))
    = (selectedFile (view w), fileType (view w), isLoading (view w),
       error (view w), excelData (view w)) /\
    step E (timerFired (List.length (tasks w))) w2 = None.
Proof.
  split; [reflexivity|].
  eexists. eexists. split; [reflexivity|].
  js_run. change (extensionIs (Some "embedded") "embedded") with true.
  js_run. calls_norm.
  split; [reflexivity|]. split; [reflexivity|].
  split; [rewrite outbound_app; cbn; now rewrite app_nil_r|].
  cbn [step tasks]. rewrite nth_error_enqueued.
  split; [reflexivity|].
  js_run. calls_norm. rewrite removeNth_enqueued.
  rewrite outbound_app, lifecycle_app. cbn. rewrite ?app_nil_r.
  repeat split.
  - now destruct (bridge w).
  - cbn [step tasks].
    assert (Hn : nth_error (tasks w) (List.length (tasks w)) = None)
      by (apply nth_error_None; lia).
    now rewrite Hn.
Qed.

(** ** Invariants of the session *)

Section Preservation.

Variable P : World -> Prop.
Hypothesis P_stable : Stable P.

Lemma preserves_ret {A : Type} (a : A) : Preserves P (ret a).
Proof. intros w Hw. exact Hw. Qed.

Lemma preserves_throw {A : Type} (e : Exn) : Preserves P (@throw A e).
Proof. intros w Hw. exact Hw. Qed.

Lemma preserves_call c : Preserves P (call c).
Proof. intros w Hw. apply (proj1 P_stable), Hw. Qed.

Lemma preserves_suspend point caller : Preserves P (suspend point caller).
Proof. intros w Hw. apply (proj2 P_stable w), Hw. Qed.

Lemma preserves_setTimeout t : Preserves P (setTimeout t).
Proof. intros w Hw. apply (proj2 P_stable w), Hw. Qed.

Lemma preserves_bind {A B : Type} (m : M A) (k : A -> M B) :
  Preserves P m -> (forall a, Preserves P (k a)) -> Preserves P (bind m k).
Proof.
  intros Hm Hk w Hw. unfold bind. specialize (Hm w Hw).
  destruct (m w) as [[e|a] w1]; [exact Hm | apply Hk, Hm].
Qed.

Lemma preserves_tryCatch {A : Type} (m : M A) (handler : Exn -> M A) :
  Preserves P m -> (forall e, Preserves P (handler e)) ->
  Preserves P (tryCatch m handler).
Proof.
  intros Hm Hh w Hw. unfold tryCatch. specialize (Hm w Hw).
  destruct (m w) as [[e|a] w1]; [apply Hh, Hm | exact Hm].
Qed.

Lemma preserves_attempt {A : Type} (m : M A) :
  Preserves P m -> Preserves P (attempt m).
Proof.
  intros Hm w Hw. unfold attempt. specialize (Hm w Hw).
  now destruct (m w).
Qed.

Lemma preserves_settled {A : Type} (r : Exn + A) : Preserves P (settled r).
Proof. destruct r; [apply preserves_throw | apply preserves_ret]. Qed.

(** Takes a computation of the component apart, down to the primitives;
    [known] closes the calls of functions already dealt with. *)
Ltac preserve_with known :=
  repeat first
    [ known
    | lazymatch goal with
      | |- Preserves _ (ret _) => apply preserves_ret
      | |- Preserves _ (throw _) => apply preserves_throw
      | |- Preserves _ (call _) => apply preserves_call
      | |- Preserves _ (suspend _ _) => apply preserves_suspend
      | |- Preserves _ (setTimeout _) => apply preserves_setTimeout
      | |- Preserves _ (settled _) => apply preserves_settled
      | |- Preserves _ (attempt _) => apply preserves_attempt
      | |- Preserves _ (bind _ _) => apply preserves_bind; [|intros ?; cbv beta]
      | |- Preserves _ (tryCatch _ _) => apply preserves_tryCatch; [|intros ?; cbv beta]
      | |- Preserves _ (match ?x with _ => _ end) => destruct x
      | |- Preserves _ (let _ := _ in _) => cbv zeta
      end ].

Ltac preserve := preserve_with fail.

Lemma preserves_resumeCaller caller outcome :
  Preserves P (resumeCaller caller outcome).
Proof.
  unfold resumeCaller, loadFileFromBase64_settled, handleFileUpload_settled,
    postErrorToNative.
  preserve.
Qed.

Lemma preserves_awaitProcessFile caller progress :
  Preserves P (awaitProcessFile caller progress).
Proof.
  unfold awaitProcessFile.
  destruct progress as [e|[point|]];
    [apply preserves_resumeCaller | apply preserves_suspend | apply preserves_resumeCaller].
Qed.

Lemma preserves_processFile file : Preserves P (processFile file).
Proof.
  unfold processFile, processFile_catch, processWordDocument, processExcelDocument,
    processPowerPointDocument.
  preserve.
Qed.

Lemma preserves_callAtob E text : Preserves P (callAtob E text).
Proof. unfold callAtob. preserve. Qed.

Lemma preserves_loadFileFromBase64 E fileData fileName :
  Preserves P (loadFileFromBase64 E fileData fileName).
Proof.
  unfold loadFileFromBase64.
  preserve_with ltac:(idtac; lazymatch goal with
                      | |- Preserves _ (processFile _) => apply preserves_processFile
                      | |- Preserves _ (awaitProcessFile _ _) =>
                          apply preserves_awaitProcessFile
                      | |- Preserves _ (callAtob _ _) => apply preserves_callAtob
                      end).
Qed.

Lemma preserves_get E v key : Preserves P (get E v key).
Proof. unfold get. preserve. Qed.

Lemma preserves_callJSON_parse E text : Preserves P (callJSON_parse E text).
Proof. unfold callJSON_parse. preserve. Qed.

Lemma preserves_handleMessage E data : Preserves P (handleMessage E data).
Proof.
  unfold handleMessage, postErrorToNative.
  preserve_with ltac:(idtac; lazymatch goal with
                      | |- Preserves _ (loadFileFromBase64 _ _ _) =>
                          apply preserves_loadFileFromBase64
                      | |- Preserves _ (get _ _ _) => apply preserves_get
                      | |- Preserves _ (callJSON_parse _ _) =>
                          apply preserves_callJSON_parse
                      end).
Qed.

Lemma preserves_handleFileUpload file : Preserves P (handleFileUpload file).
Proof.
  unfold handleFileUpload.
  preserve_with ltac:(idtac; lazymatch goal with
                      | |- Preserves _ (processFile _) => apply preserves_processFile
                      | |- Preserves _ (awaitProcessFile _ _) =>
                          apply preserves_awaitProcessFile
                      end).
Qed.

Lemma preserves_processFile_resume E point outcome viewer :
  Preserves P (processFile_resume E point outcome viewer).
Proof.
  unfold processFile_resume, processFile_catch, processWordDocument_buffer,
    processWordDocument_render, processWordDocument_catch,
    processExcelDocument_buffer.
  preserve.
Qed.

Lemma preserves_resume E point caller outcome viewer :
  Preserves P (resume E point caller outcome viewer).
Proof.
  unfold resume.
  preserve_with ltac:(idtac; lazymatch goal with
                      | |- Preserves _ (processFile_resume _ _ _ _) =>
                          apply preserves_processFile_resume
                      | |- Preserves _ (awaitProcessFile _ _) =>
                          apply preserves_awaitProcessFile
                      end).
Qed.

(** Every event keeps a stable property. *)
Lemma step_preserves E ev w w' : P w -> step E ev w = Some w' -> P w'.
Proof.
  intros Hw. destruct ev as [viewMode|data|file|n|n outcome viewer|n outcome];
    cbn [step].
  - intros [= <-]. unfold onMount. revert w Hw.
    change (Preserves P (if extensionIs viewMode "embedded"
                         then call (setIsEmbedded true) ;;
                              call (addDebugInfo "Running in embedded mode") ;;
                              setTimeout readyTimer
                         else ret tt)).
    preserve.
  - intros [= <-]. apply preserves_handleMessage, Hw.
  - intros [= <-]. apply preserves_handleFileUpload, Hw.
  - destruct (nth_error (tasks w) n) as [[|]|]; try discriminate.
    intros [= <-]. unfold onReadyTimer.
    assert (Hd : P (dequeue n w)) by apply (proj2 P_stable w), Hw.
    revert Hd. generalize (dequeue n w).
    change (Preserves P (call (postMessageToNative
                                 {| type := READY; fileName := None; message := None |}) ;;
                         call (addDebugInfo "Sent READY signal to React Native"))).
    preserve.
  - destruct (nth_error (tasks w) n) as [[[file| |file] caller|]|]; try discriminate;
      intros [= <-]; apply preserves_resume, (proj2 P_stable w), Hw.
  - destruct (nth_error (tasks w) n) as [[[file| |file] caller|]|]; try discriminate;
      intros [= <-]; apply preserves_resume, (proj2 P_stable w), Hw.
Qed.

Lemma steps_preserve E evs : forall w w', P w -> steps E evs w = Some w' -> P w'.
Proof.
  induction evs as [|ev evs IH]; intros w w' Hw Hsteps; cbn [steps] in Hsteps.
  - now injection Hsteps as <-.
  - destruct (step E ev w) as [w1|] eqn:Hstep; [|discriminate].
    exact (IH w1 w' (step_preserves E ev w w1 Hw Hstep) Hsteps).
Qed.

End Preservation.

Lemma bridgeDelivers_stable bridge0 : Stable (bridgeDelivers bridge0).
Proof.
  split.
  - intros c w Hw. unfold bridgeDelivers in *. calls_norm.
    rewrite outbound_app, map_app, Hw.
    destruct c; destruct bridge0 as [texts|]; cbn; rewrite ?app_nil_r;
      try reflexivity.
    now rewrite app_assoc.
  - intros w ts Hw. exact Hw.
Qed.

(** X8. What reaches the host is exactly what [postMessageToNative] was
    given: in every world of a session, the bridge holds the JSON texts of
    the messages posted so far, in the order of the calls, after what it held
    at the start; a session without a bridge never gets one, and runs on. *)
Theorem bridge_receives_every_message E bridge0 w :
  reachable E bridge0 w ->
  bridge w
  = option_map (fun texts => (texts ++ map JSON_stringify (outbound (calls w)))%list)
      bridge0.
Proof.
  intros (evs & Hsteps).
  apply (steps_preserve _ (bridgeDelivers_stable bridge0) E evs (initialWorld bridge0) w);
    [|exact Hsteps].
  unfold bridgeDelivers. cbn. destruct bridge0; cbn; [now rewrite app_nil_r | reflexivity].
Qed.

Lemma bridge_receives_every_message_witness :
  exists w,
    reachable sampleEngine (Some []) w /\
    outbound (calls w) = [loaded (JString "b.xlsx")] /\
    bridge w = Some (map JSON_stringify [loaded (JString "b.xlsx")]).
Proof.
  destruct overlappingWorld as [w|] eqn:Hw; [|discriminate Hw].
  assert (Hr : reachable sampleEngine (Some []) w).
  { exists overlappingRequests. rewrite <- Hw. vm_compute. reflexivity. }
  pose proof (bridge_receives_every_message sampleEngine (Some []) w Hr) as Hb.
  assert (Hout : outbound (calls w) = [loaded (JString "b.xlsx")])
    by (injection Hw as <-; reflexivity).
  exists w. split; [exact Hr|]. split; [exact Hout|].
  rewrite Hb, Hout. reflexivity.
Defined.

(** The two flags of a world that the invariant is about, and whether a
    call is suspended. *)
Lemma coherent_same_flags w w' :
  isLoading (view w') = isLoading (view w) ->
  error (view w') = error (view w) ->
  hasSuspendedCall w' = hasSuspendedCall w ->
  coherent w -> coherent w'.
Proof. unfold coherent. intros -> -> ->. exact (fun H => H). Qed.

Lemma coherent_idle w : isLoading (view w) = false -> coherent w.
Proof. unfold coherent. intros ->. split; [discriminate | reflexivity]. Qed.

Lemma coherent_suspended w :
  error (view w) = EmptyString -> hasSuspendedCall w = true -> coherent w.
Proof. unfold coherent. intros -> ->. split; [reflexivity | discriminate]. Qed.

Lemma hasSuspendedCall_enqueued ts point caller :
  existsb isSuspendedCall (ts ++ [suspendedCall point caller])%list = true.
Proof. rewrite existsb_app. cbn. apply orb_true_r. Qed.

Lemma existsb_removeNth_timer ts n :
  nth_error ts n = Some readyTimer ->
  existsb isSuspendedCall (removeNth n ts) = existsb isSuspendedCall ts.
Proof.
  revert n. induction ts as [|t ts IH]; intros [|n] H; try discriminate.
  - injection H as ->. reflexivity.
  - cbn [removeNth existsb]. now rewrite (IH n H).
Qed.

(** Whatever world it starts in, [loadFileFromBase64] leaves a coherent
    one. *)
Lemma loadFileFromBase64_coherent E fileData fileName w :
  coherent (run (loadFileFromBase64 E fileData fileName) w).
Proof.
  js_run. destruct (atob (ToString fileData)); js_run;
    [destruct (classify (ToString fileName)); js_run|];
    first [ apply coherent_idle; reflexivity
          | apply coherent_suspended;
            [reflexivity | apply hasSuspendedCall_enqueued] ].
Qed.

Lemma handleFileUpload_coherent file w :
  coherent w -> coherent (run (handleFileUpload file) w).
Proof.
  intros Hw. destruct file as [file|]; [|exact Hw].
  js_run. destruct (classify (name file)); js_run;
    first [ apply coherent_idle; reflexivity
          | apply coherent_suspended;
            [reflexivity | apply hasSuspendedCall_enqueued] ].
Qed.

(** A message either starts a load or leaves the flags and the suspended
    calls as they are. *)
Lemma handleMessage_outcome E data w :
  exists w',
    step E (messageEvent data) w = Some w' /\
    ((isLoading (view w') = isLoading (view w) /\
      error (view w') = error (view w) /\
      tasks w' = tasks w)
     \/ exists fileData fileName w0, w' = run (loadFileFromBase64 E fileData fileName) w0).
Proof.
  cbn [step]. eexists. split; [reflexivity|].
  listener_run. destruct (isNoise data); [left; repeat split|].
  destruct (JSON_parse E (ToString data)) as [msg|v]; listener_run.
  { cbn [messageOr]. destruct (isIgnoredError msg); left; repeat split. }
  destruct v; listener_run; cbn [String.eqb Ascii.eqb Bool.eqb messageOr];
    listener_run;
    try (destruct (isIgnoredError _)); try (left; repeat split; fail).
  destruct (member "type" members) as [[| | | |t| |]|]; listener_run;
    try (left; repeat split; fail).
  destruct (t =? "LOAD_DOCUMENT")%string; listener_run;
    [|left; repeat split].
  destruct (member "fileData" members) as [[]|]; listener_run;
    cbn [messageOr];
    try (destruct (isIgnoredError _); left; repeat split; fail);
    right;
    match goal with
    | |- context [loadFileFromBase64 E ?a ?b ?W] =>
        exists a, b, W;
        pose proof (loadFileFromBase64_returns E a b W) as Hr;
        unfold run;
        destruct (loadFileFromBase64 E a b W) as [[e|[]] w']; [discriminate Hr|]
    end;
    reflexivity.
Qed.

(** The settlement of a promise either ends the request, and the loading
    flag is cleared, or leaves the call suspended with the flags as they
    were. *)
Lemma settlement_outcome E ev w w' :
  match ev with
  | arrayBufferSettled _ _ _ | renderAsyncSettled _ _ => True
  | _ => False
  end ->
  step E ev w = Some w' ->
  isLoading (view w') = false
  \/ (isLoading (view w') = isLoading (view w) /\
      error (view w') = error (view w) /\
      hasSuspendedCall w' = true).
Proof.
  destruct ev as [| | |n|n outcome viewer|n outcome]; try contradiction;
    intros _; cbn [step];
    destruct (nth_error (tasks w) n) as [[[file| |file] [fileName|]|]|];
    try discriminate; intros [= <-];
    destruct outcome as [e|[]]; try destruct viewer; js_run;
    try destruct (XLSX_read E (content file));
    first [ left; reflexivity
          | right; split; [reflexivity|]; split; [reflexivity|];
            apply hasSuspendedCall_enqueued ].
Qed.

Lemma step_coherent E ev w w' : coherent w -> step E ev w = Some w' -> coherent w'.
Proof.
  intros Hw Hstep. destruct ev as [viewMode|data|file|n|n outcome viewer|n outcome].
  - cbn [step] in Hstep. injection Hstep as <-. js_run.
    destruct (extensionIs viewMode "embedded"); [|exact Hw].
    apply (coherent_same_flags w); try reflexivity; [|exact Hw].
    unfold hasSuspendedCall. cbn [tasks perform]. rewrite existsb_app. cbn.
    apply orb_false_r.
  - destruct (handleMessage_outcome E data w)
      as (w1 & Hstep1 & [(Hl & He & Ht) | (fd & fn & w0 & Hrun)]);
      rewrite Hstep in Hstep1; injection Hstep1 as <-.
    + apply (coherent_same_flags w); try assumption.
      unfold hasSuspendedCall. now rewrite Ht.
    + rewrite Hrun. apply loadFileFromBase64_coherent.
  - cbn [step] in Hstep. injection Hstep as <-.
    apply handleFileUpload_coherent, Hw.
  - cbn [step] in Hstep.
    destruct (nth_error (tasks w) n) as [[|]|] eqn:Hn; try discriminate.
    injection Hstep as <-.
    apply (coherent_same_flags w); try reflexivity; [|exact Hw].
    unfold hasSuspendedCall. js_run. cbn [tasks perform dequeue].
    apply existsb_removeNth_timer, Hn.
  - destruct (settlement_outcome E (arrayBufferSettled n outcome viewer) w w' I Hstep)
      as [Hl | (Hl & He & Hs)].
    + apply coherent_idle, Hl.
    + destruct Hw as [_ Hw2]. split; [intros _; exact Hs|].
      rewrite He, Hl. exact Hw2.
  - destruct (settlement_outcome E (renderAsyncSettled n outcome) w w' I Hstep)
      as [Hl | (Hl & He & Hs)].
    + apply coherent_idle, Hl.
    + destruct Hw as [_ Hw2]. split; [intros _; exact Hs|].
      rewrite He, Hl. exact Hw2.
Qed.

(** X9. In every world of a session the loading flag is set only while
    some call of [processFile] is suspended, and no error text stands while
    the flag is set: the spinner never turns with nothing to wait for, and
    never beside an error. *)
Theorem session_is_coherent E bridge0 w :
  reachable E bridge0 w ->
  (isLoading (view w) = true -> hasSuspendedCall w = true) /\
  (error (view w) <> EmptyString -> isLoading (view w) = false).
Proof.
  intros (evs & Hsteps).
  assert (H : coherent w).
  { revert Hsteps. generalize (coherent_idle (initialWorld bridge0) eq_refl).
    generalize (initialWorld bridge0). induction evs as [|ev evs IH];
      intros w0 Hw0 Hsteps; cbn [steps] in Hsteps.
    - now injection Hsteps as <-.
    - destruct (step E ev w0) as [w1|] eqn:Hstep; [|discriminate].
      exact (IH w1 (step_coherent E ev w0 w1 Hw0 Hstep) Hsteps). }
  destruct H as [H1 H2]. split; [exact H1|].
  intros Hne. apply H2. unfold truthy.
  apply String.eqb_neq in Hne. now rewrite Hne.
Qed.

(** While the first of two spreadsheets is awaited. *)
Lemma session_is_coherent_witness :
  exists w,
    reachable sampleEngine (Some []) w /\
    isLoading (view w) = true /\
    hasSuspendedCall w = true /\
    error (view w) = EmptyString.
Proof.
  let t := eval vm_compute in
    (steps sampleEngine [messageEvent (JString (loadDocumentText "QTE=" "a.xlsx"))]
       (initialWorld (Some []))) in
  match t with Some ?x => pose (w := x) end.
  assert (Hr : reachable sampleEngine (Some []) w).
  { exists [messageEvent (JString (loadDocumentText "QTE=" "a.xlsx"))].
    vm_compute. reflexivity. }
  assert (Hl : isLoading (view w) = true) by reflexivity.
  destruct (session_is_coherent sampleEngine (Some []) w Hr) as [H1 _].
  exists w. split; [exact Hr|]. split; [exact Hl|].
  split; [exact (H1 Hl) | reflexivity].
Defined.

(** ** The noise patterns *)

Lemma prefix_trans p q s :
  String.prefix p q = true -> String.prefix q s = true -> String.prefix p s = true.
Proof.
  revert q s. induction p as [|a p IH]; intros q s Hpq Hqs;
    [destruct s; reflexivity|].
  destruct q as [|b q]; [discriminate|].
  destruct s as [|c s]; [discriminate|].
  cbn [String.prefix] in *.
  destruct (ascii_dec a b) as [->|]; [|discriminate].
  destruct (ascii_dec b c) as [->|]; [|discriminate].
  exact (IH q s Hpq Hqs).
Qed.

Lemma prefix_append p s t :
  String.prefix p s = true -> String.prefix p (s ++ t) = true.
Proof.
  revert s. induction p as [|a p IH]; intros s H; [destruct (s ++ t); reflexivity|].
  destruct s as [|b s]; [discriminate|].
  cbn [String.prefix String.append] in *.
  destruct (ascii_dec a b); [exact (IH s H) | discriminate].
Qed.

(** A text that holds a pattern holds every prefix of the pattern. *)
Lemma includes_prefix s p q :
  String.prefix p q = true -> includes s q = true -> includes s p = true.
Proof.
  intros Hpq. induction s as [|c s IH]; cbn [includes]; intros H.
  - rewrite orb_false_r in *. now rewrite (prefix_trans p q EmptyString Hpq H).
  - apply orb_true_iff in H as [H|H].
    + now rewrite (prefix_trans p q _ Hpq H).
    + rewrite (IH H). apply orb_true_r.
Qed.

Lemma includes_append_r s t sub :
  includes s sub = true -> includes (s ++ t) sub = true.
Proof.
  induction s as [|c s IH]; cbn [includes String.append]; intros H.
  - rewrite orb_false_r in H. destruct sub; [|discriminate].
    destruct t; reflexivity.
  - apply orb_true_iff in H as [H|H].
    + change (String c (s ++ t)) with (String c s ++ t).
      now rewrite (prefix_append sub (String c s) t H).
    + rewrite (IH H). apply orb_true_r.
Qed.

Lemma includes_append_l s t sub :
  includes t sub = true -> includes (s ++ t) sub = true.
Proof.
  intros H. induction s as [|c s IH]; [exact H|].
  cbn [includes String.append]. rewrite IH. apply orb_true_r.
Qed.

Lemma includes_setImmediate s :
  includes s "setImmediate" || includes s "setImmedia" = includes s "setImmedia".
Proof.
  destruct (includes s "setImmediate") eqn:H; [|reflexivity].
  symmetry. exact (includes_prefix s "setImmedia" "setImmediate" eq_refl H).
Qed.

(** X10. The longer of the two noise patterns is redundant in both filters
    of the listener: the test of [event.data] is the test for [setImmedia]
    in a string, and the test of the caught message is the test for
    [setImmedia] or [not valid JSON]. *)
Theorem noise_filters_reduce data errorMessage :
  isNoise data = isString data && includes (ToString data) "setImmedia" /\
  isIgnoredError errorMessage
  = includes errorMessage "setImmedia" || includes errorMessage "not valid JSON".
Proof.
  unfold isNoise, isIgnoredError. now rewrite !includes_setImmediate.
Qed.

(** X11. A load request is not read when the pattern occurs anywhere in its
    text, be it in the name of the file: the listener of src/App.tsx drops
    it without a trace, although the text parses as a load request, while
    the earlier listener, which has no such test, hands the same message to
    [loadFileFromBase64]. *)
Theorem request_with_noise_pattern_is_dropped E w fileData fileName :
  includes fileName "setImmedia" = true ->
  JSON_parse E (loadDocumentText fileData fileName)
  = inr (JObject [("type", JString "LOAD_DOCUMENT");
                  ("fileData", JString fileData);
                  ("fileName", JString fileName)]) ->
  step E (messageEvent (JString (loadDocumentText fileData fileName))) w = Some w /\
  run (Earlier.handleMessage E (JString (loadDocumentText fileData fileName))) w
  = run (loadFileFromBase64 E (JString fileData) (JString fileName))
      (perform (addDebugInfo ("Loading document: " ++ fileName ++ ", data length: "
                              ++ decimal (Z.of_nat (String.length fileData))))
         (perform (addDebugInfo "Parsed message type: LOAD_DOCUMENT")
            (perform (addDebugInfo ("Received message: "
                                    ++ loadDocumentText fileData fileName)) w))).
Proof.
  intros Hname Hparse. split.
  - cbn [step]. unfold run, handleMessage.
    assert (Hn : isNoise (JString (loadDocumentText fileData fileName)) = true).
    { unfold isNoise; rewrite includes_setImmediate. cbn [isString ToString andb].
      unfold loadDocumentText.
      do 11 apply includes_append_l. apply includes_append_r. unfold quoted.
      apply includes_append_l, includes_append_r, Hname. }
    now rewrite Hn.
  - unfold Earlier.handleMessage. listener_run. cbn [ToString].
    rewrite Hparse. listener_run. cbn [member String.eqb Ascii.eqb Bool.eqb ToString].
    listener_run. cbn [String.append].
    match goal with
    | |- context [loadFileFromBase64 E ?a ?b ?W] =>
        pose proof (loadFileFromBase64_returns E a b W) as Hr;
        destruct (loadFileFromBase64 E a b W) as [[e|[]] w']; [discriminate Hr|]
    end.
    reflexivity.
Qed.

Lemma request_with_noise_pattern_is_dropped_witness :
  includes "setImmediate.xlsx" "setImmedia" = true /\
  step sampleEngine
    (messageEvent (JString (loadDocumentText "QTE=" "setImmediate.xlsx")))
    (initialWorld (Some [])) = Some (initialWorld (Some [])) /\
  tasks (run (Earlier.handleMessage sampleEngine
                (JString (loadDocumentText "QTE=" "setImmediate.xlsx")))
           (initialWorld (Some [])))
  = [suspendedCall
       (excelArrayBuffer {| name := "setImmediate.xlsx"; content := [65; 49] |})
       (viaBase64 (JString "setImmediate.xlsx"))].
Proof.
  assert (Hname : includes "setImmediate.xlsx" "setImmedia" = true) by reflexivity.
  assert (Hparse : JSON_parse sampleEngine (loadDocumentText "QTE=" "setImmediate.xlsx")
                   = inr (JObject [("type", JString "LOAD_DOCUMENT");
                                   ("fileData", JString "QTE=");
                                   ("fileName", JString "setImmediate.xlsx")]))
    by reflexivity.
  destruct (request_with_noise_pattern_is_dropped sampleEngine (initialWorld (Some []))
              "QTE=" "setImmediate.xlsx" Hname Hparse) as [Hdrop Hearlier].
  split; [exact Hname|]. split; [exact Hdrop|].
  rewrite Hearlier. reflexivity.
Defined.

(** ** The sheets of a workbook *)

Lemma lookup_assign_same {A : Type} key (v : A) obj :
  lookup key (assign key v obj) = Some v.
Proof.
  induction obj as [|[k x] obj IH]; cbn [assign lookup].
  - now rewrite String.eqb_refl.
  - destruct (k =? key)%string eqn:Hk; cbn [lookup]; now rewrite Hk.
Qed.

Lemma lookup_assign_other {A : Type} key key' (v : A) obj :
  key' <> key -> lookup key (assign key' v obj) = lookup key obj.
Proof.
  intros Hne. induction obj as [|[k x] obj IH]; cbn [assign lookup].
  - apply String.eqb_neq in Hne. now rewrite Hne.
  - destruct (String.eqb_spec k key') as [->|Hk]; cbn [lookup].
    + apply String.eqb_neq in Hne. now rewrite Hne.
    + now rewrite IH.
Qed.

Lemma keys_assign {A : Type} key (v : A) obj :
  map fst (assign key v obj)
  = if existsb (String.eqb key) (map fst obj) then map fst obj
    else (map fst obj ++ [key])%list.
Proof.
  induction obj as [|[k x] obj IH]; cbn [assign map fst existsb app]; [reflexivity|].
  rewrite (String.eqb_sym key k).
  destruct (k =? key)%string; cbn [map fst orb]; [reflexivity|].
  rewrite IH. now destruct (existsb (String.eqb key) (map fst obj)).
Qed.

Lemma NoDup_keys_assign {A : Type} key (v : A) obj :
  NoDup (map fst obj) -> NoDup (map fst (assign key v obj)).
Proof.
  intros H. rewrite keys_assign.
  destruct (existsb (String.eqb key) (map fst obj)) eqn:He; [exact H|].
  apply NoDup_app; [exact H | repeat constructor; intros [] |].
  intros k Hin [Heq|[]]. subst k.
  assert (Ht : existsb (String.eqb key) (map fst obj) = true)
    by (apply existsb_exists; exists key; split; [exact Hin | apply String.eqb_refl]).
  congruence.
Qed.

(** The loop of [processExcelDocument], from any object built so far. *)
Lemma sheets_loop workbook names :
  forall sheetsData key,
    let result :=
      fold_left
        (fun sheetsData sheetName =>
           setProperty sheetName (sheet_to_json (Sheets workbook sheetName)) sheetsData)
        names sheetsData in
    lookup key result
    = (if (key =? "__proto__")%string then lookup key sheetsData
       else if existsb (String.eqb key) names
       then Some (sheet_to_json (Sheets workbook key))
       else lookup key sheetsData) /\
    (NoDup (map fst sheetsData) -> NoDup (map fst result)).
Proof.
  induction names as [|sheetName names IH]; intros sheetsData key; cbn zeta;
    cbn [fold_left existsb].
  { split; [now destruct (key =? "__proto__")%string | exact (fun H => H)]. }
  destruct (IH (setProperty sheetName (sheet_to_json (Sheets workbook sheetName))
                  sheetsData) key) as [Hlook Hdup].
  split.
  - rewrite Hlook. unfold setProperty.
    destruct (String.eqb_spec key "__proto__") as [Hkey|Hkey].
    + destruct (String.eqb_spec sheetName "__proto__") as [Hname|Hname];
        [reflexivity|].
      apply lookup_assign_other. congruence.
    + destruct (existsb (String.eqb key) names); [now rewrite orb_true_r|].
      rewrite orb_false_r.
      destruct (String.eqb_spec sheetName "__proto__") as [Hname|Hname].
      * destruct (String.eqb_spec key sheetName) as [Heq|Hne]; [congruence|].
        reflexivity.
      * destruct (String.eqb_spec key sheetName) as [->|Hne].
        -- apply lookup_assign_same.
        -- apply lookup_assign_other. congruence.
  - intros H. apply Hdup. unfold setProperty.
    destruct (sheetName =? "__proto__")%string; [exact H|].
    apply NoDup_keys_assign, H.
Qed.

(** X12. The object [processExcelDocument] hands to [setExcelData] has one
    member for every name in [workbook.SheetNames] but [__proto__], and no
    other: under each such name, the rows of that sheet; a name listed
    twice gives one member. A sheet named [__proto__] gets no member: the
    assignment of line 209 changes the prototype of the object instead. *)
Theorem sheetsOf_holds_every_sheet workbook sheetName :
  lookup sheetName (sheetsOf workbook)
  = (if (sheetName =? "__proto__")%string then None
     else if existsb (String.eqb sheetName) (SheetNames workbook)
     then Some (sheet_to_json (Sheets workbook sheetName))
     else None) /\
  NoDup (map fst (sheetsOf workbook)).
Proof.
  destruct (sheets_loop workbook (SheetNames workbook) [] sheetName) as [Hlook Hdup].
  split; [exact Hlook | apply Hdup; constructor].
Qed.

(** ** The extension of a name *)

Lemma lowerChar_idempotent c : lowerChar (lowerChar c) = lowerChar c.
Proof.
  destruct c as [[] [] [] [] [] [] [] []]; reflexivity.
Qed.

Lemma lowerChar_dot c : Ascii.eqb (lowerChar c) "."%char = Ascii.eqb c "."%char.
Proof.
  destruct c as [[] [] [] [] [] [] [] []]; reflexivity.
Qed.

Lemma toLowerCase_idempotent s : toLowerCase (toLowerCase s) = toLowerCase s.
Proof.
  induction s as [|c s IH]; [reflexivity|].
  cbn [toLowerCase]. now rewrite lowerChar_idempotent, IH.
Qed.

Lemma hasChar_toLowerCase s :
  hasChar "."%char (toLowerCase s) = hasChar "."%char s.
Proof.
  induction s as [|c s IH]; [reflexivity|].
  cbn [toLowerCase hasChar]. now rewrite lowerChar_dot, IH.
Qed.

(** X13. Only what follows the last [.] of a name decides its kind, and its
    letter case does not count: a name [base.ext], where [ext] holds no
    [.], is classified as [.ext] written in lower case is, whatever [base]
    is.  In particular a name that ends with a [.] is [Unknown]. *)
Theorem classify_by_last_extension base ext :
  hasChar "."%char ext = false ->
  classify (base ++ String "."%char ext) = classify (String "."%char (toLowerCase ext)) /\
  classify (base ++ ".") = Unknown.
Proof.
  intros Hext. split.
  - unfold classify.
    rewrite (fileExtension_after_last_dot base ext Hext).
    change (String "."%char (toLowerCase ext))
      with (EmptyString ++ String "."%char (toLowerCase ext)).
    rewrite (fileExtension_after_last_dot EmptyString (toLowerCase ext))
      by (now rewrite hasChar_toLowerCase).
    now rewrite toLowerCase_idempotent.
  - unfold classify.
    change (base ++ ".") with (base ++ String "."%char EmptyString).
    now rewrite (fileExtension_after_last_dot base EmptyString eq_refl).
Qed.

Lemma classify_by_last_extension_witness :
  hasChar "."%char "DOCX" = false /\
  classify ("report.final" ++ String "."%char "DOCX") = Word /\
  classify "report.docx.bak" = Unknown.
Proof.
  assert (H : hasChar "."%char "DOCX" = false) by reflexivity.
  split; [exact H|]. split; [|reflexivity].
  rewrite (proj1 (classify_by_last_extension "report.final" "DOCX" H)).
  reflexivity.
Defined.

(** ** The screen *)

(** X14. In the browser (not embedded) a refused upload is a dead end: the
    file of unknown kind is selected all the same, so the upload box is
    gone; the error text is set but the page has no place for it; and the
    sheets are cleared. What stays is the heading and whatever renderer was
    selected before; in a fresh session, nothing but the heading. *)
Theorem refused_upload_is_a_dead_end E w file :
  isEmbedded (view w) = false ->
  classify (name file) = Unknown ->
  exists w',
    step E (changeEvent (Some file)) w = Some w' /\
    selectedFile (view w') = Some file /\
    error (view w') = "Unsupported file type" /\
    render (view w')
    = {| debugPanel := false; spinner := false; errorBox := None;
         heading := true; uploadBox := false;
         wordViewer := isWord (fileType (view w));
         powerpointNotice := isPowerpoint (fileType (view w));
         workbookView := None |}.
Proof.
  intros Hmode Hkind. cbn [step]. eexists. split; [reflexivity|].
  js_run. rewrite Hkind. js_run. calls_norm.
  split; [reflexivity|]. split; [reflexivity|].
  unfold render, hasFile. calls_norm. rewrite Hmode. reflexivity.
Qed.

Lemma refused_upload_is_a_dead_end_witness :
  isEmbedded (view (initialWorld None)) = false /\
  classify (name {| name := "notes.txt"; content := [104; 105] |}) = Unknown /\
  uploadBox (render (view (initialWorld None))) = true /\
  exists w',
    step sampleEngine
      (changeEvent (Some {| name := "notes.txt"; content := [104; 105] |}))
      (initialWorld None) = Some w' /\
    render (view w')
    = {| debugPanel := false; spinner := false; errorBox := None;
         heading := true; uploadBox := false; wordViewer := false;
         powerpointNotice := false; workbookView := None |}.
Proof.
  assert (Hmode : isEmbedded (view (initialWorld None)) = false) by reflexivity.
  assert (Hkind : classify (name {| name := "notes.txt"; content := [104; 105] |})
                  = Unknown) by reflexivity.
  split; [exact Hmode|]. split; [exact Hkind|]. split; [reflexivity|].
  destruct (refused_upload_is_a_dead_end sampleEngine (initialWorld None) _ Hmode Hkind)
    as (w' & Hstep & _ & _ & Hscreen).
  exists w'. split; [exact Hstep | exact Hscreen].
Defined.

Lemma nth_error_enqueued_two {A : Type} (l : list A) (x y : A) :
  nth_error ((l ++ [x]) ++ [y])%list (List.length l) = Some x.
Proof. induction l; [reflexivity | assumption]. Qed.

Lemma removeNth_enqueued_two {A : Type} (l : list A) (x y : A) :
  removeNth (List.length l) ((l ++ [x]) ++ [y])%list = (l ++ [y])%list.
Proof. induction l as [|z l IH]; [reflexivity|]. cbn. now rewrite IH. Qed.

(** X15. The element the Word renderer draws in is on the page only while
    [fileType] is [word] and the debug panel is not up. Once a Word request
    is accepted the element is rendered, in either mode. If a request for a
    spreadsheet is accepted while the bytes of the Word file are awaited,
    the element is taken off the page again; when the bytes then arrive the
    Word request fails with [Viewer container not available], without
    [renderAsync] being called, while the spreadsheet is still awaited. *)
Theorem other_request_takes_the_viewer_away
    E w wordData wordName wordBytes sheetData sheetName sheetBytes :
  atob (ToString wordData) = Some wordBytes ->
  classify (ToString wordName) = Word ->
  atob (ToString sheetData) = Some sheetBytes ->
  classify (ToString sheetName) = Excel ->
  let w1 := run (loadFileFromBase64 E wordData wordName) w in
  let w2 := run (loadFileFromBase64 E sheetData sheetName) w1 in
  wordViewer (render (view w1)) = true /\
  wordViewer (render (view w2)) = false /\
  exists w3,
    step E (arrayBufferSettled (List.length (tasks w)) (inr tt)
              (wordViewer (render (view w2)))) w2 = Some w3 /\
    error (view w3) = "Viewer container not available" /\
    outbound (calls w3)
    = (outbound (calls w) ++ [webError "Viewer container not available"])%list /\
    invoked (calls w3) = invoked (calls w) /\
    tasks w3 = (tasks w ++ [suspendedCall (excelArrayBuffer (fileOf sheetName sheetBytes))
                              (viaBase64 sheetName)])%list.
Proof.
  intros Hword Hkw Hsheet Hks w1 w2.
  pose proof (loadFileFromBase64_decoded E w wordData wordName wordBytes Hword) as H1.
  cbv zeta in H1. fold w1 in H1. rewrite Hkw in H1.
  destruct H1 as (Hf1 & _ & Hi1 & _ & Ht1 & Hty1 & _ & He1 & Ho1).
  pose proof (loadFileFromBase64_decoded E w1 sheetData sheetName sheetBytes Hsheet) as H2.
  cbv zeta in H2. fold w2 in H2. rewrite Hks in H2.
  destruct H2 as (Hf2 & _ & Hi2 & _ & Ht2 & Hty2 & _ & He2 & Ho2).
  assert (Hv2 : wordViewer (render (view w2)) = false).
  { unfold render, hasFile. rewrite Hf2, He2, Hty2.
    now destruct (isEmbedded (view w2)). }
  split.
  { unfold render, hasFile. rewrite Hf1, He1, Hty1.
    now destruct (isEmbedded (view w1)). }
  split; [exact Hv2|].
  rewrite Hv2. cbn [step]. rewrite Ht2, Ht1, nth_error_enqueued_two.
  eexists. split; [reflexivity|].
  js_run. calls_norm. rewrite Ht2, Ht1, removeNth_enqueued_two.
  rewrite outbound_app, invoked_app, Ho2, Ho1, Hi2, Hi1. cbn. rewrite !app_nil_r.
  repeat split.
Qed.

Lemma other_request_takes_the_viewer_away_witness :
  atob "UEs=" = Some "PK" /\ classify "a.docx" = Word /\
  atob "QTE=" = Some "A1" /\ classify "b.xlsx" = Excel /\
  exists w3,
    step sampleEngine (arrayBufferSettled 0 (inr tt) false)
      (run (loadFileFromBase64 sampleEngine (JString "QTE=") (JString "b.xlsx"))
         (run (loadFileFromBase64 sampleEngine (JString "UEs=") (JString "a.docx"))
            (initialWorld None))) = Some w3 /\
    error (view w3) = "Viewer container not available".
Proof.
  assert (H1 : atob (ToString (JString "UEs=")) = Some "PK") by reflexivity.
  assert (H2 : classify (ToString (JString "a.docx")) = Word) by reflexivity.
  assert (H3 : atob (ToString (JString "QTE=")) = Some "A1") by reflexivity.
  assert (H4 : classify (ToString (JString "b.xlsx")) = Excel) by reflexivity.
  split; [exact H1|]. split; [exact H2|]. split; [exact H3|]. split; [exact H4|].
  pose proof (other_request_takes_the_viewer_away sampleEngine (initialWorld None)
                (JString "UEs=") (JString "a.docx") "PK"
                (JString "QTE=") (JString "b.xlsx") "A1" H1 H2 H3 H4) as H.
  cbv zeta in H. destruct H as (_ & Hv & w3 & Hstep & Herr & _).
  rewrite Hv in Hstep.
  exists w3. split; [exact Hstep | exact Herr].
Defined.

(** ** The two versions of the listener *)

(** X16. What changed in the listener between the two versions, for a text
    [JSON.parse] refuses with a message that holds [not valid JSON] (and
    not [setImmedia]): the earlier listener answers with a [WEB_ERROR] that
    carries the message; the listener of src/App.tsx logs the text and
    answers nothing. *)
Theorem invalid_JSON_was_reported_before E data w text :
  isNoise data = false ->
  JSON_parse E (ToString data) = inl text ->
  includes text "setImmedia" = false ->
  includes text "not valid JSON" = true ->
  run (Earlier.handleMessage E data) w
  = perform (postMessageToNative (webError text))
      (perform (addDebugInfo ("Error parsing message: " ++ text))
         (perform (addDebugInfo ("Received message: " ++ ToString data)) w)) /\
  step E (messageEvent data) w
  = Some (perform (addDebugInfo ("Received message: " ++ ToString data)) w).
Proof.
  intros Hn Hparse Hno Hjson. split.
  - unfold Earlier.handleMessage. listener_run. rewrite Hparse. listener_run.
    cbn [messageOr]. unfold Earlier.isIgnoredError.
    rewrite includes_setImmediate, Hno. reflexivity.
  - cbn [step]. listener_run. rewrite Hn, Hparse. listener_run.
    cbn [messageOr]. unfold isIgnoredError.
    rewrite includes_setImmediate, Hno, Hjson. reflexivity.
Qed.

Lemma invalid_JSON_was_reported_before_witness :
  JSON_parse sampleEngine "hello"
  = inl ("Unexpected token 'h', " ++ quoted "hello" ++ " is not valid JSON") /\
  outbound (calls (run (Earlier.handleMessage sampleEngine (JString "hello"))
                     (initialWorld None)))
  = [webError ("Unexpected token 'h', " ++ quoted "hello" ++ " is not valid JSON")] /\
  option_map (fun w => outbound (calls w))
    (step sampleEngine (messageEvent (JString "hello")) (initialWorld None))
  = Some [].
Proof.
  assert (Hn : isNoise (JString "hello") = false) by reflexivity.
  assert (Hp : JSON_parse sampleEngine (ToString (JString "hello"))
               = inl ("Unexpected token 'h', " ++ quoted "hello" ++ " is not valid JSON"))
    by reflexivity.
  assert (H1 : includes ("Unexpected token 'h', " ++ quoted "hello" ++ " is not valid JSON")
                 "setImmedia" = false) by reflexivity.
  assert (H2 : includes ("Unexpected token 'h', " ++ quoted "hello" ++ " is not valid JSON")
                 "not valid JSON" = true) by reflexivity.
  destruct (invalid_JSON_was_reported_before sampleEngine (JString "hello")
              (initialWorld None) _ Hn Hp H1 H2) as [He Hl].
  split; [exact Hp|]. split.
  - rewrite He. reflexivity.
  - rewrite Hl. reflexivity.
Defined.

(** X17. Apart from what its two added filters drop, the listener of
    src/App.tsx does what the earlier listener does: on every message that
    it does not take for noise, the two run the same code to the same
    result. *)
Theorem listeners_agree_off_the_filters E data w :
  decode E data <> Noise ->
  handleMessage E data w = Earlier.handleMessage E data w.
Proof.
  intros H. unfold decode in H.
  unfold handleMessage, Earlier.handleMessage.
  destruct (isNoise data); [congruence|].
  unfold classifyThrown in H.
  assert (Hfilter : forall text,
             isIgnoredError text = false -> Earlier.isIgnoredError text = false).
  { intros text Ht. unfold isIgnoredError in Ht. unfold Earlier.isIgnoredError.
    now apply orb_false_iff in Ht as [Ht _]. }
  listener_run.
  destruct (JSON_parse E (ToString data)) as [msg|v]; listener_run.
  { cbn [messageOr] in *. destruct (isIgnoredError msg) eqn:Hi; [congruence|].
    now rewrite (Hfilter msg Hi). }
  destruct v; listener_run; cbn [String.eqb Ascii.eqb Bool.eqb messageOr] in *;
    listener_run; try reflexivity;
    try (destruct (isIgnoredError _) eqn:Hi; [congruence|];
         now rewrite (Hfilter _ Hi)).
  destruct (member "type" members) as [[| | | |t| |]|]; listener_run; try reflexivity.
  destruct (t =? "LOAD_DOCUMENT")%string; listener_run; [|reflexivity].
  destruct (member "fileData" members) as [[]|]; listener_run; cbn [messageOr] in *;
    try (destruct (isIgnoredError _) eqn:Hi; [congruence|];
         now rewrite (Hfilter _ Hi));
    match goal with
    | |- context [loadFileFromBase64 E ?a ?b ?W] =>
        pose proof (loadFileFromBase64_returns E a b W) as Hr;
        destruct (loadFileFromBase64 E a b W) as [[e|[]] w']; [discriminate Hr|]
    end;
    reflexivity.
Qed.

Lemma listeners_agree_off_the_filters_witness :
  decode sampleEngine (JString (loadDocumentText "QTE=" "a.xlsx")) <> Noise /\
  handleMessage sampleEngine (JString (loadDocumentText "QTE=" "a.xlsx"))
    (initialWorld None)
  = Earlier.handleMessage sampleEngine (JString (loadDocumentText "QTE=" "a.xlsx"))
      (initialWorld None).
Proof.
  assert (H : decode sampleEngine (JString (loadDocumentText "QTE=" "a.xlsx")) <> Noise).
  { change (decode sampleEngine (JString (loadDocumentText "QTE=" "a.xlsx")))
      with (LoadDocument (JString "QTE=") (JString "a.xlsx")).
    intros Hx. discriminate Hx. }
  split; [exact H|].
  exact (listeners_agree_off_the_filters sampleEngine _ (initialWorld None) H).
Defined.

(** ** One answer for each request *)

(** X18. [loadFileFromBase64] never throws, and it answers each request
    once: when it returns, either the request is over and exactly one
    message has been posted for it, [LOADED] with its name or a
    [WEB_ERROR], or the call is suspended and nothing has been posted yet. *)
Theorem request_is_answered_once E w fileData fileName :
  fst (loadFileFromBase64 E fileData fileName w) = inr tt /\
  let w' := run (loadFileFromBase64 E fileData fileName) w in
  (tasks w' = tasks w /\
   isLoading (view w') = false /\
   exists m,
     outbound (calls w') = (outbound (calls w) ++ [m])%list /\
     (m = loaded fileName \/ exists text, m = webError text))
  \/ (exists point,
         tasks w' = (tasks w ++ [suspendedCall point (viaBase64 fileName)])%list /\
         isLoading (view w') = true /\
         outbound (calls w') = outbound (calls w)).
Proof.
  split; [apply loadFileFromBase64_returns|].
  js_run. destruct (atob (ToString fileData)); js_run;
    [destruct (classify (ToString fileName)); js_run|];
    calls_norm; rewrite outbound_app; cbn; rewrite ?app_nil_r.
  - right. eexists. repeat split.
  - right. eexists. repeat split.
  - left. split; [reflexivity|]. split; [reflexivity|].
    eexists. split; [reflexivity|]. now left.
  - left. split; [reflexivity|]. split; [reflexivity|].
    eexists. split; [reflexivity|]. right. eexists. reflexivity.
  - left. split; [reflexivity|]. split; [reflexivity|].
    eexists. split; [reflexivity|]. right. eexists. reflexivity.
Qed.

Lemma settlement_keeps_isEmbedded E ev w w' :
  isSettlement ev = true ->
  step E ev w = Some w' ->
  isEmbedded (view w') = isEmbedded (view w).
Proof.
  destruct ev as [| | |n|n outcome viewer|n outcome]; try discriminate;
    intros _; cbn [step];
    destruct (nth_error (tasks w) n) as [[[file| |file] [fileName|]|]|];
    try discriminate; intros [= <-]; try reflexivity.
  all: destruct outcome as [e|[]]; try (destruct viewer);
    try (js_run; destruct (XLSX_read E (content file))); reflexivity.
Qed.

Lemma completion_isSettlement E w ev done :
  completion E w ev = Some done -> isSettlement ev = true.
Proof. destruct ev; try discriminate; reflexivity. Qed.

(** X19. In embedded mode a request that fails brings the debug panel up:
    the error text is on it, the spinner is not, and neither the viewer
    element nor the sheets are on the page any more. *)
Theorem failure_brings_up_the_debug_panel E w ev fileName err :
  isEmbedded (view w) = true ->
  completion E w ev = Some (viaBase64 fileName, inl err) ->
  messageOr "Error loading file from data" err <> EmptyString ->
  exists w',
    step E ev w = Some w' /\
    render (view w')
    = {| debugPanel := true; spinner := false;
         errorBox := Some (messageOr "Error loading file from data" err);
         heading := false; uploadBox := false; wordViewer := false;
         powerpointNotice := false; workbookView := None |}.
Proof.
  intros Hmode Hdone Hne.
  destruct (completion_step E w ev _ _ Hdone) as (w1 & Hstep & _).
  pose proof (settlement_keeps_isEmbedded E ev w _
                (completion_isSettlement E w ev _ Hdone) Hstep) as He.
  eexists. split; [exact Hstep|].
  unfold render. rewrite He, Hmode.
  cbn [settlementOf resumeCaller]. rewrite loadFileFromBase64_rejected.
  unfold hasFile, truthy. calls_norm.
  apply String.eqb_neq in Hne. rewrite Hne. cbn [negb andb].
  rewrite orb_true_r. reflexivity.
Qed.

Lemma failure_brings_up_the_debug_panel_witness :
  exists w w',
    steps sampleEngine
      [mount (Some "embedded");
       messageEvent (JString (loadDocumentText "UEsDBA==" "a.xlsx"))]
      (initialWorld None) = Some w /\
    isEmbedded (view w) = true /\
    debugPanel (render (view w)) = false /\
    step sampleEngine (arrayBufferSettled 1 (inr tt) false) w = Some w' /\
    debugPanel (render (view w')) = true /\
    errorBox (render (view w')) = Some "Unsupported ZIP file".
Proof.
  let t := eval vm_compute in
    (steps sampleEngine
       [mount (Some "embedded");
        messageEvent (JString (loadDocumentText "UEsDBA==" "a.xlsx"))]
       (initialWorld None)) in
  match t with Some ?x => pose (w := x) end.
  assert (Hs : steps sampleEngine
                 [mount (Some "embedded");
                  messageEvent (JString (loadDocumentText "UEsDBA==" "a.xlsx"))]
                 (initialWorld None) = Some w) by (vm_compute; reflexivity).
  assert (Hmode : isEmbedded (view w) = true) by reflexivity.
  assert (Hdone : completion sampleEngine w (arrayBufferSettled 1 (inr tt) false)
                  = Some (viaBase64 (JString "a.xlsx"),
                          inl (ErrorObj "Error" "Unsupported ZIP file")))
    by (vm_compute; reflexivity).
  assert (Hne : messageOr "Error loading file from data"
                  (ErrorObj "Error" "Unsupported ZIP file") <> EmptyString)
    by (apply String.eqb_neq; reflexivity).
  destruct (failure_brings_up_the_debug_panel sampleEngine w _ _ _ Hmode Hdone Hne)
    as (w' & Hstep & Hscreen).
  exists w, w'. split; [exact Hs|]. split; [exact Hmode|]. split; [reflexivity|].
  split; [exact Hstep|]. rewrite Hscreen. split; reflexivity.
Defined.

(** * The URL-driven version (src/unnamed/part_000, lines 372-778) *)

Import UrlViewer.
Local Open Scope url_scope.

Ltac url_run :=
  cbv beta iota zeta delta
    [run bind ret throw tryCatch attempt settled call enqueue postIfFramed
     loadFileFromUrl loadFileFromUrl_fetched loadFileFromUrl_body
     loadFileFromUrl_failed loadFileFromUrl_settled
     loadFileFromBase64 loadFileFromBase64_settled
     handleFileUpload handleFileUpload_settled
     resumeCaller awaitProcessFile processFile processFile_resume resume
     processWordDocument processWordDocument_buffer
     processExcelDocument processExcelDocument_buffer processPowerPointDocument
     handleMessage onMount fst snd];
  cbn [name content].

Ltac url_norm :=
  cbn [calls view framed tasks perform dequeue applyCall initialWorld initialState
       ok contentType
       selectedFile fileType isLoading error excelData loadSource isEmbedded];
  repeat rewrite <- app_assoc; cbn [app].

Ltac url_simpl Hframed :=
  repeat (progress (url_run; url_norm; rewrite ?Hframed)).

Lemma posted_app cs cs' : posted (cs ++ cs') = (posted cs ++ posted cs')%list.
Proof. apply flat_map_app. Qed.

Lemma fetched_app cs cs' : fetched (cs ++ cs') = (fetched cs ++ fetched cs')%list.
Proof. apply flat_map_app. Qed.

Lemma url_invoked_app cs cs' :
  UrlViewer.invoked (cs ++ cs') = (UrlViewer.invoked cs ++ UrlViewer.invoked cs')%list.
Proof. apply flat_map_app. Qed.

(** ** A fetch that fails *)

(** X20. A load from a URL whose [fetch] is rejected, or answered with a
    status that is not ok, ends there: the body is not read, no file is
    selected, the message of the error is displayed, and the parent window
    is told [ERROR] with the same message when there is a parent window,
    and nothing otherwise. *)
Theorem failed_fetch_is_reported E w n fileName outcome text :
  nth_error (tasks w) n = Some (fetching fileName) ->
  match outcome with
  | inl err => messageOr "Error loading file from URL" err = text
  | inr response => ok response = false /\ text = "Failed to fetch file"
  end ->
  exists w',
    step E (fetchSettled n outcome) w = Some w' /\
    tasks w' = removeNth n (tasks w) /\
    error (view w') = text /\
    isLoading (view w') = false /\
    selectedFile (view w') = selectedFile (view w) /\
    fileType (view w') = fileType (view w) /\
    posted (calls w')
    = (posted (calls w) ++ if framed w then [parentError text] else [])%list.
Proof.
  intros Htask Hout. cbn [step]. rewrite Htask.
  eexists. split; [reflexivity|].
  destruct (framed w) eqn:Hframed;
    (destruct outcome as [err|[[] ct]]; cbn [ok] in Hout;
     [subst text | destruct Hout; discriminate | destruct Hout as [_ ->]]);
    url_simpl Hframed; rewrite ?posted_app; cbn; rewrite ?app_nil_r;
    repeat split.
Qed.

Lemma failed_fetch_is_reported_witness :
  exists w',
    step sampleEngine
      (fetchSettled 0 (inr {| ok := false; contentType := None |}))
      (run (onMount (Some "https://host/a.docx") (Some "a.docx") None)
           (initialWorld true))
    = Some w' /\
    error (view w') = "Failed to fetch file" /\
    posted (calls w') = [parentError "Failed to fetch file"].
Proof.
  destruct (failed_fetch_is_reported sampleEngine
              (run (onMount (Some "https://host/a.docx") (Some "a.docx") None)
                   (initialWorld true))
              0 "a.docx" (inr {| ok := false; contentType := None |})
              "Failed to fetch file")
    as (w' & Hstep & _ & Herr & _ & _ & _ & Hposted).
  - reflexivity.
  - split; reflexivity.
  - exists w'. repeat split; assumption.
Defined.

(** ** A load from a URL, from the query string to the answer *)

Lemma given_Some s : s <> EmptyString -> given (Some s) = Some s.
Proof.
  intros Hs. unfold given. destruct (String.eqb_spec s EmptyString); congruence.
Qed.

(** X21. A session opened with a [fileUrl] and a [fileName] whose file is a
    presentation or of no known kind: after the mount, an ok answer of
    [fetch] and the body, nothing is left waiting, the address has been
    fetched once, and the file is selected under the given name with the
    bytes of the body. A presentation is acknowledged with [LOADED]; a file
    of no known kind is refused with the text on the unsupported kinds,
    displayed and sent as [ERROR]; the parent window is told only when
    there is one. *)
Theorem url_load_is_answered E frame address fileName viewMode response bytes :
  address <> EmptyString ->
  fileName <> EmptyString ->
  ok response = true ->
  classify fileName = PowerPoint \/ classify fileName = Unknown ->
  exists w,
    steps E [mount (Some address) (Some fileName) viewMode;
             fetchSettled 0 (inr response);
             bodySettled 0 (inr bytes)] (initialWorld frame) = Some w /\
    tasks w = [] /\
    fetched (calls w) = [address] /\
    selectedFile (view w) = Some {| name := fileName; content := bytes |} /\
    loadSource (view w) = url /\
    isLoading (view w) = false /\
    isEmbedded (view w) = extensionIs viewMode "embedded" /\
    match classify fileName with
    | PowerPoint =>
        fileType (view w) = powerpoint /\
        error (view w) = EmptyString /\
        posted (calls w) = (if frame then [parentLoaded fileName] else [])
    | _ =>
        fileType (view w) = noFileType /\
        error (view w) = unsupportedMessage /\
        posted (calls w) = (if frame then [parentError unsupportedMessage] else [])
    end.
Proof.
  intros Haddress HfileName Hok Hkind.
  cbn [steps step]. unfold onMount.
  rewrite (given_Some _ Haddress), (given_Some _ HfileName).
  destruct response as [k ct]; cbn [ok] in Hok; subst k.
  destruct (extensionIs viewMode "embedded"), frame;
    destruct Hkind as [Hkind|Hkind]; rewrite Hkind;
    url_run; url_norm; cbn [nth_error removeNth app];
    url_run; url_norm; cbn [nth_error removeNth app];
    url_run; url_norm; rewrite Hkind; url_run; url_norm;
    (eexists; split; [reflexivity|]); repeat split.
Qed.

Lemma url_load_is_answered_witness :
  exists w,
    steps sampleEngine
      [mount (Some "https://host/deck.pptx") (Some "deck.pptx") (Some "embedded");
       fetchSettled 0 (inr {| ok := true; contentType := None |});
       bodySettled 0 (inr [80; 75])] (initialWorld true) = Some w /\
    posted (calls w) = [parentLoaded "deck.pptx"].
Proof.
  destruct (url_load_is_answered sampleEngine true "https://host/deck.pptx"
              "deck.pptx" (Some "embedded") {| ok := true; contentType := None |}
              [80; 75])
    as (w & Hsteps & _ & _ & _ & _ & _ & _ & Hkind).
  - discriminate.
  - discriminate.
  - reflexivity.
  - left. reflexivity.
  - exists w. split; [exact Hsteps|].
    change (classify "deck.pptx") with PowerPoint in Hkind.
    apply Hkind.
Defined.

(** ** What the listener lets through *)

Lemma message_load_is_quiet E fileData fileName w :
  fst (loadFileFromBase64 E fileData fileName w) = inr tt /\
  loadSource (view (snd (loadFileFromBase64 E fileData fileName w)))
  = loadSource (view w) /\
  posted (calls (snd (loadFileFromBase64 E fileData fileName w)))
  = posted (calls w).
Proof.
  url_run.
  destruct (atob (ToString fileData)); url_run;
    [destruct (classify (ToString fileName)); url_run|];
    url_norm; rewrite ?posted_app; cbn; rewrite ?app_nil_r; repeat split.
Qed.

(** X22. The listener of this version never throws, and a message that is
    not a request (it does not parse, it parses to [null], or its [type] is
    not ['LOAD_DOCUMENT']) leaves the component as it was: no state
    variable changes and nothing is sent. A request marks the source of the
    load as the mobile application, and nothing is sent for it either. *)
Theorem listener_hears_requests_only E w data :
  fst (handleMessage E data w) = inr tt /\
  (isRequest E data = false -> step E (messageEvent data) w = Some w) /\
  (isRequest E data = true ->
   exists w',
     step E (messageEvent data) w = Some w' /\
     loadSource (view w') = mobile /\
     posted (calls w') = posted (calls w)).
Proof.
  cbn [step].
  cbv beta iota delta [isRequest run handleMessage tryCatch bind ret throw call].
  destruct (JSON_parse E (ToString data)) as [text|v]; cbn [fst snd].
  { repeat split; try discriminate. }
  destruct (property v "type") as [type|]; cbn [fst snd].
  2:{ repeat split; try discriminate. }
  destruct (strictEqualsString type "LOAD_DOCUMENT"); cbn [fst snd].
  2:{ repeat split; try discriminate. }
  set (fileData := match property v "fileData" with Some x => x | None => JUndefined end).
  set (fileName := match property v "fileName" with Some x => x | None => JUndefined end).
  destruct (message_load_is_quiet E fileData fileName (perform (setLoadSource mobile) w))
    as (Hret & Hsource & Hposted).
  destruct (loadFileFromBase64 E fileData fileName (perform (setLoadSource mobile) w))
    as [[e|[]] w1] eqn:Hrun; cbn [fst snd] in *; try discriminate.
  split; [reflexivity|]. split; [discriminate|]. intros _.
  exists w1. split; [reflexivity|]. split; [exact Hsource|].
  rewrite Hposted. url_norm. rewrite posted_app. cbn. now rewrite app_nil_r.
Qed.

Lemma listener_hears_requests_only_witness :
  step sampleEngine (messageEvent (JString "hello")) (initialWorld true)
  = Some (initialWorld true).
Proof.
  apply (listener_hears_requests_only sampleEngine (initialWorld true) (JString "hello")).
  vm_compute. reflexivity.
Defined.

(** ** A document without its viewer element *)

(** X23. In this version a Word file whose bytes arrive while the viewer
    element is not on the page is not rendered and not reported either:
    the renderer is not called, the error text stays as it was, the load
    ends, and a load from a URL is even answered with [LOADED]. *)
Theorem word_without_viewer_passes_silently E w n file caller :
  nth_error (tasks w) n = Some (suspendedCall (wordArrayBuffer file) caller) ->
  exists w',
    step E (arrayBufferSettled n (inr tt) false) w = Some w' /\
    tasks w' = removeNth n (tasks w) /\
    error (view w') = error (view w) /\
    isLoading (view w') = false /\
    UrlViewer.invoked (calls w') = UrlViewer.invoked (calls w) /\
    posted (calls w')
    = (posted (calls w) ++
       match caller with
       | viaUrl fileName => if framed w then [parentLoaded fileName] else []
       | _ => []
       end)%list.
Proof.
  intros Htask. cbn [step]. rewrite Htask.
  destruct (framed w) eqn:Hframed; destruct caller as [fileName| |];
    url_simpl Hframed;
    (eexists; split; [reflexivity|]);
    url_norm; rewrite ?posted_app, ?url_invoked_app; cbn; rewrite ?app_nil_r;
    repeat split.
Qed.

Lemma word_without_viewer_passes_silently_witness :
  exists w',
    step sampleEngine (arrayBufferSettled 0 (inr tt) false)
      (run (loadFileFromUrl_body "a.docx" (inr [80; 75])) (initialWorld true))
    = Some w' /\
    error (view w') = EmptyString /\
    posted (calls w') = [parentLoaded "a.docx"].
Proof.
  destruct (word_without_viewer_passes_silently sampleEngine
              (run (loadFileFromUrl_body "a.docx" (inr [80; 75])) (initialWorld true))
              0 {| name := "a.docx"; content := [80; 75] |} (viaUrl "a.docx"))
    as (w' & Hstep & _ & Herr & _ & _ & Hposted).
  - reflexivity.
  - exists w'. repeat split; assumption.
Defined.

(** ** One answer for each load from a URL *)

Lemma pendingUrl_app ts ts' :
  pendingUrl (ts ++ ts') = (pendingUrl ts + pendingUrl ts')%nat.
Proof. unfold pendingUrl. now rewrite filter_app, length_app. Qed.

Lemma pendingUrl_removeNth ts : forall n t,
  nth_error ts n = Some t ->
  pendingUrl ts
  = (pendingUrl (removeNth n ts) + if isUrlLoad t then 1 else 0)%nat.
Proof.
  unfold pendingUrl.
  induction ts as [|x ts IH]; intros [|n] t Hnth; try discriminate.
  - injection Hnth as ->. cbn [removeNth filter].
    destruct (isUrlLoad t); cbn [List.length]; lia.
  - cbn [nth_error] in Hnth. cbn [removeNth filter].
    destruct (isUrlLoad x); cbn [List.length]; rewrite (IH n t Hnth); lia.
Qed.

Ltac balance Hframed :=
  url_simpl Hframed; url_norm; split; [reflexivity|];
  split; intros Hf; try discriminate;
  rewrite ?posted_app, ?pendingUrl_app, ?length_app; cbn;
  rewrite ?app_nil_r; try reflexivity; try lia.

Lemma step_balanced E ev w w' : step E ev w = Some w' -> balanced ev w w'.
Proof.
  unfold balanced.
  destruct (framed w) eqn:Hframed;
    destruct ev as [fileUrl fileName viewMode|data|[file|]|n outcome|n outcome
                   |n outcome viewer|n outcome]; cbn [step startsUrlLoad].
  all: try (destruct (nth_error (tasks w) n) as [t|] eqn:Htask; [|discriminate];
            rewrite (pendingUrl_removeNth _ _ _ Htask);
            destruct t as [name0|name0|[file| |file] [name0| |]];
            try discriminate).
  all: intros [= <-].
  - unfold onMount.
    destruct (extensionIs viewMode "embedded"), (given fileUrl), (given fileName);
      balance Hframed.
  - cbv beta iota delta [run handleMessage tryCatch bind ret throw call].
    destruct (JSON_parse E (ToString data)) as [text|v]; [balance Hframed|].
    destruct (property v "type") as [type|]; [|balance Hframed].
    destruct (strictEqualsString type "LOAD_DOCUMENT"); [|balance Hframed].
    url_run.
    destruct (atob _); url_run; [destruct (classify _)|]; balance Hframed.
  - url_run. destruct (classify _); balance Hframed.
  - balance Hframed.
  - destruct outcome as [e|[[] ct]]; balance Hframed.
  - destruct outcome as [e|bytes]; url_run; [|destruct (classify _)];
      balance Hframed.
  - destruct outcome as [e|[]], viewer; balance Hframed.
  - destruct outcome as [e|[]], viewer; balance Hframed.
  - destruct outcome as [e|[]], viewer; balance Hframed.
  - destruct outcome as [e|[]]; url_run;
      try destruct (XLSX_read E (content file)); balance Hframed.
  - destruct outcome as [e|[]]; url_run;
      try destruct (XLSX_read E (content file)); balance Hframed.
  - destruct outcome as [e|[]]; url_run;
      try destruct (XLSX_read E (content file)); balance Hframed.
  - destruct outcome as [e|[]]; balance Hframed.
  - destruct outcome as [e|[]]; balance Hframed.
  - destruct outcome as [e|[]]; balance Hframed.
  - unfold onMount.
    destruct (extensionIs viewMode "embedded"), (given fileUrl), (given fileName);
      balance Hframed.
  - cbv beta iota delta [run handleMessage tryCatch bind ret throw call].
    destruct (JSON_parse E (ToString data)) as [text|v]; [balance Hframed|].
    destruct (property v "type") as [type|]; [|balance Hframed].
    destruct (strictEqualsString type "LOAD_DOCUMENT"); [|balance Hframed].
    url_run.
    destruct (atob _); url_run; [destruct (classify _)|]; balance Hframed.
  - url_run. destruct (classify _); balance Hframed.
  - balance Hframed.
  - destruct outcome as [e|[[] ct]]; balance Hframed.
  - destruct outcome as [e|bytes]; url_run; [|destruct (classify _)];
      balance Hframed.
  - destruct outcome as [e|[]], viewer; balance Hframed.
  - destruct outcome as [e|[]], viewer; balance Hframed.
  - destruct outcome as [e|[]], viewer; balance Hframed.
  - destruct outcome as [e|[]]; url_run;
      try destruct (XLSX_read E (content file)); balance Hframed.
  - destruct outcome as [e|[]]; url_run;
      try destruct (XLSX_read E (content file)); balance Hframed.
  - destruct outcome as [e|[]]; url_run;
      try destruct (XLSX_read E (content file)); balance Hframed.
  - destruct outcome as [e|[]]; balance Hframed.
  - destruct outcome as [e|[]]; balance Hframed.
  - destruct outcome as [e|[]]; balance Hframed.
Qed.

Lemma steps_balanced E evs : forall w w',
  steps E evs w = Some w' ->
  framed w' = framed w /\
  (framed w = true ->
   (List.length (posted (calls w')) + pendingUrl (tasks w')
    = List.length (posted (calls w)) + pendingUrl (tasks w) + urlLoads evs)%nat) /\
  (framed w = false -> posted (calls w') = posted (calls w)).
Proof.
  induction evs as [|ev evs IH]; intros w w'; cbn [steps].
  - intros [= <-]. unfold urlLoads. cbn. repeat split. intros _. lia.
  - destruct (step E ev w) as [w1|] eqn:Hstep; [|discriminate].
    intros Hsteps.
    destruct (step_balanced _ _ _ _ Hstep) as (Hframed1 & Hcount1 & Hquiet1).
    destruct (IH _ _ Hsteps) as (Hframed & Hcount & Hquiet).
    rewrite Hframed1 in *.
    split; [exact Hframed|]. split.
    + intros Hf. rewrite (Hcount Hf), (Hcount1 Hf).
      unfold urlLoads. cbn [filter].
      destruct (startsUrlLoad ev); cbn [List.length]; lia.
    + intros Hf. now rewrite (Hquiet Hf), (Hquiet1 Hf).
Qed.

(** X24. Every load from a URL is answered once. With a parent window, at
    any point of a session the messages sent to it and the loads from a URL
    still under way add up to the loads started: a load is answered when it
    ends, with one message, and nothing else is ever sent, whatever
    messages and uploads come in between. Without a parent window nothing
    is sent at all. *)
Theorem every_url_load_is_answered_once E frame evs w :
  steps E evs (initialWorld frame) = Some w ->
  if frame
  then (List.length (posted (calls w)) + pendingUrl (tasks w) = urlLoads evs)%nat
  else posted (calls w) = [].
Proof.
  intros Hsteps.
  destruct (steps_balanced _ _ _ _ Hsteps) as (_ & Hcount & Hquiet).
  destruct frame; [apply (Hcount eq_refl) | apply (Hquiet eq_refl)].
Qed.

Lemma every_url_load_is_answered_once_witness :
  exists w,
    steps sampleEngine
      [mount (Some "https://host/a.docx") (Some "a.docx") None;
       messageEvent (JString (loadDocumentText "UEs=" "b.xlsx"));
       fetchSettled 0 (inr {| ok := false; contentType := None |})]
      (initialWorld true) = Some w /\
    (List.length (posted (calls w)) + pendingUrl (tasks w) = 1)%nat.
Proof.
  let t := eval vm_compute in
    (steps sampleEngine
       [mount (Some "https://host/a.docx") (Some "a.docx") None;
        messageEvent (JString (loadDocumentText "UEs=" "b.xlsx"));
        fetchSettled 0 (inr {| ok := false; contentType := None |})]
       (initialWorld true)) in
  match t with Some ?x => pose (w := x) end.
  assert (Hsteps : steps sampleEngine
       [mount (Some "https://host/a.docx") (Some "a.docx") None;
        messageEvent (JString (loadDocumentText "UEs=" "b.xlsx"));
        fetchSettled 0 (inr {| ok := false; contentType := None |})]
       (initialWorld true) = Some w) by (vm_compute; reflexivity).
  exists w. split; [exact Hsteps|].
  exact (every_url_load_is_answered_once sampleEngine true _ w Hsteps).
Defined.

(** ** The caption under the file name *)

(** X25. The caption that says where the file came from is set when a load
    starts and by nothing later: when the body of a load from a URL
    arrives, the file of that load is selected under its name, and the
    caption stays what the last load started made it, also when that was a
    request of the mobile application or an upload. *)
Theorem caption_names_the_last_load_started E w n fileName bytes :
  nth_error (tasks w) n = Some (readingBody fileName) ->
  exists w',
    step E (bodySettled n (inr bytes)) w = Some w' /\
    selectedFile (view w') = Some {| name := fileName; content := bytes |} /\
    getLoadSourceText (loadSource (view w'))
    = getLoadSourceText (loadSource (view w)).
Proof.
  intros Htask. cbn [step]. rewrite Htask.
  destruct (framed w) eqn:Hframed; url_run;
    destruct (classify fileName); url_simpl Hframed;
    (eexists; split; [reflexivity|]); split; reflexivity.
Qed.

Lemma caption_names_the_last_load_started_witness :
  exists w w',
    steps sampleEngine
      [mount (Some "https://host/a.docx") (Some "a.docx") None;
       fetchSettled 0 (inr {| ok := true; contentType := None |});
       messageEvent (JString (loadDocumentText "UEs=" "b.pptx"))]
      (initialWorld true) = Some w /\
    step sampleEngine (bodySettled 0 (inr [80; 75])) w = Some w' /\
    selectedFile (view w') = Some {| name := "a.docx"; content := [80; 75] |} /\
    getLoadSourceText (loadSource (view w')) = "Loaded from Mobile App".
Proof.
  let t := eval vm_compute in
    (steps sampleEngine
       [mount (Some "https://host/a.docx") (Some "a.docx") None;
        fetchSettled 0 (inr {| ok := true; contentType := None |});
        messageEvent (JString (loadDocumentText "UEs=" "b.pptx"))]
       (initialWorld true)) in
  match t with Some ?x => pose (w := x) end.
  assert (Hsteps : steps sampleEngine
       [mount (Some "https://host/a.docx") (Some "a.docx") None;
        fetchSettled 0 (inr {| ok := true; contentType := None |});
        messageEvent (JString (loadDocumentText "UEs=" "b.pptx"))]
       (initialWorld true) = Some w) by (vm_compute; reflexivity).
  assert (Htask : nth_error (tasks w) 0 = Some (readingBody "a.docx"))
    by reflexivity.
  destruct (caption_names_the_last_load_started sampleEngine w 0 "a.docx" [80; 75] Htask)
    as (w' & Hstep & Hfile & Hcaption).
  exists w, w'. repeat split; assumption.
Defined.
